(** * nsist/copymodules.py: locating and staging importable modules

    A shallow embedding of [nsist/copymodules.py].  Python strings are
    [string]; a call that can raise returns [res]; code that touches the
    file system is a state transformer over [world].  The library calls
    the module makes ([os.path], [fnmatch], [shutil], [zipfile],
    [tempfile]) are modelled in their POSIX flavour, each next to the
    place that uses it. *)

From Stdlib Require Import String Ascii List Bool Arith Lia DecimalString.
From stdpp Require Import base option list gmap strings.

Set Warnings "-register-all".

Local Open Scope string_scope.
Local Open Scope list_scope.
Local Open Scope nat_scope.

(** ** Exceptions and fallible results *)

Inductive exn : Type :=
| ExtensionModuleMismatch (msg : string)
| ImportError (msg : string)
| NameError (name : string)
| AssertionError
| KeyError (key : string)
| ValueError (msg : string)
| FileNotFoundError (path : string)
| FileExistsError (path : string)
| IsADirectoryError (path : string)
| NotADirectoryError (path : string)
| SameFileError (src dst : string).

Inductive res (A : Type) : Type :=
| Ok (a : A)
| Raise (e : exn).
Arguments Ok {A} a.
Arguments Raise {A} e.

Definition res_bind {A B} (r : res A) (k : A → res B) : res B :=
  match r with
  | Ok a => k a
  | Raise e => Raise e
  end.

(** [for x in l: body x], stopping at the first exception. *)
Fixpoint res_for {A} (l : list A) (body : A → res unit) : res unit :=
  match l with
  | [] => Ok tt
  | x :: l' => res_bind (body x) (λ _, res_for l' body)
  end.

(** [any(p x for x in l)]: the generator is consumed up to the first true
    element, so an exception behind it is never reached. *)
Fixpoint res_any {A} (p : A → res bool) (l : list A) : res bool :=
  match l with
  | [] => Ok false
  | x :: l' => res_bind (p x) (λ b, if b then Ok true else res_any p l')
  end.

(** ** Python [str] methods *)

Module PyStr.

Definition startswith (s prefix : string) : bool := String.prefix prefix s.

Fixpoint endswith (s suffix : string) : bool :=
  if String.eqb s suffix then true
  else match s with
       | EmptyString => false
       | String _ s' => endswith s' suffix
       end.

(** [s[n:]] *)
Fixpoint drop (n : nat) (s : string) : string :=
  match n, s with
  | S n', String _ s' => drop n' s'
  | _, _ => s
  end.

(** [s[:n]] *)
Fixpoint take (n : nat) (s : string) : string :=
  match n, s with
  | S n', String c s' => String c (take n' s')
  | _, _ => EmptyString
  end.

(** [s.split(sep)] for a one-character separator. *)
Fixpoint split (sep : ascii) (s : string) : list string :=
  match s with
  | EmptyString => [EmptyString]
  | String c s' =>
      if Ascii.eqb c sep then EmptyString :: split sep s'
      else match split sep s' with
           | w :: ws => String c w :: ws
           | [] => [String c EmptyString]
           end
  end.

(** [sep.join(l)] *)
Fixpoint join (sep : string) (l : list string) : string :=
  match l with
  | [] => EmptyString
  | x :: l' =>
      match l' with
      | [] => x
      | _ :: _ => x +:+ sep +:+ join sep l'
      end
  end.

(** [s.rfind(c)], [None] standing for [-1]. *)
Fixpoint rfind (c : ascii) (s : string) : option nat :=
  match s with
  | EmptyString => None
  | String a s' =>
      match rfind c s' with
      | Some i => Some (S i)
      | None => if Ascii.eqb a c then Some 0 else None
      end
  end.

(** [s.rstrip(c)] *)
Fixpoint rstrip (c : ascii) (s : string) : string :=
  match s with
  | EmptyString => EmptyString
  | String a s' =>
      match rstrip c s' with
      | EmptyString => if Ascii.eqb a c then EmptyString else String a EmptyString
      | t => String a t
      end
  end.

(** [str(n)] for a non-negative integer. *)
Definition str (n : nat) : string := NilEmpty.string_of_uint (Nat.to_uint n).

(** [c in s] *)
Fixpoint contains (c : ascii) (s : string) : bool :=
  match s with
  | EmptyString => false
  | String a s' => Ascii.eqb a c || contains c s'
  end.

(** [repr(s)], which the [%r] of a format writes.  A character of a string
    stands for the code point of its number, below 256.  The string is put
    between apostrophes, or between double quotes when it holds an
    apostrophe and no double quote; the quote used and the backslash get a
    backslash in front, tab, newline and carriage return become [\t], [\n]
    and [\r], any other character that is not printable becomes [\x] and
    its two hexadecimal digits, and the printable ones stay. *)
Definition dquote : ascii := "034"%char.

Definition hex_digit (n : nat) : ascii :=
  nth n (list_ascii_of_string "0123456789abcdef") "0"%char.

Definition hex2 (n : nat) : string :=
  String (hex_digit (n / 16)) (String (hex_digit (n mod 16)) EmptyString).

(** [c.isprintable()] for a code point below 256. *)
Definition isprintable (c : ascii) : bool :=
  let n := nat_of_ascii c in
  ((32 <=? n) && (n <? 127) || (161 <=? n) && negb (n =? 173))%nat.

Definition repr_char (quote c : ascii) : string :=
  if Ascii.eqb c quote || Ascii.eqb c "\"%char then String "\"%char (String c EmptyString)
  else if Ascii.eqb c "009"%char then "\t"
  else if Ascii.eqb c "010"%char then "\n"
  else if Ascii.eqb c "013"%char then "\r"
  else if isprintable c then String c EmptyString
  else "\x" +:+ hex2 (nat_of_ascii c).

Fixpoint repr_body (quote : ascii) (s : string) : string :=
  match s with
  | EmptyString => EmptyString
  | String c s' => repr_char quote c +:+ repr_body quote s'
  end.

Definition repr (s : string) : string :=
  let quote :=
    if contains "'"%char s && negb (contains dquote s) then dquote else "'"%char in
  String quote (repr_body quote s +:+ String quote EmptyString).

Definition nonempty (s : string) : bool :=
  match s with EmptyString => false | String _ _ => true end.

(** [s * n] *)
Fixpoint mul (s : string) (n : nat) : string :=
  match n with
  | 0 => EmptyString
  | S n' => s +:+ mul s n'
  end.

(** [s[i:i+1]], [None] when [i] is out of range. *)
Definition at_index (s : string) (i : nat) : option ascii := String.get i s.

End PyStr.

(** ** The interpreter and operating system the module runs on *)

(** What [importlib.machinery.PathFinder.find_spec] hands back: the loader
    classes [ModuleCopier.copy] tells apart, each with the answers of the
    methods it is asked for the module it was found for. *)

Record ZipImporter : Type := {
  archive : string;
  (** [loader.get_filename(modname)] *)
  zip_filename : string;
  (** [loader.is_package(modname)] *)
  zip_is_package : bool;
  (** the members [zipfile.ZipFile(loader.archive)] finds: name and data *)
  zip_members : list (string * string);
}.

Inductive Loader : Type :=
| ExtensionFileLoader (path : string) (is_package : bool)
| FileLoader (filename : string) (is_package : bool)
| zipimporter (z : ZipImporter)
| OtherLoader (is_package : bool).

Definition loader_is_package (l : Loader) : bool :=
  match l with
  | ExtensionFileLoader _ b => b
  | FileLoader _ b => b
  | zipimporter z => zip_is_package z
  | OtherLoader b => b
  end.

Record ModuleSpec : Type := { loader : option Loader }.

Record Env : Type := {
  (** the integer fields of [sys.version_info] *)
  sys_version_info : list nat;
  sys_path : list string;
  os_getcwd : string;
  (** [os.path.realpath]: symbolic links are not part of the tree below *)
  os_path_realpath : string → string;
  (** [os.stat]: device and inode number, [None] when the path is missing *)
  os_stat : string → option (nat * nat);
  find_spec : string → list string → option ModuleSpec;
  (** [nsist.util.normalize_path]: the module imports it, its definition
      lies outside this file *)
  normalize_path : string → string;
}.

(** ** Module constants *)

Definition running_python (E : Env) : string :=
  PyStr.join "." (map PyStr.str (take 2 (sys_version_info E))).

Definition extensionmod_errmsg (platform path : string) : string :=
  "Found an extension module that will not be usable on " +:+ platform +:+ ":
" +:+ path +:+ "
Put Windows packages in pynsist_pkgs/ to avoid this.".

(** ** check_ext_mod *)

Definition check_ext_mod (E : Env) (path target_python : string) : res unit :=
  if PyStr.endswith path ".so" then
    Raise (ExtensionModuleMismatch (extensionmod_errmsg "Windows" path))
  else if PyStr.endswith path ".pyd"
          && negb (PyStr.startswith target_python (running_python E)) then
    Raise (ExtensionModuleMismatch
             (extensionmod_errmsg ("Python " +:+ target_python) path))
  else Ok tt.

(** ** [os.path] (posixpath) *)

Module os_path.

Definition sep : ascii := "/"%char.

Definition isabs (s : string) : bool := PyStr.startswith s "/".

Definition join2 (path b : string) : string :=
  if PyStr.startswith b "/" then b
  else if negb (PyStr.nonempty path) || PyStr.endswith path "/" then path +:+ b
  else path +:+ "/" +:+ b.

(** [os.path.join] of [a] and the paths [p]. *)
Definition join (a : string) (p : list string) : string := foldl join2 a p.

(** [p.rfind('/') + 1] *)
Definition after_last_sep (p : string) : nat :=
  match PyStr.rfind sep p with
  | Some k => S k
  | None => 0
  end.

Definition split (p : string) : string * string :=
  let i := after_last_sep p in
  let head := PyStr.take i p in
  let tail := PyStr.drop i p in
  let head :=
    if PyStr.nonempty head
       && negb (String.eqb head (PyStr.mul "/" (String.length head)))
    then PyStr.rstrip sep head else head in
  (head, tail).

Definition basename (p : string) : string := PyStr.drop (after_last_sep p) p.

(** [os.path.splitext]: the extension starts at the last dot of the last
    component, unless only dots precede it there. *)
Definition splitext (p : string) : string * string :=
  let filenameIndex := after_last_sep p in
  match PyStr.rfind "."%char p with
  | Some dotIndex =>
      if (filenameIndex <=? dotIndex)%nat
         && existsb (λ i, negb (bool_decide (PyStr.at_index p i = Some "."%char)))
                    (seq filenameIndex (dotIndex - filenameIndex))
      then (PyStr.take dotIndex p, PyStr.drop dotIndex p)
      else (p, EmptyString)
  | None => (p, EmptyString)
  end.

Definition normpath_step (initial_slashes : nat) (new_comps : list string)
    (comp : string) : list string :=
  if bool_decide (comp = "" ∨ comp = ".") then new_comps
  else if negb (String.eqb comp "..")
          || ((initial_slashes =? 0)%nat && bool_decide (new_comps = []))
          || bool_decide (last new_comps = Some "..")
  then new_comps ++ [comp]
  else removelast new_comps.

(** POSIX allows one or two initial slashes, and treats three or more as
    one. *)
Definition initial_slashes (path : string) : nat :=
  if PyStr.startswith path "/" then
    if PyStr.startswith path "//" && negb (PyStr.startswith path "///")
    then 2 else 1
  else 0.

Definition normpath (path : string) : string :=
  if String.eqb path "" then "."
  else
    let initial_slashes := initial_slashes path in
    let comps := PyStr.split sep path in
    let new_comps := foldl (normpath_step initial_slashes) [] comps in
    let path := PyStr.mul "/" initial_slashes +:+ PyStr.join "/" new_comps in
    if PyStr.nonempty path then path else ".".

Definition abspath (E : Env) (path : string) : string :=
  normpath (if isabs path then path else join (os_getcwd E) [path]).

(** The components [commonpath] compares: [c for c in p.split('/') if c
    and c != '.']. *)
Definition parts (p : string) : list string :=
  filter (λ c, c ≠ "" ∧ c ≠ ".") (PyStr.split sep p).

Fixpoint common_prefix (l1 l2 : list string) : list string :=
  match l1, l2 with
  | x :: l1', y :: l2' =>
      if String.eqb x y then x :: common_prefix l1' l2' else []
  | _, _ => []
  end.

(** [os.path.commonpath]: the longest common sub-path, component by
    component (the library takes it between the least and the greatest
    component list, which is the common prefix of them all). *)
Definition commonpath (paths : list string) : res string :=
  match paths with
  | [] => Raise (ValueError "commonpath() arg is an empty sequence")
  | p :: ps =>
      if forallb (λ q, Bool.eqb (isabs q) (isabs p)) ps then
        let common := foldl common_prefix (parts p) (map parts ps) in
        Ok ((if isabs p then "/" else "") +:+ PyStr.join "/" common)
      else Raise (ValueError "Can't mix absolute and relative paths")
  end.

Definition relpath (E : Env) (path start : string) : res string :=
  if negb (PyStr.nonempty path) then Raise (ValueError "no path specified")
  else
    let start_list := filter (λ x, x ≠ "") (PyStr.split sep (abspath E start)) in
    let path_list := filter (λ x, x ≠ "") (PyStr.split sep (abspath E path)) in
    let i := length (common_prefix start_list path_list) in
    let rel_list := replicate (length start_list - i) ".." ++ drop i path_list in
    match rel_list with
    | [] => Ok "."
    | a :: p => Ok (join a p)
    end.

(** [os.path.samefile]: both paths are stat'ed, and device and inode
    compared. *)
Definition samefile (E : Env) (f1 f2 : string) : res bool :=
  match os_stat E f1 with
  | None => Raise (FileNotFoundError f1)
  | Some s1 =>
      match os_stat E f2 with
      | None => Raise (FileNotFoundError f2)
      | Some s2 => Ok (bool_decide (s1 = s2))
      end
  end.

End os_path.

(** ** [fnmatch] *)

Module fnmatch.

(** The pieces [fnmatch.translate] turns a pattern into. *)
Inductive tok : Type :=
| Star
| AnyChar
| Lit (c : ascii)
| Class (negated : bool) (items : list (ascii * ascii)).

(** The items of a bracket expression: [a-z] is a range, anything else
    stands for itself. *)
Fixpoint class_items (fuel : nat) (stuff : list ascii) : list (ascii * ascii) :=
  match fuel with
  | 0 => []
  | S fuel' =>
      match stuff with
      | lo :: "-"%char :: hi :: rest => (lo, hi) :: class_items fuel' rest
      | c :: rest => (c, c) :: class_items fuel' rest
      | [] => []
      end
  end.

(** The text up to the next [']'] and what follows it. *)
Fixpoint upto_close (pat : list ascii) : option (list ascii * list ascii) :=
  match pat with
  | [] => None
  | c :: p =>
      if Ascii.eqb c "]" then Some ([], p)
      else match upto_close p with
           | Some (body, rest) => Some (c :: body, rest)
           | None => None
           end
  end.

(** From just after a ['[']: the bracket expression and the rest of the
    pattern.  A ['!'] and then a [']'] right at the start belong to the
    expression. *)
Definition bracket (pat : list ascii) : option (list ascii * list ascii) :=
  let '(neg, p1) :=
    match pat with
    | "!"%char :: p => (["!"%char], p)
    | _ => ([], pat)
    end in
  let '(first, p2) :=
    match p1 with
    | "]"%char :: p => (["]"%char], p)
    | _ => ([], p1)
    end in
  match upto_close p2 with
  | None => None
  | Some (body, rest) => Some (neg ++ first ++ body, rest)
  end.

Fixpoint translate_list (fuel : nat) (pat : list ascii) : list tok :=
  match fuel with
  | 0 => []
  | S fuel' =>
      match pat with
      | [] => []
      | "*"%char :: p => Star :: translate_list fuel' p
      | "?"%char :: p => AnyChar :: translate_list fuel' p
      | "["%char :: p =>
          match bracket p with
          | None => Lit "["%char :: translate_list fuel' p
          | Some ("!"%char :: stuff, rest) =>
              Class true (class_items (length stuff) stuff)
                :: translate_list fuel' rest
          | Some (stuff, rest) =>
              Class false (class_items (length stuff) stuff)
                :: translate_list fuel' rest
          end
      | c :: p => Lit c :: translate_list fuel' p
      end
  end.

Definition translate (pat : string) : list tok :=
  let l := list_ascii_of_string pat in translate_list (length l) l.

Definition in_class (items : list (ascii * ascii)) (c : ascii) : bool :=
  existsb (λ '(lo, hi), (nat_of_ascii lo <=? nat_of_ascii c)%nat
                        && (nat_of_ascii c <=? nat_of_ascii hi)%nat) items.

(** A full match of the name against the translated pattern. *)
Fixpoint matches (toks : list tok) (name : list ascii) : bool :=
  match toks with
  | [] => bool_decide (name = [])
  | Star :: toks' =>
      (fix skip (s : list ascii) : bool :=
         matches toks' s
         || match s with
            | [] => false
            | _ :: s' => skip s'
            end) name
  | AnyChar :: toks' =>
      match name with
      | [] => false
      | _ :: s' => matches toks' s'
      end
  | Lit c :: toks' =>
      match name with
      | [] => false
      | a :: s' => Ascii.eqb a c && matches toks' s'
      end
  | Class negated items :: toks' =>
      match name with
      | [] => false
      | a :: s' => xorb negated (in_class items a) && matches toks' s'
      end
  end.

Definition fnmatchcase (name pat : string) : bool :=
  matches (translate pat) (list_ascii_of_string name).

(** [fnmatch.filter(names, pat)] *)
Definition filter (names : list string) (pat : string) : list string :=
  List.filter (λ name, fnmatchcase name pat) names.

End fnmatch.

(** ** The file system

    A tree of directories and regular files.  A path string is resolved
    from the root through [os_path.abspath]; the effects of the library
    calls that write are kept in [calls], in the order they took place. *)

Inductive node : Type :=
| File (data : string)
| Dir (entries : list (string * node)).

(** Induction over a tree, with the hypothesis for every entry of a
    directory. *)
Fixpoint node_induction (P : node → Prop)
    (HFile : ∀ data, P (File data))
    (HDir : ∀ es, Forall (λ e, P (snd e)) es → P (Dir es))
    (n : node) : P n :=
  match n with
  | File data => HFile data
  | Dir es =>
      HDir es
        ((fix all (l : list (string * node)) : Forall (λ e, P (snd e)) l :=
            match l with
            | [] => List.Forall_nil _
            | e :: l' =>
                List.Forall_cons _ e l' (node_induction P HFile HDir (snd e)) (all l')
            end) es)
  end.

Module Tree.

Fixpoint lookup {A} (name : string) (es : list (string * A)) : option A :=
  match es with
  | [] => None
  | (n, v) :: es' => if String.eqb n name then Some v else lookup name es'
  end.

Fixpoint set {A} (name : string) (v : A) (es : list (string * A))
    : list (string * A) :=
  match es with
  | [] => [(name, v)]
  | (n, x) :: es' =>
      if String.eqb n name then (n, v) :: es' else (n, x) :: set name v es'
  end.

Definition del {A} (name : string) (es : list (string * A)) : list (string * A) :=
  List.filter (λ e, negb (String.eqb (fst e) name)) es.

(** What is found at the end of a path. *)
Inductive status : Type :=
| Found (n : node)
| Absent
| Blocked.

Fixpoint stat (cs : list string) (n : node) : status :=
  match cs with
  | [] => Found n
  | c :: cs' =>
      match n with
      | File _ => Blocked
      | Dir es =>
          match lookup c es with
          | Some child => stat cs' child
          | None => Absent
          end
      end
  end.

Definition get (cs : list string) (n : node) : option node :=
  match stat cs n with
  | Found m => Some m
  | _ => None
  end.

(** Put [v] at the path; with [parents] the missing directories on the
    way are made.  [None] when a component on the way is a regular file,
    or is missing and not to be made. *)
Fixpoint put (parents : bool) (cs : list string) (v : node) (n : node)
    : option node :=
  match cs with
  | [] => Some v
  | c :: cs' =>
      match n with
      | File _ => None
      | Dir es =>
          let child :=
            match lookup c es with
            | Some ch => Some ch
            | None =>
                if parents || bool_decide (cs' = []) then Some (Dir [])
                else None
            end in
          match child with
          | Some ch =>
              match put parents cs' v ch with
              | Some ch' => Some (Dir (set c ch' es))
              | None => None
              end
          | None => None
          end
      end
  end.

Fixpoint remove (cs : list string) (n : node) : option node :=
  match cs with
  | [] => None
  | c :: cs' =>
      match n with
      | File _ => None
      | Dir es =>
          match lookup c es with
          | None => None
          | Some ch =>
              match cs' with
              | [] => Some (Dir (del c es))
              | _ :: _ =>
                  match remove cs' ch with
                  | Some ch' => Some (Dir (set c ch' es))
                  | None => None
                  end
              end
          end
      end
  end.

Definition dirnames (es : list (string * node)) : list string :=
  map fst (List.filter (λ e, match snd e with Dir _ => true | File _ => false end) es).

Definition filenames (es : list (string * node)) : list string :=
  map fst (List.filter (λ e, match snd e with Dir _ => false | File _ => true end) es).

(** The triples [os.walk] yields below a directory, top down. *)
Fixpoint walk (top : string) (n : node)
    : list (string * list string * list string) :=
  match n with
  | File _ => []
  | Dir es =>
      (top, dirnames es, filenames es)
        :: (fix below (l : list (string * node)) :=
              match l with
              | [] => []
              | (name, child) :: l' =>
                  walk (os_path.join top [name]) child ++ below l'
              end) es
  end.

End Tree.

Inductive call : Type :=
| CallMkdtemp (path : string)
| CallExtract (member path : string)
| CallCopy2 (src dst : string)
| CallCopytree (src dst : string)
| CallRmtree (path : string)
| CallWrite (path : string).

Record world : Type := World {
  fs : node;
  (** the names [tempfile] will draw, in order *)
  tmp_names : list string;
  calls : list call;
}.

Definition M (A : Type) : Type := world → res A * world.

Global Instance res_mret : MRet res := λ A a, Ok a.
Global Instance res_mbind : MBind res := λ A B k r, res_bind r k.
Global Instance M_mret : MRet M := λ A a w, (Ok a, w).
Global Instance M_mbind : MBind M := λ A B k m w,
  match m w with
  | (Ok a, w') => k a w'
  | (Raise e, w') => (Raise e, w')
  end.

Definition raise {A} (e : exn) : M A := λ w, (Raise e, w).

Definition lift {A} (r : res A) : M A := λ w, (r, w).

(** [assert b] *)
Definition assert (b : bool) : M unit :=
  if b then mret tt else raise AssertionError.

(** [for x in l: body x] *)
Fixpoint M_for {A} (l : list A) (body : A → M unit) : M unit :=
  match l with
  | [] => mret tt
  | x :: l' => body x ;; M_for l' body
  end.

Section FileSystem.
Context (E : Env).

Definition fs_path (p : string) : list string :=
  os_path.parts (os_path.abspath E p).

Definition stat_at (p : string) (w : world) : Tree.status :=
  Tree.stat (fs_path p) (fs w).

Definition isdir (p : string) (w : world) : bool :=
  match stat_at p w with
  | Tree.Found (Dir _) => true
  | _ => false
  end.

Definition exists_at (p : string) (w : world) : bool :=
  match stat_at p w with
  | Tree.Found _ => true
  | _ => false
  end.

(** The error of a system call whose path cannot be reached. *)
Definition unreachable (p : string) (s : Tree.status) : exn :=
  match s with
  | Tree.Blocked => NotADirectoryError p
  | _ => FileNotFoundError p
  end.

Definition os_listdir (p : string) : M (list string) := λ w,
  match stat_at p w with
  | Tree.Found (Dir es) => (Ok (map fst es), w)
  | Tree.Found (File _) => (Raise (NotADirectoryError p), w)
  | s => (Raise (unreachable p s), w)
  end.

Definition os_walk (top : string) : M (list (string * list string * list string)) :=
  λ w, match stat_at top w with
       | Tree.Found n => (Ok (Tree.walk top n), w)
       | _ => (Ok [], w)
       end.

(** Put a node at a path whose parent directory exists, recording the
    call. *)
Definition store (parents : bool) (p : string) (v : node) (c : call) : M unit :=
  λ w, match Tree.put parents (fs_path p) v (fs w) with
       | Some fs' =>
           (Ok tt, {| fs := fs'; tmp_names := tmp_names w;
                      calls := calls w ++ [c] |})
       | None =>
           (Raise (unreachable p
                     (match Tree.stat (removelast (fs_path p)) (fs w) with
                      | Tree.Found (File _) => Tree.Blocked
                      | s => s
                      end)), w)
       end.

(** [with open(p, 'w') as f: f.write(data)] *)
Definition open_write (p data : string) : M unit := λ w,
  if isdir p w then (Raise (IsADirectoryError p), w)
  else store false p (File data) (CallWrite p) w.

(** [shutil.copy2(src, dst)]: a [dst] that is a directory stands for the
    file of [src]'s name in it; copying a file onto itself is refused. *)
Definition shutil_copy2 (src dst : string) : M unit := λ w,
  let dst := if isdir dst w then os_path.join dst [os_path.basename src] else dst in
  if exists_at src w && bool_decide (fs_path src = fs_path dst)
  then (Raise (SameFileError src dst), w)
  else
    match stat_at src w with
    | Tree.Found (File data) =>
        if isdir dst w then (Raise (IsADirectoryError dst), w)
        else store false dst (File data) (CallCopy2 src dst) w
    | Tree.Found (Dir _) => (Raise (IsADirectoryError src), w)
    | s => (Raise (unreachable src s), w)
    end.

(** The loop of [shutil.copytree] over the entries of one directory: an
    ignored name is passed over, any other entry is copied by [copy]. *)
Definition copy_entries (copy : string → node → res node)
    (ignored : list string) (src : string)
    : list (string * node) → res (list (string * node)) :=
  fix each (l : list (string * node)) : res (list (string * node)) :=
    match l with
    | [] => Ok []
    | e :: l' =>
        if bool_decide (fst e ∈ ignored) then each l'
        else
          c ← copy (os_path.join src [fst e]) (snd e);
          r ← each l';
          Ok ((fst e, c) :: r)
    end.

(** The copy [shutil.copytree] makes of a directory: in every directory
    visited, the names the [ignore] callback returns are left out. *)
Fixpoint copytree_node (ignore : string → list string → res (list string))
    (src : string) (n : node) : res node :=
  match n with
  | File data => Ok (File data)
  | Dir es =>
      ignored ← ignore src (map fst es);
      es' ← copy_entries (copytree_node ignore) ignored src es;
      Ok (Dir es')
  end.

(** [shutil.copytree(src, dst, ignore=ignore)]: [src] is listed and the
    callback asked about it, then [dst] is made (it must not exist), then
    the tree is copied. *)
Definition shutil_copytree (src dst : string)
    (ignore : option (string → list string → res (list string))) : M unit :=
  let ignore := default (λ _ _, Ok []) ignore in
  λ w, match stat_at src w with
       | Tree.Found (Dir es) =>
           match ignore src (map fst es) with
           | Raise e => (Raise e, w)
           | Ok _ =>
               if exists_at dst w then (Raise (FileExistsError dst), w)
               else
                 match copytree_node ignore src (Dir es) with
                 | Raise e => (Raise e, w)
                 | Ok copy => store true dst copy (CallCopytree src dst) w
                 end
           end
       | Tree.Found (File _) => (Raise (NotADirectoryError src), w)
       | s => (Raise (unreachable src s), w)
       end.

(** [shutil.ignore_patterns] applied to the patterns. *)
Definition shutil_ignore_patterns (patterns : list string)
    : string → list string → res (list string) :=
  λ _ names, Ok (flat_map (fnmatch.filter names) patterns).

(** [shutil.rmtree(p)] *)
Definition shutil_rmtree (p : string) : M unit := λ w,
  match stat_at p w with
  | Tree.Found (Dir _) =>
      match Tree.remove (fs_path p) (fs w) with
      | Some fs' =>
          (Ok tt, {| fs := fs'; tmp_names := tmp_names w;
                     calls := calls w ++ [CallRmtree p] |})
      | None => (Raise (NotADirectoryError p), w)
      end
  | Tree.Found (File _) => (Raise (NotADirectoryError p), w)
  | s => (Raise (unreachable p s), w)
  end.

(** [tempfile.mkdtemp()]: candidate names are tried in turn, one that
    exists already is passed over. *)
Fixpoint mkdtemp_from (names : list string) (w : world) : res string * world :=
  match names with
  | [] =>
      (Raise (FileExistsError "No usable temporary directory name found"),
       {| fs := fs w; tmp_names := []; calls := calls w |})
  | file :: rest =>
      let w := {| fs := fs w; tmp_names := rest; calls := calls w |} in
      if exists_at file w then mkdtemp_from rest w
      else match store false file (Dir []) (CallMkdtemp file) w with
           | (Ok _, w') => (Ok file, w')
           | (Raise e, w') => (Raise e, w')
           end
  end.

Definition tempfile_mkdtemp : M string := λ w, mkdtemp_from (tmp_names w) w.

(** [ZipFile.extract(member, path)]: the member's name, without empty,
    ['.'] and ['..'] components, is joined to [path]; the directories above
    it are made; a name ending in ['/'] is a directory. *)
Definition zf_extract (members : list (string * string))
    (member path : string) : M string :=
  match Tree.lookup member (reverse members) with
  | None =>
      raise (KeyError ("There is no item named " +:+ PyStr.repr member
                         +:+ " in the archive"))
  | Some data =>
      let arcname :=
        PyStr.join "/"
          (filter (λ x, x ≠ "" ∧ x ≠ "." ∧ x ≠ "..")
                  (PyStr.split os_path.sep member)) in
      let targetpath := os_path.normpath (os_path.join path [arcname]) in
      if PyStr.endswith member "/" then
        λ w, if isdir targetpath w then (Ok targetpath, w)
             else if exists_at targetpath w
             then (Raise (FileExistsError targetpath), w)
             else (store true targetpath (Dir []) (CallExtract member targetpath)
                     ;; mret targetpath) w
      else
        λ w, if isdir targetpath w then (Raise (IsADirectoryError targetpath), w)
             else (store true targetpath (File data) (CallExtract member targetpath)
                     ;; mret targetpath) w
  end.

(** [ZipFile.extractall(path, members)] *)
Definition zf_extractall (members : list (string * string))
    (path : string) (names : list string) : M unit :=
  M_for names (λ name, zf_extract members name path ;; mret tt).

End FileSystem.

(** ** pjoin and ensurePathFormat *)

(** The names the module binds at its top level, imports first. *)
Definition module_globals : list string :=
  ["importlib"; "os"; "shutil"; "sys"; "tempfile"; "zipfile"; "zipimport";
   "fnmatch"; "partial"; "normalize_path"; "PY2"; "running_python";
   "ExtensionModuleMismatch"; "pjoin"; "ensurePathFormat";
   "extensionmod_errmsg"; "check_ext_mod"; "check_package_for_ext_mods";
   "copy_zipmodule"; "copytree_ignore_callback"; "ModuleCopier";
   "copy_modules"].

(** The built-in names the module refers to. *)
Definition builtin_names : list string :=
  ["str"; "len"; "any"; "set"; "open"; "isinstance"; "ImportError"].

(** Reading a global name inside a function body: the module's globals,
    then the builtins, else [NameError]. *)
Definition load_global (name : string) : res unit :=
  if bool_decide (name ∈ module_globals ++ builtin_names) then Ok tt
  else Raise (NameError name).

(** What [re.sub] would do with the pattern and replacement of
    [ensurePathFormat]: a slash or backslash that no backslash follows
    becomes two backslashes. *)
Fixpoint re_sub_separators (s : list ascii) : list ascii :=
  match s with
  | [] => []
  | c :: rest =>
      if (Ascii.eqb c "/" || Ascii.eqb c "\")
         && negb match rest with
                 | d :: _ => Ascii.eqb d "\"
                 | [] => false
                 end
      then "\"%char :: "\"%char :: re_sub_separators rest
      else c :: re_sub_separators rest
  end.

Definition ensurePathFormat (oldPath : string) : res string :=
  load_global "re" ;;
  let newPath :=
    string_of_list_ascii (re_sub_separators (list_ascii_of_string oldPath)) in
  Ok newPath.

Definition pjoin (a : string) (args : list string) : res string :=
  newPath ← ensurePathFormat (os_path.join a args);
  Ok newPath.

(** ** check_package_for_ext_mods *)

Definition check_package_for_ext_mods (E : Env) (path target_python : string)
    (ignore : option (list string)) : M unit :=
  let ignore := default [] ignore in
  triples ← os_walk E path;
  lift (res_for triples (λ '(dirpath, dirnames, filenames),
    let formattedPath :=
      os_path.abspath E (os_path_realpath E (os_path.join path [dirpath])) in
    skip ← (if bool_decide (ignore ≠ []) then
              res_any (λ item,
                         c1 ← os_path.commonpath [item];
                         c2 ← os_path.commonpath [item; formattedPath];
                         Ok (String.eqb c1 c2)) ignore
            else Ok false);
    if skip : bool then Ok tt
    else res_for filenames (λ filename,
           check_ext_mod E (os_path.join formattedPath [filename]) target_python))).

(** ** copy_zipmodule *)

Definition copy_zipmodule (E : Env) (loader : ZipImporter)
    (modname target : string) : M unit :=
  let file := zip_filename loader in
  assert (PyStr.startswith file (archive loader)) ;;
  let path_in_zip := PyStr.drop (String.length (archive loader +:+ "/")) file in
  let zf := zip_members loader in
  tempdir ← tempfile_mkdtemp E;
  (if zip_is_package loader then
     let '(pkgdir, basename) := os_path.split path_in_zip in
     assert (PyStr.startswith basename "__init__") ;;
     let pkgfiles := List.filter (λ f, PyStr.startswith f pkgdir) (map fst zf) in
     zf_extractall E zf tempdir pkgfiles ;;
     src ← lift (pjoin tempdir [pkgdir]);
     dst ← lift (pjoin target [modname]);
     shutil_copytree E src dst None
   else
     zf_extract E zf path_in_zip tempdir ;;
     src ← lift (pjoin tempdir [path_in_zip]);
     shutil_copy2 E src target) ;;
  shutil_rmtree E tempdir.

(** ** copytree_ignore_callback *)

Definition copytree_ignore_callback (E : Env) (excludes : list string)
    (pkgdir modname directory : string) (files : list string)
    : res (list string) :=
  reldir ← os_path.relpath E directory pkgdir;
  let target := os_path.join "pkgs" [modname; reldir] in
  let files := map (λ fname, normalize_path E (os_path.join target [fname])) files in
  Ok (flat_map (λ pattern, map os_path.basename (fnmatch.filter files pattern))
               (excludes ++ ["*.pyc"])).

(** ** ModuleCopier *)

Record ModuleCopier : Type := {
  py_version : string;
  path : list string;
}.

Definition ModuleCopier_init (E : Env) (py_version : string)
    (path : option (list string)) : ModuleCopier :=
  {| py_version := py_version;
     path := match path with
             | Some p => p
             | None => "" :: sys_path E
             end |}.

(** The [for ... else] of [ModuleCopier.copy] that picks the destination
    of a package: the first key of [packages_extraPath] that is the same
    file as [pkgdir] sends it below its value. *)
Fixpoint extraPath_dest (E : Env) (items : list (string * string))
    (pkgdir target modname : string) : res string :=
  match items with
  | [] => Ok (os_path.join target [modname])
  | (key, value) :: items' =>
      same ← os_path.samefile E key pkgdir;
      if same : bool then Ok (os_path.join target [value; modname])
      else extraPath_dest E items' pkgdir target modname
  end.


Definition ModuleCopier_copy (E : Env) (self : ModuleCopier)
    (modname target : string) (exclude : option (list string))
    (packages_extraPath : option (list (string * string)))
    (packages_ignorePath : option (gmap string (list string))) : M unit :=
  let packages_extraPath := default [] packages_extraPath in
  let packages_ignorePath := default ∅ packages_ignorePath in
  match find_spec E modname (path self) with
  | None => raise (ImportError ("Could not find " +:+ PyStr.repr modname))
  | Some spec =>
      match loader spec with
      | None =>
          raise (ImportError ("Cannot bundle namespace package "
                                +:+ PyStr.repr modname))
      | Some loader =>
          let pkg := loader_is_package loader in
          match loader with
          | ExtensionFileLoader loader_path _ =>
              lift (check_ext_mod E loader_path (py_version self)) ;;
              shutil_copy2 E loader_path target
          | FileLoader file _ =>
              if pkg then
                let '(pkgdir, basename) := os_path.split file in
                assert (PyStr.startswith basename "__init__") ;;
                check_package_for_ext_mods E pkgdir (py_version self)
                  (packages_ignorePath !! modname) ;;
                dest ← lift (extraPath_dest E packages_extraPath pkgdir target modname);
                match exclude with
                | Some (pattern :: patterns) =>
                    shutil_copytree E pkgdir dest
                      (Some (copytree_ignore_callback E (pattern :: patterns)
                               pkgdir modname))
                | _ =>
                    shutil_copytree E pkgdir dest
                      (Some (shutil_ignore_patterns ["*.pyc"]))
                end
              else shutil_copy2 E file target
          | zipimporter z => copy_zipmodule E z modname target
          | OtherLoader _ => mret tt
          end
      end
  end.

(** ** copy_modules *)

Definition placeholder_text : string :=
  "This file only exists so NSIS finds something in this directory.".

(** [[os.path.splitext(f)[0] for f in names]] *)
Definition noext (names : list string) : list string :=
  map (λ f, fst (os_path.splitext f)) names.

(** The "Format ignore path" step: every entry of every set is made
    absolute and symlink-free; no mapping, or an empty one, gives the empty
    mapping. *)
Definition format_ignore_path (E : Env)
    (packages_ignorePath : option (gmap string (list string)))
    : gmap string (list string) :=
  match packages_ignorePath with
  | Some ign =>
      if bool_decide (ign ≠ ∅) then
        (λ value, remove_dups
                    (map (λ item, os_path.abspath E (os_path_realpath E item)) value))
          <$> ign
      else ∅
  | None => ∅
  end.

Definition copy_modules (E : Env) (modnames : list string)
    (target py_version : string) (path : option (list string))
    (exclude : option (list string))
    (packages_extraPath : option (list (string * string)))
    (packages_ignorePath : option (gmap string (list string))) : M unit :=
  let mc := ModuleCopier_init E py_version path in
  names ← os_listdir E target;
  let files_in_target_noext := noext names in
  let packages_ignorePath := format_ignore_path E packages_ignorePath in
  M_for modnames (λ modname,
    if bool_decide (modname ∈ files_in_target_noext) then mret tt
    else ModuleCopier_copy E mc modname target exclude packages_extraPath
           (Some packages_ignorePath)) ;;
  if bool_decide (modnames = []) then
    open_write E (os_path.join target ["placeholder"]) placeholder_text
  else mret tt.

(** The names of a request that [copy_modules] hands to
    [ModuleCopier.copy]: those with no top-level entry of that stem in the
    listing of the target. *)
Definition to_copy (names modnames : list string) : list string :=
  List.filter (λ modname, negb (bool_decide (modname ∈ noext names))) modnames.

(** ** Containment of a directory in an ignore entry, as the specification
       words it

    The directory lies at or below the entry when the entry's components
    are the leading components of the directory's. *)
Definition contained_componentwise (item directory : string) : Prop :=
  os_path.parts item `prefix_of` os_path.parts directory.

Global Instance contained_componentwise_dec (item directory : string) :
  Decision (contained_componentwise item directory).
Proof. unfold contained_componentwise. apply _. Defined.

(** The files [check_package_for_ext_mods] is to look at: those of every
    directory of the walk that no ignore entry contains, each named under
    the directory's own resolved absolute path. *)
Definition files_to_check (E : Env) (ignore : list string)
    (triples : list (string * list string * list string)) : list string :=
  flat_map (λ '(dirpath, _, filenames),
    let resolved := os_path.abspath E (os_path_realpath E dirpath) in
    if bool_decide (Exists (λ item, contained_componentwise item resolved) ignore)
    then []
    else map (λ filename, os_path.join resolved [filename]) filenames) triples.

(** ** Names of directory entries *)

(** What a directory can hold as a name: not empty, not ['.'] or ['..'],
    and without a slash. *)
Definition entry_name (s : string) : bool :=
  PyStr.nonempty s && negb (PyStr.contains "/" s)
  && negb (String.eqb s ".") && negb (String.eqb s "..").

(** An entry name that reads the same on every platform: no backslash in
    it either. *)
Definition portable_name (s : string) : bool :=
  entry_name s && negb (PyStr.contains "\" s).

(** Some entry of the tree, at any depth, has a name that satisfies [P]. *)
Fixpoint has_entry (P : string → bool) (n : node) : bool :=
  match n with
  | File _ => false
  | Dir es => existsb (λ e, P (fst e) || has_entry P (snd e)) es
  end.

(** The compiled-cache files: the names [fnmatch] matches against
    ['*.pyc']. *)
Definition is_pyc (name : string) : bool := fnmatch.fnmatchcase name "*.pyc".

(** The loaders whose unit [ModuleCopier.copy] stages as a directory:
    a package on the file system or in an archive. *)
Definition stages_directory (l : Loader) : bool :=
  match l with
  | FileLoader _ is_package => is_package
  | zipimporter z => zip_is_package z
  | _ => false
  end.

(** Some regular file of the tree, at any depth, has a name that
    satisfies [P]. *)
Fixpoint has_file (P : string → bool) (n : node) : bool :=
  match n with
  | File _ => false
  | Dir es =>
      existsb (λ e, match snd e with
                    | File _ => P (fst e)
                    | Dir _ => has_file P (snd e)
                    end) es
  end.

(** The tree without the entries, at any depth, whose name satisfies
    [P]. *)
Fixpoint prune (P : string → bool) (n : node) : node :=
  match n with
  | File data => File data
  | Dir es =>
      Dir (flat_map (λ e, if P (fst e) then [] else [(fst e, prune P (snd e))]) es)
  end.

(** ** Reading the record of calls *)

Definition is_copy (c : call) : bool :=
  match c with
  | CallCopy2 _ _ | CallCopytree _ _ => true
  | _ => false
  end.

Definition is_rmtree (c : call) : bool :=
  match c with
  | CallRmtree _ => true
  | _ => false
  end.

Definition is_write (c : call) : bool :=
  match c with
  | CallWrite _ => true
  | _ => false
  end.

(** A computation that adds at most [n] copies to the record, however it
    ends. *)
Definition adds_copies {A} (n : nat) (m : M A) : Prop :=
  ∀ w r w', m w = (r, w') →
    ∃ evs, List.filter is_copy (calls w') = List.filter is_copy (calls w) ++ evs
           ∧ length evs ≤ n.

(** A computation that adds no call of the kind [P] to the record,
    however it ends. *)
Definition quiet {A} (P : call → bool) (m : M A) : Prop :=
  ∀ w r w', m w = (r, w') → List.filter P (calls w') = List.filter P (calls w).


(** The steps of [copy_zipmodule] that come before its first [pjoin] go
    through from [w] and leave [w2]: the located file lies in the archive,
    a scratch directory is made, and the member (for a package, after the
    check of its initializer, every member under its directory) is
    extracted into it. *)
Definition extraction_done (E : Env) (loader : ZipImporter) (w w2 : world) : Prop :=
  let path_in_zip :=
    PyStr.drop (String.length (archive loader +:+ "/")) (zip_filename loader) in
  PyStr.startswith (zip_filename loader) (archive loader) = true
  ∧ ∃ tempdir w1,
      tempfile_mkdtemp E w = (Ok tempdir, w1)
      ∧ if zip_is_package loader then
          PyStr.startswith (snd (os_path.split path_in_zip)) "__init__" = true
          ∧ zf_extractall E (zip_members loader) tempdir
              (List.filter (λ f, PyStr.startswith f (fst (os_path.split path_in_zip)))
                           (map fst (zip_members loader))) w1
            = (Ok tt, w2)
        else
          ∃ extracted,
            zf_extract E (zip_members loader) path_in_zip tempdir w1
            = (Ok extracted, w2).

(** ** A small installation to run the code on

    Python 3.6 with one search directory [/lib] holding a module [m], a
    package [p] (with a compiled-cache file and a sub-directory), an
    extension module [e], and an archive [/lib/a.zip] with a module [z] and
    a package [zp]; [/link/p] is a symbolic link to [/lib/p]; [/t] is an
    empty staging directory. *)
Module Sample.

Definition a_zip (filename : string) (is_package : bool) : ZipImporter :=
  {| archive := "/lib/a.zip";
     zip_filename := filename;
     zip_is_package := is_package;
     zip_members := [("z.py", "z = 1");
                     ("zp/__init__.py", "");
                     ("zp/__init__.pyc", "cache")] |}.

Definition finder (modname : string) (_ : list string) : option ModuleSpec :=
  if String.eqb modname "m" then
    Some {| loader := Some (FileLoader "/lib/m.py" false) |}
  else if String.eqb modname "p" then
    Some {| loader := Some (FileLoader "/lib/p/__init__.py" true) |}
  else if String.eqb modname "e" then
    Some {| loader := Some (ExtensionFileLoader "/lib/e.pyd" false) |}
  else if String.eqb modname "z" then
    Some {| loader := Some (zipimporter (a_zip "/lib/a.zip/z.py" false)) |}
  else if String.eqb modname "zp" then
    Some {| loader := Some (zipimporter (a_zip "/lib/a.zip/zp/__init__.py" true)) |}
  else None.

Definition inode (p : string) : option (nat * nat) :=
  if String.eqb p "/lib/p" || String.eqb p "/link/p" then Some (1, 10)
  else if String.eqb p "/lib" then Some (1, 2)
  else if String.eqb p "/t" then Some (1, 3)
  else None.

Definition env : Env :=
  {| sys_version_info := [3; 6; 3];
     sys_path := ["/lib"];
     os_getcwd := "/w";
     os_path_realpath := λ p, p;
     os_stat := inode;
     find_spec := finder;
     normalize_path := λ p, p |}.

(** The same installation under an interpreter whose version is 3.1. *)
Definition env_3_1 : Env :=
  {| sys_version_info := [3; 1; 5];
     sys_path := ["/lib"];
     os_getcwd := "/w";
     os_path_realpath := λ p, p;
     os_stat := inode;
     find_spec := finder;
     normalize_path := λ p, p |}.

Definition root : node :=
  Dir [("lib", Dir [("m.py", File "m = 1");
                    ("e.pyd", File "binary");
                    ("a.zip", File "archive");
                    ("p", Dir [("__init__.py", File "");
                               ("__init__.pyc", File "cache");
                               ("sub", Dir [("x.py", File "x = 1");
                                            ("x.pyc", File "cache")])])]);
       ("t", Dir []);
       ("tmp", Dir []);
       ("w", Dir [])].

Definition start : world :=
  {| fs := root; tmp_names := ["/tmp/tmpa1"; "/tmp/tmpb2"]; calls := [] |}.

(** A package at [/a] whose sub-directories [b] and [bexp] each hold a
    shared object. *)
Definition ab_world : world :=
  {| fs := Dir [("a", Dir [("__init__.py", File "");
                           ("b", Dir [("inner.so", File "binary")]);
                           ("bexp", Dir [("outer.so", File "binary")])])];
     tmp_names := [];
     calls := [] |}.

(** The working directory [/w] holds a package [a] whose sub-directory [b]
    holds a shared object: the tree a relative package path [a] names. *)
Definition rel_world : world :=
  {| fs := Dir [("w", Dir [("a", Dir [("__init__.py", File "");
                                      ("b", Dir [("inner.so", File "binary")])])])];
     tmp_names := [];
     calls := [] |}.

(** [s.replace('\', '/')] *)
Fixpoint slashes (s : string) : string :=
  match s with
  | EmptyString => EmptyString
  | String c s' => String (if Ascii.eqb c "\"%char then "/"%char else c) (slashes s')
  end.

(** The same installation with the [normalize_path] of pynsist's
    [nsist/util.py], which is not among the sources: [os.path.normpath],
    then every backslash turned into a slash. *)
Definition env_util : Env :=
  {| sys_version_info := [3; 6; 3];
     sys_path := ["/lib"];
     os_getcwd := "/w";
     os_path_realpath := λ p, p;
     os_stat := inode;
     find_spec := finder;
     normalize_path := λ p, slashes (os_path.normpath p) |}.

(** The package [p] with two compiled-cache files, one of them with a
    backslash in its name, which a POSIX file system allows. *)
Definition backslash_world : world :=
  {| fs := Dir [("lib", Dir [("p", Dir [("__init__.py", File "");
                                        ("a\b.pyc", File "cache");
                                        ("c.pyc", File "cache")])]);
                ("t", Dir []);
                ("w", Dir [])];
     tmp_names := [];
     calls := [] |}.

End Sample.

(** * Properties *)

(** ** Strings *)

Lemma eqb_refl_string (s : string) : String.eqb s s = true.
Proof. apply String.eqb_eq. reflexivity. Qed.

Lemma startswith_app (a b : string) : PyStr.startswith (a +:+ b) a = true.
Proof.
  unfold PyStr.startswith. induction a as [|c a IH]; simpl.
  - destruct b; reflexivity.
  - destruct (ascii_dec c c); [exact IH | congruence].
Qed.

Lemma startswith_refl (a : string) : PyStr.startswith a a = true.
Proof.
  unfold PyStr.startswith. induction a as [|c a IH]; simpl; [reflexivity|].
  destruct (ascii_dec c c); [exact IH | congruence].
Qed.

Lemma endswith_unfold (s suffix : string) :
  PyStr.endswith s suffix
  = if String.eqb s suffix then true
    else match s with
         | EmptyString => false
         | String _ s' => PyStr.endswith s' suffix
         end.
Proof. destruct s; reflexivity. Qed.

Lemma endswith_app (a b : string) : PyStr.endswith (a +:+ b) b = true.
Proof.
  induction a as [|c a IH].
  - rewrite endswith_unfold. change ("" +:+ b) with b.
    rewrite eqb_refl_string. reflexivity.
  - rewrite endswith_unfold. change (String c a +:+ b) with (String c (a +:+ b)).
    destruct (String.eqb (String c (a +:+ b)) b); [reflexivity | exact IH].
Qed.

Lemma endswith_split (s suffix : string) :
  PyStr.endswith s suffix = true → ∃ a, s = a +:+ suffix.
Proof.
  induction s as [|c s IH]; rewrite endswith_unfold.
  - destruct (String.eqb "" suffix) eqn:He; [|discriminate].
    apply String.eqb_eq in He. exists "". exact He.
  - destruct (String.eqb (String c s) suffix) eqn:He.
    + apply String.eqb_eq in He. exists "". exact He.
    + intros H. destruct (IH H) as [a ->]. exists (String c a). reflexivity.
Qed.

Lemma endswith_pyd_not_so (p : string) :
  PyStr.endswith p ".pyd" = true → PyStr.endswith p ".so" = false.
Proof.
  induction p as [|c s IH]; [discriminate|].
  rewrite (endswith_unfold (String c s) ".pyd"), (endswith_unfold (String c s) ".so").
  destruct (String.eqb (String c s) ".so") eqn:Hso.
  - apply String.eqb_eq in Hso. injection Hso as -> ->.
    intros H. vm_compute in H. discriminate H.
  - destruct (String.eqb (String c s) ".pyd") eqn:Hpyd.
    + apply String.eqb_eq in Hpyd. injection Hpyd as _ ->. reflexivity.
    + exact IH.
Qed.

(** ** check_ext_mod *)

(** C2: a path that ends in ['.so'] makes [check_ext_mod] raise
    [ExtensionModuleMismatch], whatever the target version and whatever
    version is running. *)
Theorem check_ext_mod_so_raises (E : Env) (path target_python : string) :
  PyStr.endswith path ".so" = true →
  check_ext_mod E path target_python
  = Raise (ExtensionModuleMismatch (extensionmod_errmsg "Windows" path)).
Proof. intros H. unfold check_ext_mod. rewrite H. reflexivity. Qed.

Lemma check_ext_mod_so_raises_witness :
  check_ext_mod Sample.env "/lib/_speedups.so" "3.6.3"
  = Raise (ExtensionModuleMismatch
             (extensionmod_errmsg "Windows" "/lib/_speedups.so")).
Proof. apply (check_ext_mod_so_raises Sample.env "/lib/_speedups.so" "3.6.3"). reflexivity. Defined.

(** The claim of C3 as it is worded fails: under Python 3.6 a ['.pyd'] for
    target ['3.6.3'] passes, though ['3.6.3'] is not the running version
    string ['3.6']; and under an interpreter of version 3.1 a ['.pyd'] for
    target ['3.10.2'] passes too, ['3.10.2'] beginning with ['3.1']. *)
Lemma check_ext_mod_pyd_micro_version_passes :
  (running_python Sample.env = "3.6"
   ∧ "3.6.3" ≠ running_python Sample.env
   ∧ PyStr.endswith "/lib/e.pyd" ".pyd" = true
   ∧ check_ext_mod Sample.env "/lib/e.pyd" "3.6.3" = Ok tt)
  ∧ (running_python Sample.env_3_1 = "3.1"
     ∧ "3.10.2" ≠ running_python Sample.env_3_1
     ∧ check_ext_mod Sample.env_3_1 "/lib/e.pyd" "3.10.2" = Ok tt).
Proof.
  split; repeat split; try reflexivity; vm_compute; discriminate.
Qed.

(** C3 (amended): for a path that ends in ['.pyd'], [check_ext_mod] returns
    without error when the target version is the running major.minor
    version, alone or followed by ['.'] and a micro version, and raises
    [ExtensionModuleMismatch] when the target version does not begin with
    the running major.minor version. *)
Theorem check_ext_mod_pyd (E : Env) (path : string) :
  PyStr.endswith path ".pyd" = true →
  check_ext_mod E path (running_python E) = Ok tt
  ∧ (∀ micro, check_ext_mod E path (running_python E +:+ "." +:+ micro) = Ok tt)
  ∧ (∀ target_python,
       PyStr.startswith target_python (running_python E) = false →
       check_ext_mod E path target_python
       = Raise (ExtensionModuleMismatch
                  (extensionmod_errmsg ("Python " +:+ target_python) path))).
Proof.
  intros Hpyd. unfold check_ext_mod.
  rewrite (endswith_pyd_not_so _ Hpyd), Hpyd. simpl.
  split; [|split].
  - rewrite startswith_refl. reflexivity.
  - intros micro. rewrite startswith_app. reflexivity.
  - intros target_python ->. reflexivity.
Qed.

Lemma check_ext_mod_pyd_witness :
  check_ext_mod Sample.env "/lib/e.pyd" "3.6" = Ok tt
  ∧ check_ext_mod Sample.env "/lib/e.pyd" "3.6.3" = Ok tt
  ∧ check_ext_mod Sample.env "/lib/e.pyd" "2.7.15"
    = Raise (ExtensionModuleMismatch
               (extensionmod_errmsg "Python 2.7.15" "/lib/e.pyd")).
Proof.
  destruct (check_ext_mod_pyd Sample.env "/lib/e.pyd" eq_refl) as (H1 & H2 & H3).
  split; [exact H1 | split; [exact (H2 "3") | exact (H3 "2.7.15" eq_refl)]].
Defined.

(** ** The record of calls *)

Lemma M_bind_unfold {A B} (m : M A) (k : A → M B) (w : world) :
  (m ≫= k) w
  = match m w with
    | (Ok a, w') => k a w'
    | (Raise e, w') => (Raise e, w')
    end.
Proof. reflexivity. Qed.

Section Quiet.
Context (P : call → bool).

Lemma quiet_ret {A} (a : A) : quiet P (mret a).
Proof. intros w r w' H. injection H as _ <-. reflexivity. Qed.

Lemma quiet_raise {A} (e : exn) : quiet P (@raise A e).
Proof. intros w r w' H. injection H as _ <-. reflexivity. Qed.

Lemma quiet_lift {A} (r : res A) : quiet P (lift r).
Proof. intros w r' w' H. injection H as _ <-. reflexivity. Qed.

Lemma quiet_assert (b : bool) : quiet P (assert b).
Proof. destruct b; [apply quiet_ret | apply quiet_raise]. Qed.

Lemma quiet_bind {A B} (m : M A) (k : A → M B) :
  quiet P m → (∀ a, quiet P (k a)) → quiet P (m ≫= k).
Proof.
  intros Hm Hk w r w' H. rewrite M_bind_unfold in H.
  destruct (m w) as [[a|e] w1] eqn:Hmw.
  - rewrite (Hk a _ _ _ H). exact (Hm _ _ _ Hmw).
  - injection H as _ <-. exact (Hm _ _ _ Hmw).
Qed.

Lemma quiet_for {A} (l : list A) (body : A → M unit) :
  (∀ x, quiet P (body x)) → quiet P (M_for l body).
Proof.
  intros Hb. induction l as [|x l IH]; simpl.
  - apply quiet_ret.
  - apply quiet_bind; [apply Hb | intros _; exact IH].
Qed.

Lemma quiet_store (E : Env) (parents : bool) (p : string) (v : node) (c : call) :
  P c = false → quiet P (store E parents p v c).
Proof.
  intros Hc w r w' H. unfold store in H.
  destruct (Tree.put parents (fs_path E p) v (fs w)).
  - injection H as _ <-. simpl. rewrite List.filter_app. simpl. rewrite Hc.
    apply app_nil_r.
  - injection H as _ <-. reflexivity.
Qed.

Lemma quiet_mkdtemp (E : Env) :
  (∀ p, P (CallMkdtemp p) = false) → quiet P (tempfile_mkdtemp E).
Proof.
  intros HP w. unfold tempfile_mkdtemp.
  generalize (tmp_names w) at 1. intros names. revert w.
  induction names as [|file rest IH]; intros w r w' H; simpl in H.
  - injection H as _ <-. reflexivity.
  - destruct (exists_at E file _).
    + apply IH in H. exact H.
    + destruct (store E false file (Dir []) (CallMkdtemp file) _) as [[u|e] w1] eqn:Hs;
        injection H as _ <-; apply (quiet_store E _ _ _ _ (HP file)) in Hs; exact Hs.
Qed.

Lemma quiet_extract (E : Env) (members : list (string * string)) (member p : string) :
  (∀ m q, P (CallExtract m q) = false) → quiet P (zf_extract E members member p).
Proof.
  intros HP. unfold zf_extract.
  destruct (Tree.lookup member (reverse members)); [|apply quiet_raise].
  destruct (PyStr.endswith member "/"); intros w r w' H.
  - destruct (isdir E _ w); [injection H as _ <-; reflexivity|].
    destruct (exists_at E _ w); [injection H as _ <-; reflexivity|].
    revert H. apply quiet_bind; [apply quiet_store, HP | intros; apply quiet_ret].
  - destruct (isdir E _ w); [injection H as _ <-; reflexivity|].
    revert H. apply quiet_bind; [apply quiet_store, HP | intros; apply quiet_ret].
Qed.

Lemma quiet_extractall (E : Env) (members : list (string * string))
    (p : string) (names : list string) :
  (∀ m q, P (CallExtract m q) = false) → quiet P (zf_extractall E members p names).
Proof.
  intros HP. apply quiet_for. intros name.
  apply quiet_bind; [apply quiet_extract, HP | intros; apply quiet_ret].
Qed.

End Quiet.

(** ** pjoin and copy_zipmodule *)

Lemma pjoin_raises (a : string) (args : list string) :
  pjoin a args = Raise (NameError "re").
Proof. reflexivity. Qed.

Lemma copy_zipmodule_unfold (E : Env) (loader : ZipImporter)
    (modname target : string) (w : world) :
  let path_in_zip :=
    PyStr.drop (String.length (archive loader +:+ "/")) (zip_filename loader) in
  copy_zipmodule E loader modname target w
  = if PyStr.startswith (zip_filename loader) (archive loader) then
      match tempfile_mkdtemp E w with
      | (Raise e, w1) => (Raise e, w1)
      | (Ok tempdir, w1) =>
          if zip_is_package loader then
            if PyStr.startswith (snd (os_path.split path_in_zip)) "__init__" then
              match zf_extractall E (zip_members loader) tempdir
                      (List.filter
                         (λ f, PyStr.startswith f (fst (os_path.split path_in_zip)))
                         (map fst (zip_members loader))) w1 with
              | (Ok _, w2) => (Raise (NameError "re"), w2)
              | (Raise e, w2) => (Raise e, w2)
              end
            else (Raise AssertionError, w1)
          else
            match zf_extract E (zip_members loader) path_in_zip tempdir w1 with
            | (Ok _, w2) => (Raise (NameError "re"), w2)
            | (Raise e, w2) => (Raise e, w2)
            end
      end
    else (Raise AssertionError, w).
Proof.
  intros path_in_zip. unfold copy_zipmodule. fold path_in_zip.
  rewrite M_bind_unfold.
  destruct (PyStr.startswith (zip_filename loader) (archive loader)); [|reflexivity].
  simpl assert. cbn beta iota. unfold mret at 1, M_mret at 1.
  rewrite M_bind_unfold.
  destruct (tempfile_mkdtemp E w) as [[tempdir|e] w1]; [|reflexivity].
  rewrite M_bind_unfold.
  destruct (zip_is_package loader).
  - destruct (os_path.split path_in_zip) as [pkgdir basename]. simpl fst. simpl snd.
    rewrite M_bind_unfold.
    destruct (PyStr.startswith basename "__init__"); [|reflexivity].
    simpl assert. unfold mret at 1, M_mret at 1. cbn beta iota.
    rewrite M_bind_unfold.
    destruct (zf_extractall E _ tempdir _ w1) as [[[]|e] w2]; reflexivity.
  - rewrite M_bind_unfold.
    destruct (zf_extract E _ _ tempdir w1) as [[x|e] w2]; reflexivity.
Qed.

Lemma copy_zipmodule_quiet (P : call → bool) (E : Env) (loader : ZipImporter)
    (modname target : string) :
  (∀ p, P (CallMkdtemp p) = false) → (∀ m q, P (CallExtract m q) = false) →
  quiet P (copy_zipmodule E loader modname target).
Proof.
  intros Hmk Hex w r w' H. rewrite copy_zipmodule_unfold in H.
  destruct (PyStr.startswith (zip_filename loader) (archive loader));
    [|injection H as _ <-; reflexivity].
  destruct (tempfile_mkdtemp E w) as [[tempdir|e] w1] eqn:Ht;
    apply (quiet_mkdtemp P E Hmk) in Ht; rewrite <- Ht;
    [|injection H as _ <-; reflexivity].
  destruct (zip_is_package loader).
  - destruct (PyStr.startswith _ "__init__"); [|injection H as _ <-; reflexivity].
    destruct (zf_extractall E _ tempdir _ w1) as [[u|e] w2] eqn:Hx;
      apply (quiet_extractall P E _ _ _ Hex) in Hx; rewrite <- Hx;
      injection H as _ <-; reflexivity.
  - destruct (zf_extract E _ _ tempdir w1) as [[x|e] w2] eqn:Hx;
      apply (quiet_extract P E _ _ _ Hex) in Hx; rewrite <- Hx;
      injection H as _ <-; reflexivity.
Qed.

Lemma copy_zipmodule_raises (E : Env) (loader : ZipImporter)
    (modname target : string) (w : world) :
  ∃ e w', copy_zipmodule E loader modname target w = (Raise e, w').
Proof.
  rewrite copy_zipmodule_unfold.
  destruct (PyStr.startswith (zip_filename loader) (archive loader)); [|eauto].
  destruct (tempfile_mkdtemp E w) as [[tempdir|e] w1]; [|eauto].
  destruct (zip_is_package loader).
  - destruct (PyStr.startswith _ "__init__"); [|eauto].
    destruct (zf_extractall E _ tempdir _ w1) as [[u|e] w2]; eauto.
  - destruct (zf_extract E _ _ tempdir w1) as [[x|e] w2]; eauto.
Qed.

(** C10: [ensurePathFormat] raises the [NameError] for the name [re], which
    the module never imports, before any separator is rewritten; so
    [copy_zipmodule] never returns normally and never reaches a copy: every
    call ends in an exception with no [copy2] or [copytree] done, and once
    the steps before its first [pjoin] have gone through (the archive holds
    the unit, the scratch directory is made, the extraction done) the
    exception is that [NameError]. *)
Theorem copy_zipmodule_always_raises (E : Env) (loader : ZipImporter)
    (modname target : string) (w : world) :
  (∀ oldPath, ensurePathFormat oldPath = Raise (NameError "re"))
  ∧ (∃ e w', copy_zipmodule E loader modname target w = (Raise e, w')
             ∧ List.filter is_copy (calls w') = List.filter is_copy (calls w))
  ∧ (∀ w2, extraction_done E loader w w2 →
           copy_zipmodule E loader modname target w = (Raise (NameError "re"), w2)).
Proof.
  split; [intros oldPath; reflexivity|]. split.
  - destruct (copy_zipmodule_raises E loader modname target w) as (e & w' & H).
    exists e, w'. split; [exact H|].
    exact (copy_zipmodule_quiet is_copy E loader modname target
             (λ _, eq_refl) (λ _ _, eq_refl) _ _ _ H).
  - intros w2 (Hin & tempdir & w1 & Ht & Hx).
    rewrite copy_zipmodule_unfold, Hin, Ht.
    destruct (zip_is_package loader).
    + destruct Hx as [-> ->]. reflexivity.
    + destruct Hx as [x ->]. reflexivity.
Qed.

Lemma copy_zipmodule_always_raises_witness :
  ∃ w2,
    extraction_done Sample.env (Sample.a_zip "/lib/a.zip/z.py" false) Sample.start w2
    ∧ copy_zipmodule Sample.env (Sample.a_zip "/lib/a.zip/z.py" false) "z" "/t"
        Sample.start
      = (Raise (NameError "re"), w2).
Proof.
  eexists. split; last first.
  - apply (copy_zipmodule_always_raises Sample.env
             (Sample.a_zip "/lib/a.zip/z.py" false) "z" "/t" Sample.start).
    split; [reflexivity|]. do 2 eexists. split; [vm_compute; reflexivity|].
    eexists. vm_compute. reflexivity.
  - split; [reflexivity|]. do 2 eexists. split; [vm_compute; reflexivity|].
    eexists. vm_compute. reflexivity.
Defined.

(** C1 (the code leaves the scratch directory behind): no call of
    [copy_zipmodule] ever removes a directory, and for the archived module
    [z] of the sample the scratch directory [/tmp/tmpa1], absent before the
    call, is still there with the extracted file when the call has raised. *)
Theorem copy_zipmodule_leaves_scratch :
  (∀ E loader modname target,
     quiet is_rmtree (copy_zipmodule E loader modname target))
  ∧ exists_at Sample.env "/tmp/tmpa1" Sample.start = false
  ∧ ∃ w',
      copy_zipmodule Sample.env (Sample.a_zip "/lib/a.zip/z.py" false) "z" "/t"
        Sample.start
      = (Raise (NameError "re"), w')
      ∧ stat_at Sample.env "/tmp/tmpa1" w'
        = Tree.Found (Dir [("z.py", File "z = 1")])
      ∧ calls w' = [CallMkdtemp "/tmp/tmpa1"; CallExtract "z.py" "/tmp/tmpa1/z.py"].
Proof.
  split; [|split].
  - intros. apply copy_zipmodule_quiet; reflexivity.
  - reflexivity.
  - eexists. split; [vm_compute; reflexivity|]. split; reflexivity.
Qed.

(** ** The destination of a package *)

Lemma check_package_for_ext_mods_reads (E : Env) (p t : string)
    (ignore : option (list string)) (w : world) :
  snd (check_package_for_ext_mods E p t ignore w) = w.
Proof.
  unfold check_package_for_ext_mods. rewrite M_bind_unfold.
  unfold os_walk. destruct (stat_at E p w); reflexivity.
Qed.






(** ** Path components and [commonpath] *)

Lemma length_app_string (a b : string) :
  String.length (a +:+ b) = String.length a + String.length b.
Proof. induction a as [|c a IH]; simpl; [reflexivity | rewrite IH; reflexivity]. Qed.

Lemma join_cons (sep x : string) (l : list string) :
  l ≠ [] → PyStr.join sep (x :: l) = x +:+ sep +:+ PyStr.join sep l.
Proof. destruct l; [congruence | reflexivity]. Qed.

(** Dropping trailing components, none of them empty, shortens the joined
    string. *)
Lemma join_shorter (a b : list string) :
  b ≠ [] → Forall (λ c, c ≠ "") b →
  String.length (PyStr.join "/" a) < String.length (PyStr.join "/" (a ++ b)).
Proof.
  intros Hb Hne. induction a as [|x a IH].
  - destruct b as [|y b]; [congruence|]. simpl app.
    apply Forall_cons in Hne as [Hy _].
    destruct y as [|c y]; [congruence|].
    destruct b; simpl; lia.
  - destruct a as [|x' a].
    + simpl app. destruct b as [|y b]; [congruence|].
      rewrite (join_cons _ x (y :: b)) by discriminate. simpl PyStr.join at 1.
      rewrite !length_app_string. simpl. lia.
    + change ((x :: x' :: a) ++ b) with (x :: ((x' :: a) ++ b)).
      rewrite (join_cons _ x (x' :: a)), (join_cons _ x ((x' :: a) ++ b))
        by discriminate.
      rewrite !length_app_string. lia.
Qed.

Lemma common_prefix_split (l1 l2 : list string) :
  ∃ r, l1 = os_path.common_prefix l1 l2 ++ r.
Proof.
  revert l2. induction l1 as [|x l1 IH]; intros [|y l2]; simpl; eauto.
  destruct (String.eqb x y); [|eauto].
  destruct (IH l2) as [r Hr]. exists r. simpl. congruence.
Qed.

Lemma common_prefix_is_left (l1 l2 : list string) :
  os_path.common_prefix l1 l2 = l1 ↔ l1 `prefix_of` l2.
Proof.
  revert l2. induction l1 as [|x l1 IH]; intros [|y l2]; simpl.
  - split; [intros; apply prefix_nil | reflexivity].
  - split; [intros; apply prefix_nil | reflexivity].
  - split; [discriminate | intros H; apply prefix_nil_not in H; contradiction].
  - destruct (String.eqb x y) eqn:Hxy.
    + apply String.eqb_eq in Hxy as ->. split.
      * intros H. injection H as H. apply prefix_cons, IH, H.
      * intros H. f_equal. apply IH. eapply prefix_cons_inv_2, H.
    + apply String.eqb_neq in Hxy. split; [discriminate|].
      intros H. apply prefix_cons_inv_1 in H. contradiction.
Qed.

Lemma parts_nonempty (p : string) : Forall (λ c, c ≠ "") (os_path.parts p).
Proof.
  apply Forall_forall. intros c Hc. unfold os_path.parts in Hc.
  apply list_elem_of_filter in Hc. tauto.
Qed.

(** The comparison [check_package_for_ext_mods] makes between the two
    [commonpath] results decides containment by components. *)
Lemma commonpath_test (item directory : string) :
  os_path.isabs item = true → os_path.isabs directory = true →
  (c1 ← os_path.commonpath [item];
   c2 ← os_path.commonpath [item; directory];
   Ok (String.eqb c1 c2))
  = Ok (bool_decide (contained_componentwise item directory)).
Proof.
  intros Hi Hd. unfold os_path.commonpath. simpl forallb. rewrite Hi, Hd. simpl.
  f_equal. unfold contained_componentwise.
  change (String.append "") with (λ s : string, s). cbn beta.
  destruct (common_prefix_split (os_path.parts item) (os_path.parts directory))
    as [r Hr].
  destruct r as [|c r].
  - rewrite app_nil_r in Hr. rewrite <- Hr, eqb_refl_string.
    symmetry. apply bool_decide_eq_true_2, common_prefix_is_left. congruence.
  - assert (Hlt : String.length
                    (PyStr.join "/" (os_path.common_prefix (os_path.parts item)
                                       (os_path.parts directory)))
                  < String.length (PyStr.join "/" (os_path.parts item))).
    { rewrite Hr at 2. apply join_shorter; [discriminate|].
      pose proof (parts_nonempty item) as Hne. rewrite Hr in Hne.
      apply Forall_app in Hne as [_ Hne]. exact Hne. }
    destruct (String.eqb _ _) eqn:He.
    + apply String.eqb_eq in He. rewrite He in Hlt. lia.
    + symmetry. apply bool_decide_eq_false_2. intros Hp.
      apply common_prefix_is_left in Hp. rewrite Hp in Hr.
      apply (f_equal length) in Hr. rewrite length_app in Hr. simpl in Hr. lia.
Qed.

Lemma isabs_inv (p : string) : os_path.isabs p = true → ∃ s, p = String "/" s.
Proof.
  unfold os_path.isabs, PyStr.startswith. destruct p as [|c s]; [discriminate|].
  change (String.prefix "/" (String c s))
    with (if ascii_dec "/" c then String.prefix "" s else false).
  destruct (ascii_dec "/" c) as [<-|]; [eauto | discriminate].
Qed.

Lemma startswith_slash (s : string) : PyStr.startswith (String "/" s) "/" = true.
Proof. destruct s; reflexivity. Qed.

Lemma normpath_isabs (p : string) :
  os_path.isabs p = true → os_path.isabs (os_path.normpath p) = true.
Proof.
  intros H. destruct (isabs_inv p H) as [s ->]. unfold os_path.normpath.
  change (String.eqb (String "/" s) "") with false. cbn iota.
  unfold os_path.initial_slashes. rewrite startswith_slash.
  destruct (PyStr.startswith (String "/" s) "//"
            && negb (PyStr.startswith (String "/" s) "///"));
    cbn [PyStr.mul String.append PyStr.nonempty]; apply startswith_slash.
Qed.

Lemma abspath_isabs (E : Env) (p : string) :
  os_path.isabs (os_getcwd E) = true → os_path.isabs (os_path.abspath E p) = true.
Proof.
  intros Hcwd. unfold os_path.abspath. apply normpath_isabs.
  destruct (os_path.isabs p) eqn:Hp; [exact Hp|].
  simpl. unfold os_path.join2. unfold os_path.isabs in Hp. rewrite Hp.
  destruct (isabs_inv _ Hcwd) as [s ->].
  destruct (negb _ || _); apply startswith_slash.
Qed.

(** ** Loops over fallible bodies *)

Lemma res_for_ext {A} (l : list A) (f g : A → res unit) :
  (∀ x, f x = g x) → res_for l f = res_for l g.
Proof.
  intros H. induction l as [|x l IH]; simpl; [reflexivity|].
  rewrite H, IH. reflexivity.
Qed.

Lemma res_for_app {A} (l1 l2 : list A) (f : A → res unit) :
  res_for (l1 ++ l2) f = res_bind (res_for l1 f) (λ _, res_for l2 f).
Proof.
  induction l1 as [|x l1 IH]; simpl; [reflexivity|].
  destruct (f x) as [[]|e]; simpl; [exact IH | reflexivity].
Qed.

Lemma res_for_flat_map {A B} (h : A → list B) (l : list A) (f : B → res unit) :
  res_for (flat_map h l) f = res_for l (λ x, res_for (h x) f).
Proof.
  induction l as [|x l IH]; simpl; [reflexivity|].
  rewrite res_for_app, IH. reflexivity.
Qed.

Lemma res_for_map {A B} (h : A → B) (l : list A) (f : B → res unit) :
  res_for (map h l) f = res_for l (λ x, f (h x)).
Proof.
  induction l as [|x l IH]; simpl; [reflexivity|]. rewrite IH. reflexivity.
Qed.

Lemma res_any_decides {A} (p : A → res bool) (Q : A → Prop)
    `{∀ x, Decision (Q x)} (l : list A) :
  Forall (λ x, p x = Ok (bool_decide (Q x))) l →
  res_any p l = Ok (bool_decide (Exists Q l)).
Proof.
  induction 1 as [|x l Hx _ IH]; cbn [res_any].
  - rewrite bool_decide_eq_false_2; [reflexivity|]. intros HE. inversion HE.
  - rewrite Hx. cbn [res_bind]. destruct (decide (Q x)) as [HQ|HQ].
    + rewrite !bool_decide_eq_true_2; [reflexivity| |exact HQ]. left. exact HQ.
    + rewrite (bool_decide_eq_false_2 _ HQ), IH. f_equal.
      apply bool_decide_ext. rewrite Exists_cons. tauto.
Qed.

Lemma res_for_ext_in {A} (l : list A) (f g : A → res unit) :
  Forall (λ x, f x = g x) l → res_for l f = res_for l g.
Proof.
  induction 1 as [|x l Hx _ IH]; simpl; [reflexivity|].
  rewrite Hx, IH. reflexivity.
Qed.

Lemma join2_isabs (a b : string) :
  os_path.isabs a = true → os_path.isabs (os_path.join2 a b) = true.
Proof.
  intros Ha. unfold os_path.join2.
  destruct (PyStr.startswith b "/") eqn:Hb; [exact Hb|].
  destruct (isabs_inv a Ha) as [s ->].
  destruct (negb _ || _); apply startswith_slash.
Qed.

(** Walking from an absolute path yields absolute directory paths. *)
Lemma walk_isabs (n : node) (top : string) :
  os_path.isabs top = true →
  Forall (λ t, os_path.isabs (fst (fst t)) = true) (Tree.walk top n).
Proof.
  revert top. induction n as [data|es IH] using node_induction; intros top Htop.
  - constructor.
  - simpl. constructor; [exact Htop|].
    induction IH as [|[name child] es Hc _ IHes]; [constructor|].
    apply Forall_app. split; [|exact IHes].
    apply Hc. simpl. apply join2_isabs, Htop.
Qed.

(** ** check_package_for_ext_mods *)

(** X18: for an absolute package path and absolute ignore entries (what
    [copy_modules] hands on), under an absolute working directory,
    [check_package_for_ext_mods] passes over a directory of the walk exactly
    when some ignore entry contains the directory's resolved absolute path
    component by component, and applies [check_ext_mod], in walk order, to
    every file of every other directory.  [/a/bexp] begins with the string
    [/a/b] but is not contained in it, and so is scanned. *)
Theorem check_package_skips_contained (E : Env) (path target_python : string)
    (ignore : list string) (w : world) :
  os_path.isabs (os_getcwd E) = true →
  os_path.isabs path = true →
  Forall (λ item, os_path.isabs item = true) ignore →
  check_package_for_ext_mods E path target_python (Some ignore) w
  = (triples ← os_walk E path;
     lift (res_for (files_to_check E ignore triples)
                   (λ file, check_ext_mod E file target_python))) w
  ∧ PyStr.startswith "/a/bexp" "/a/b" = true
  ∧ ¬ contained_componentwise "/a/b" "/a/bexp"
  ∧ contained_componentwise "/a/b" "/a/b/c".
Proof.
  intros Hcwd Hpath Habs. split.
  - unfold check_package_for_ext_mods. rewrite !M_bind_unfold.
    assert (Hwalk : ∀ triples w1, os_walk E path w = (Ok triples, w1) →
              Forall (λ t, os_path.isabs (fst (fst t)) = true) triples).
    { unfold os_walk. intros triples w1 H.
      destruct (stat_at E path w); injection H as <- _;
        [apply walk_isabs, Hpath | constructor | constructor]. }
    destruct (os_walk E path w) as [[triples|e] w1]; [|reflexivity].
    specialize (Hwalk triples w1 eq_refl).
    unfold lift. f_equal. unfold files_to_check. rewrite res_for_flat_map.
    apply res_for_ext_in. eapply Forall_impl; [exact Hwalk|].
    intros [[dirpath dirnames] filenames] Hdir. simpl in Hdir. simpl default.
    assert (Hjoin : os_path.join path [dirpath] = dirpath).
    { simpl. unfold os_path.join2. unfold os_path.isabs in Hdir. rewrite Hdir.
      reflexivity. }
    rewrite Hjoin.
    set (formattedPath := os_path.abspath E _).
    assert (Hskip :
      (if bool_decide (ignore ≠ []) then
         res_any (λ item,
                    c1 ← os_path.commonpath [item];
                    c2 ← os_path.commonpath [item; formattedPath];
                    Ok (String.eqb c1 c2)) ignore
       else Ok false)
      = Ok (bool_decide (Exists (λ item, contained_componentwise item formattedPath)
                                ignore))).
    { destruct ignore as [|i0 ignore].
      - rewrite bool_decide_eq_false_2 by congruence.
        rewrite bool_decide_eq_false_2; [reflexivity|]. intros HE. inversion HE.
      - rewrite bool_decide_eq_true_2 by discriminate.
        apply res_any_decides. eapply Forall_impl; [exact Habs|].
        intros item Hi. simpl in Hi. apply commonpath_test; [exact Hi|].
        apply abspath_isabs, Hcwd. }
    unfold mbind at 1, res_mbind at 1. rewrite Hskip. simpl res_bind.
    destruct (bool_decide (Exists _ ignore)); [reflexivity|].
    rewrite res_for_map. reflexivity.
  - split; [reflexivity|]. split; [|vm_compute; eexists; reflexivity].
    intros H. apply (bool_decide_eq_true_2 _) in H. vm_compute in H. discriminate H.
Qed.

Lemma check_package_skips_contained_witness :
  files_to_check Sample.env ["/a/b"] [("/a", ["b"; "bexp"], ["__init__.py"]);
                                      ("/a/b", [], ["inner.so"]);
                                      ("/a/bexp", [], ["outer.so"])]
  = ["/a/__init__.py"; "/a/bexp/outer.so"]
  ∧ check_package_for_ext_mods Sample.env "/a" "3.6.3" (Some ["/a/b"]) Sample.ab_world
    = (Raise (ExtensionModuleMismatch
                (extensionmod_errmsg "Windows" "/a/bexp/outer.so")),
       Sample.ab_world).
Proof.
  split; [reflexivity|].
  destruct (check_package_skips_contained Sample.env "/a" "3.6.3" ["/a/b"]
              Sample.ab_world eq_refl eq_refl) as [-> _].
  - repeat constructor.
  - reflexivity.
Defined.

(** C8: the claim holds for an absolute package path only.  The scan joins
    the package path in front of each directory [os.walk] yields, which
    already begins with it, so for the relative path [a] the directory
    [a/b] is taken for [/w/a/a/b].  With the ignore entry [/w/a/b], which
    contains the directory, it is scanned all the same, and its shared
    object reported under a path that does not exist; with the entry
    [/w/a/a], which does not contain it, it is passed over and the shared
    object goes unseen.  The same tree named by its absolute path [/w/a] is
    judged as the claim says. *)
Theorem check_package_relative_path_misjudges :
  os_walk Sample.env "a" Sample.rel_world
  = (Ok [("a", ["b"], ["__init__.py"]); ("a/b", [], ["inner.so"])], Sample.rel_world)
  ∧ os_path.abspath Sample.env (os_path_realpath Sample.env "a/b") = "/w/a/b"
  ∧ os_path.abspath Sample.env
      (os_path_realpath Sample.env (os_path.join "a" ["a/b"])) = "/w/a/a/b"
  ∧ (contained_componentwise "/w/a/b" "/w/a/b"
     ∧ check_package_for_ext_mods Sample.env "a" "3.6.3" (Some ["/w/a/b"])
         Sample.rel_world
       = (Raise (ExtensionModuleMismatch
                   (extensionmod_errmsg "Windows" "/w/a/a/b/inner.so")),
          Sample.rel_world)
     ∧ check_package_for_ext_mods Sample.env "/w/a" "3.6.3" (Some ["/w/a/b"])
         Sample.rel_world
       = (Ok tt, Sample.rel_world))
  ∧ (¬ contained_componentwise "/w/a/a" "/w/a/b"
     ∧ check_package_for_ext_mods Sample.env "a" "3.6.3" (Some ["/w/a/a"])
         Sample.rel_world
       = (Ok tt, Sample.rel_world)
     ∧ check_package_for_ext_mods Sample.env "/w/a" "3.6.3" (Some ["/w/a/a"])
         Sample.rel_world
       = (Raise (ExtensionModuleMismatch
                   (extensionmod_errmsg "Windows" "/w/a/b/inner.so")),
          Sample.rel_world)).
Proof.
  split; [reflexivity|]. split; [reflexivity|]. split; [reflexivity|]. split.
  - split; [exists []; reflexivity|]. split; vm_compute; reflexivity.
  - split; [|split; vm_compute; reflexivity].
    intros H. apply (bool_decide_eq_true_2 _) in H. vm_compute in H. discriminate H.
Qed.

(** ** The batch loop of copy_modules *)

Lemma M_for_app {A} (l1 l2 : list A) (f : A → M unit) (w : world) :
  M_for (l1 ++ l2) f w = (M_for l1 f ;; M_for l2 f) w.
Proof.
  revert w. induction l1 as [|x l1 IH]; intros w; simpl; [reflexivity|].
  rewrite !M_bind_unfold. destruct (f x w) as [[[]|e] w1]; [apply IH | reflexivity].
Qed.

Lemma M_for_to_copy (names modnames : list string) (copy : string → M unit)
    (w : world) :
  M_for modnames (λ modname,
    if bool_decide (modname ∈ noext names) then mret tt else copy modname) w
  = M_for (to_copy names modnames) copy w.
Proof.
  revert w. induction modnames as [|m modnames IH]; intros w; [reflexivity|].
  unfold to_copy. simpl. destruct (bool_decide (m ∈ noext names)); simpl.
  - rewrite M_bind_unfold. apply IH.
  - rewrite !M_bind_unfold. destruct (copy m w) as [[[]|e] w1]; [apply IH | reflexivity].
Qed.

Lemma to_copy_present (names pre post : list string) (modname : string) :
  modname ∈ noext names →
  to_copy names (pre ++ modname :: post) = to_copy names (pre ++ post).
Proof.
  intros Hin. unfold to_copy. rewrite !List.filter_app. simpl.
  rewrite (bool_decide_eq_true_2 _ Hin). reflexivity.
Qed.

Lemma to_copy_all_present (names modnames : list string) :
  Forall (λ m, m ∈ noext names) modnames → to_copy names modnames = [].
Proof.
  induction 1 as [|m modnames Hm _ IH]; [reflexivity|].
  unfold to_copy. simpl. rewrite (bool_decide_eq_true_2 _ Hm). exact IH.
Qed.

Lemma os_listdir_reads (E : Env) (p : string) (w : world) :
  snd (os_listdir E p w) = w.
Proof.
  unfold os_listdir. destruct (stat_at E p w) as [[d|es]| |]; reflexivity.
Qed.

Lemma copy_modules_unfold (E : Env) (modnames : list string)
    (target py_version : string) (path : option (list string))
    (exclude : option (list string))
    (packages_extraPath : option (list (string * string)))
    (packages_ignorePath : option (gmap string (list string))) (w : world) :
  copy_modules E modnames target py_version path exclude packages_extraPath
    packages_ignorePath w
  = match os_listdir E target w with
    | (Ok names, _) =>
        match M_for (to_copy names modnames)
                (λ modname,
                   ModuleCopier_copy E (ModuleCopier_init E py_version path) modname
                     target exclude packages_extraPath
                     (Some (format_ignore_path E packages_ignorePath))) w with
        | (Ok _, w1) =>
            if bool_decide (modnames = []) then
              open_write E (os_path.join target ["placeholder"]) placeholder_text w1
            else (Ok tt, w1)
        | (Raise e, w1) => (Raise e, w1)
        end
    | (Raise e, _) => (Raise e, w)
    end.
Proof.
  unfold copy_modules. rewrite M_bind_unfold.
  pose proof (os_listdir_reads E target w) as Hw.
  destruct (os_listdir E target w) as [[names|e] w0]; simpl in Hw; subst w0;
    [|reflexivity].
  rewrite M_bind_unfold, M_for_to_copy.
  destruct (M_for _ _ w) as [[[]|e] w1]; [|reflexivity].
  destruct (bool_decide (modnames = [])); reflexivity.
Qed.

(** C4: a requested name whose stem is a top-level entry of the target when
    the batch starts is passed over: the call does what it does without
    that name in the list, result and final file system alike, and a
    request made only of such names leaves the world as it found it. *)
Theorem copy_modules_skips_present (E : Env) (pre post : list string)
    (modname target py_version : string) (path : option (list string))
    (exclude : option (list string))
    (packages_extraPath : option (list (string * string)))
    (packages_ignorePath : option (gmap string (list string)))
    (names : list string) (w : world) :
  os_listdir E target w = (Ok names, w) →
  modname ∈ noext names →
  (pre ++ post ≠ [] →
   copy_modules E (pre ++ modname :: post) target py_version path exclude
     packages_extraPath packages_ignorePath w
   = copy_modules E (pre ++ post) target py_version path exclude
       packages_extraPath packages_ignorePath w)
  ∧ (Forall (λ m, m ∈ noext names) (pre ++ post) →
     copy_modules E (pre ++ modname :: post) target py_version path exclude
       packages_extraPath packages_ignorePath w
     = (Ok tt, w)).
Proof.
  intros Hlist Hin. split.
  - intros Hne. rewrite !copy_modules_unfold, Hlist, (to_copy_present _ _ _ _ Hin).
    rewrite (bool_decide_eq_false_2 (pre ++ modname :: post = [])),
            (bool_decide_eq_false_2 (pre ++ post = [])); [reflexivity | exact Hne |].
    intros H. apply app_eq_nil in H as [_ H]. discriminate H.
  - intros Hall. rewrite copy_modules_unfold, Hlist, (to_copy_present _ _ _ _ Hin).
    rewrite (to_copy_all_present _ _ Hall). simpl.
    rewrite bool_decide_eq_false_2; [reflexivity|].
    intros H. apply app_eq_nil in H as [_ H]. discriminate H.
Qed.

Lemma copy_modules_skips_present_witness :
  copy_modules Sample.env (["old"] ++ "staged" :: []) "/t" "3.6.3" None None None None
    {| fs := Dir [("t", Dir [("staged.py", File "s = 1"); ("old", Dir [])])];
       tmp_names := []; calls := [] |}
  = copy_modules Sample.env (["old"] ++ []) "/t" "3.6.3" None None None None
      {| fs := Dir [("t", Dir [("staged.py", File "s = 1"); ("old", Dir [])])];
         tmp_names := []; calls := [] |}
  ∧ copy_modules Sample.env (["old"] ++ "staged" :: []) "/t" "3.6.3" None None None None
      {| fs := Dir [("t", Dir [("staged.py", File "s = 1"); ("old", Dir [])])];
         tmp_names := []; calls := [] |}
    = (Ok tt,
       {| fs := Dir [("t", Dir [("staged.py", File "s = 1"); ("old", Dir [])])];
          tmp_names := []; calls := [] |}).
Proof.
  destruct (copy_modules_skips_present Sample.env ["old"] [] "staged" "/t" "3.6.3"
              None None None None ["staged.py"; "old"]
              {| fs := Dir [("t", Dir [("staged.py", File "s = 1"); ("old", Dir [])])];
                 tmp_names := []; calls := [] |}) as [H1 H2].
  - reflexivity.
  - vm_compute. left.
  - split.
    + apply H1. discriminate.
    + apply H2. repeat constructor.
Defined.

(** ** Counting copies *)

Lemma adds_copies_of_quiet {A} (n : nat) (m : M A) :
  quiet is_copy m → adds_copies n m.
Proof.
  intros Hq w r w' H. exists []. rewrite app_nil_r. split; [eapply Hq, H | simpl; lia].
Qed.

Lemma adds_copies_bind {A B} (n1 n2 : nat) (m : M A) (k : A → M B) :
  adds_copies n1 m → (∀ a, adds_copies n2 (k a)) → adds_copies (n1 + n2) (m ≫= k).
Proof.
  intros Hm Hk w r w' H. rewrite M_bind_unfold in H.
  destruct (m w) as [[a|e] w1] eqn:Hmw.
  - destruct (Hm _ _ _ Hmw) as (evs1 & E1 & L1).
    destruct (Hk a _ _ _ H) as (evs2 & E2 & L2).
    exists (evs1 ++ evs2). rewrite E2, E1, app_assoc, length_app. split; [reflexivity | lia].
  - injection H as _ <-. destruct (Hm _ _ _ Hmw) as (evs1 & E1 & L1).
    exists evs1. split; [exact E1 | lia].
Qed.

Lemma adds_copies_for {A} (l : list A) (f : A → M unit) :
  (∀ x, adds_copies 1 (f x)) → adds_copies (length l) (M_for l f).
Proof.
  intros Hf. induction l as [|x l IH]; simpl.
  - apply adds_copies_of_quiet, quiet_ret.
  - apply (adds_copies_bind 1 (length l)); [apply Hf | intros _; exact IH].
Qed.





Lemma quiet_reads {A} (P : call → bool) (m : M A) :
  (∀ w, snd (m w) = w) → quiet P m.
Proof. intros Hm w r w' H. specialize (Hm w). rewrite H in Hm. simpl in Hm. congruence. Qed.






(** ** Splitting and joining paths *)

Lemma append_cons (x : ascii) (a b : string) : String x a +:+ b = String x (a +:+ b).
Proof. reflexivity. Qed.

Lemma append_assoc (a b c : string) : (a +:+ b) +:+ c = a +:+ (b +:+ c).
Proof.
  induction a as [|x a IH]; [reflexivity|]. rewrite !append_cons, IH. reflexivity.
Qed.

Lemma append_nil_r (a : string) : a +:+ "" = a.
Proof.
  induction a as [|x a IH]; [reflexivity|]. rewrite append_cons, IH. reflexivity.
Qed.

Lemma split_nonempty (c : ascii) (s : string) : PyStr.split c s ≠ [].
Proof.
  destruct s as [|a s]; simpl; [discriminate|].
  destruct (Ascii.eqb a c); [discriminate|].
  destruct (PyStr.split c s); discriminate.
Qed.

Lemma split_cons_other (c a : ascii) (s : string) :
  Ascii.eqb a c = false →
  ∃ w ws, PyStr.split c s = w :: ws ∧ PyStr.split c (String a s) = String a w :: ws.
Proof.
  intros Ha. simpl. rewrite Ha.
  destruct (PyStr.split c s) as [|w ws] eqn:Hs; [destruct (split_nonempty c s Hs)|].
  eauto.
Qed.

Lemma split_no_sep (c : ascii) (s : string) :
  PyStr.contains c s = false → PyStr.split c s = [s].
Proof.
  induction s as [|a s IH]; simpl; [reflexivity|].
  intros H. apply orb_false_iff in H as [Ha Hs]. rewrite Ha, (IH Hs). reflexivity.
Qed.

Lemma split_app_sep (c : ascii) (a b : string) :
  PyStr.split c (a +:+ String c b) = PyStr.split c a ++ PyStr.split c b.
Proof.
  induction a as [|x a IH]; simpl.
  - rewrite Ascii.eqb_refl. reflexivity.
  - destruct (Ascii.eqb x c); [rewrite IH; reflexivity|].
    rewrite IH. destruct (PyStr.split c a) as [|w ws] eqn:Hs;
      [destruct (split_nonempty c a Hs) | reflexivity].
Qed.

Lemma split_sepfree (c : ascii) (s : string) :
  Forall (λ w, PyStr.contains c w = false) (PyStr.split c s).
Proof.
  induction s as [|a s IH]; simpl.
  - repeat constructor.
  - destruct (Ascii.eqb a c) eqn:Ha.
    + constructor; [reflexivity | exact IH].
    + destruct (PyStr.split c s) as [|w ws]; [repeat constructor; simpl; rewrite Ha; reflexivity|].
      apply Forall_cons in IH as [Hw Hws]. constructor; [|exact Hws].
      simpl. rewrite Ha, Hw. reflexivity.
Qed.

Lemma split_join (cs : list string) :
  cs ≠ [] → Forall (λ w, PyStr.contains "/" w = false) cs →
  PyStr.split "/" (PyStr.join "/" cs) = cs.
Proof.
  induction cs as [|x cs IH]; [congruence|]. intros _ Hall.
  apply Forall_cons in Hall as [Hx Hcs]. destruct cs as [|y cs].
  - simpl. apply split_no_sep, Hx.
  - rewrite join_cons by discriminate.
    change (x +:+ "/" +:+ PyStr.join "/" (y :: cs))
      with (x +:+ String "/" (PyStr.join "/" (y :: cs))).
    rewrite split_app_sep, (split_no_sep _ _ Hx), IH by (discriminate || exact Hcs).
    reflexivity.
Qed.

Lemma join_nonempty_last (cs : list string) (b : string) :
  b ≠ "" → PyStr.join "/" (cs ++ [b]) ≠ "".
Proof.
  intros Hb Hj.
  assert (Hlt := join_shorter cs [b] ltac:(discriminate)
                   ltac:(repeat constructor; exact Hb)).
  rewrite Hj in Hlt. simpl in Hlt. lia.
Qed.

Lemma filter_keeps_all {A} (P : A → Prop) `{∀ x, Decision (P x)} (l : list A) :
  Forall P l → filter P l = l.
Proof.
  induction 1 as [|x l Hx _ IH]; [reflexivity|].
  rewrite filter_cons_True by exact Hx. rewrite IH. reflexivity.
Qed.

(** The components of a normalised path are the ones it was built from. *)
Lemma parts_of_joined (k : nat) (cs : list string) :
  Forall (λ w, PyStr.contains "/" w = false ∧ w ≠ "" ∧ w ≠ ".") cs →
  os_path.parts (PyStr.mul "/" k +:+ PyStr.join "/" cs) = cs.
Proof.
  intros Hcs. unfold os_path.parts, os_path.sep. induction k as [|k IH].
  - change (PyStr.mul "/" 0 +:+ PyStr.join "/" cs) with (PyStr.join "/" cs).
    destruct cs as [|x cs]; [reflexivity|].
    rewrite split_join;
      [| discriminate | eapply Forall_impl; [exact Hcs | intros w (? & ? & ?); assumption]].
    apply filter_keeps_all. eapply Forall_impl; [exact Hcs | intros w (? & ? & ?); auto].
  - change (PyStr.mul "/" (S k) +:+ PyStr.join "/" cs)
      with (String "/" (PyStr.mul "/" k +:+ PyStr.join "/" cs)).
    change (PyStr.split "/" (String "/" ?s)) with ("" :: PyStr.split "/" s).
    rewrite filter_cons_False by tauto. exact IH.
Qed.

Lemma entry_name_inv (b : string) :
  entry_name b = true →
  b ≠ "" ∧ PyStr.contains "/" b = false ∧ b ≠ "." ∧ b ≠ ".."
  ∧ PyStr.startswith b "/" = false.
Proof.
  unfold entry_name. intros H.
  apply andb_true_iff in H as [H H4]. apply andb_true_iff in H as [H H3].
  apply andb_true_iff in H as [H1 H2].
  apply negb_true_iff in H2, H3, H4. apply String.eqb_neq in H3, H4.
  repeat split; try assumption.
  - intros ->. discriminate H1.
  - destruct b as [|c b]; [reflexivity|]. simpl in H2.
    apply orb_false_iff in H2 as [Hc _].
    unfold PyStr.startswith.
    change (String.prefix "/" (String c b))
      with (if ascii_dec "/" c then String.prefix "" b else false).
    destruct (ascii_dec "/" c) as [<-|]; [discriminate Hc | reflexivity].
Qed.

Lemma normpath_step_skip (k : nat) (acc : list string) :
  os_path.normpath_step k acc "" = acc.
Proof. reflexivity. Qed.

Lemma normpath_step_name (k : nat) (acc : list string) (b : string) :
  b ≠ "" → b ≠ "." → b ≠ ".." → os_path.normpath_step k acc b = acc ++ [b].
Proof.
  intros H1 H2 H3. unfold os_path.normpath_step.
  rewrite bool_decide_eq_false_2 by (intros [?|?]; congruence).
  apply String.eqb_neq in H3. rewrite H3. reflexivity.
Qed.

Lemma removelast_Forall {A} (P : A → Prop) (l : list A) :
  Forall P l → Forall P (removelast l).
Proof.
  induction 1 as [|x l Hx Hl IH]; [constructor|].
  simpl. destruct l; [constructor | constructor; assumption].
Qed.

Lemma normpath_comps_clean (k : nat) (comps acc : list string) :
  Forall (λ w, PyStr.contains "/" w = false ∧ w ≠ "" ∧ w ≠ ".") acc →
  Forall (λ w, PyStr.contains "/" w = false) comps →
  Forall (λ w, PyStr.contains "/" w = false ∧ w ≠ "" ∧ w ≠ ".")
         (foldl (os_path.normpath_step k) acc comps).
Proof.
  intros Hacc Hcomps. revert acc Hacc.
  induction Hcomps as [|c comps Hc _ IH]; intros acc Hacc; [exact Hacc|].
  simpl. apply IH. unfold os_path.normpath_step.
  destruct (decide (c = "" ∨ c = ".")) as [Hd|Hd].
  - rewrite (bool_decide_eq_true_2 _ Hd). exact Hacc.
  - rewrite (bool_decide_eq_false_2 _ Hd).
    destruct (negb _ || _ || _).
    + apply Forall_app. split; [exact Hacc|]. repeat constructor; [exact Hc | tauto | tauto].
    + apply removelast_Forall, Hacc.
Qed.

(** The components of [normpath q] are what the loop over [q.split('/')]
    leaves. *)
Lemma parts_normpath (q : string) :
  os_path.parts (os_path.normpath q)
  = foldl (os_path.normpath_step (os_path.initial_slashes q)) [] (PyStr.split "/" q).
Proof.
  unfold os_path.normpath. destruct (String.eqb q "") eqn:Hq.
  - apply String.eqb_eq in Hq as ->. reflexivity.
  - cbn zeta. unfold os_path.sep.
    set (k := os_path.initial_slashes q).
    set (new := foldl (os_path.normpath_step k) [] (PyStr.split "/" q)).
    assert (Hnew : os_path.parts (PyStr.mul "/" k +:+ PyStr.join "/" new) = new).
    { apply parts_of_joined, normpath_comps_clean; [constructor | apply split_sepfree]. }
    destruct (PyStr.mul "/" k +:+ PyStr.join "/" new) as [|c s] eqn:Hp.
    + simpl. rewrite <- Hnew. reflexivity.
    + simpl PyStr.nonempty. cbn iota. exact Hnew.
Qed.

Lemma startswith_cons (c d : ascii) (s p : string) :
  PyStr.startswith (String c s) (String d p)
  = Ascii.eqb d c && PyStr.startswith s p.
Proof.
  unfold PyStr.startswith.
  change (String.prefix (String d p) (String c s))
    with (if ascii_dec d c then String.prefix p s else false).
  destruct (ascii_dec d c) as [->|Hne].
  - rewrite Ascii.eqb_refl. reflexivity.
  - apply Ascii.eqb_neq in Hne. rewrite Hne. reflexivity.
Qed.

Lemma startswith_nil_r (s : string) : PyStr.startswith s "" = true.
Proof. destruct s; reflexivity. Qed.

Lemma startswith_nil_l (d : ascii) (p : string) :
  PyStr.startswith "" (String d p) = false.
Proof. reflexivity. Qed.

Lemma endswith_app_nonempty (x y suffix : string) :
  y ≠ "" → String.length suffix ≤ 1 →
  PyStr.endswith (x +:+ y) suffix = PyStr.endswith y suffix.
Proof.
  intros Hy Hs. induction x as [|c x IH]; [reflexivity|].
  rewrite append_cons, endswith_unfold, IH.
  destruct (String.eqb (String c (x +:+ y)) suffix) eqn:He; [|reflexivity].
  apply String.eqb_eq in He. subst suffix. simpl in Hs.
  destruct (x +:+ y) eqn:Hxy; [|simpl in Hs; lia].
  destruct x as [|a x]; [|rewrite append_cons in Hxy; discriminate Hxy].
  change ("" +:+ y) with y in Hxy. congruence.
Qed.

(** [join2] on a second argument that does not begin with a slash. *)
Lemma join2_relative (a b : string) :
  PyStr.startswith b "/" = false →
  os_path.join2 a b
  = a +:+ (if negb (PyStr.nonempty a) || PyStr.endswith a "/" then "" else "/") +:+ b.
Proof.
  intros Hb. unfold os_path.join2. rewrite Hb.
  destruct (negb (PyStr.nonempty a) || PyStr.endswith a "/"); reflexivity.
Qed.

Lemma nonempty_app_r (a b : string) : b ≠ "" → PyStr.nonempty (a +:+ b) = true.
Proof.
  intros Hb. destruct a as [|c a]; [|reflexivity].
  change ("" +:+ b) with b. destruct b; [congruence | reflexivity].
Qed.

Lemma nonempty_true (a : string) : a ≠ "" → PyStr.nonempty a = true.
Proof. destruct a; [congruence | reflexivity]. Qed.

Lemma startswith_app_nonempty (a x : string) (d : ascii) :
  a ≠ "" → PyStr.startswith (a +:+ x) (String d "") = PyStr.startswith a (String d "").
Proof.
  intros Ha. destruct a as [|c a]; [congruence|].
  rewrite append_cons, !startswith_cons, !startswith_nil_r. reflexivity.
Qed.

Lemma join2_join2 (cwd t b : string) :
  PyStr.startswith t "/" = false → PyStr.startswith b "/" = false →
  os_path.join2 cwd (os_path.join2 t b) = os_path.join2 (os_path.join2 cwd t) b
  ∧ PyStr.startswith (os_path.join2 t b) "/" = false.
Proof.
  intros Ht Hb.
  assert (Htb : PyStr.startswith (os_path.join2 t b) "/" = false).
  { rewrite (join2_relative t b Hb). destruct t as [|c t]; [exact Hb|].
    rewrite startswith_app_nonempty by discriminate. exact Ht. }
  split; [|exact Htb].
  rewrite (join2_relative cwd _ Htb), (join2_relative cwd t Ht), (join2_relative t b Hb).
  set (g := if negb (PyStr.nonempty cwd) || PyStr.endswith cwd "/" then "" else "/").
  destruct t as [|c t].
  - change (negb (PyStr.nonempty "") || PyStr.endswith "" "/") with true. cbn iota.
    change ("" +:+ "" +:+ b) with b.
    rewrite (join2_relative _ b Hb). rewrite !append_nil_r.
    assert (Hg : negb (PyStr.nonempty (cwd +:+ g)) || PyStr.endswith (cwd +:+ g) "/" = true).
    { subst g. destruct cwd as [|c cwd]; [reflexivity|].
      change (negb (PyStr.nonempty (String c cwd))) with false. cbn [orb].
      destruct (PyStr.endswith (String c cwd) "/") eqn:He.
      - rewrite append_nil_r, He. apply orb_true_r.
      - rewrite endswith_app. apply orb_true_r. }
    rewrite Hg. change ("" +:+ b) with b. rewrite append_assoc. reflexivity.
  - rewrite (join2_relative _ b Hb).
    assert (Hne : PyStr.nonempty (cwd +:+ g +:+ String c t) = true).
    { rewrite <- append_assoc. apply nonempty_app_r. discriminate. }
    rewrite Hne. change (negb (PyStr.nonempty (String c t))) with false.
    cbn [negb orb].
    rewrite <- (append_assoc cwd g (String c t)),
            (endswith_app_nonempty _ (String c t)) by (discriminate || (simpl; lia)).
    rewrite !append_assoc. reflexivity.
Qed.

Lemma split_join2 (Q b : string) :
  PyStr.startswith b "/" = false → PyStr.contains "/" b = false →
  ∃ X, PyStr.split "/" (os_path.join2 Q b) = X ++ [b]
       ∧ ∀ k, foldl (os_path.normpath_step k) [] (PyStr.split "/" Q)
              = foldl (os_path.normpath_step k) [] X.
Proof.
  intros Hb Hc. rewrite (join2_relative Q b Hb).
  destruct Q as [|c Q].
  - exists []. split; [apply split_no_sep, Hc | reflexivity].
  - change (negb (PyStr.nonempty (String c Q))) with false. cbn [orb].
    destruct (PyStr.endswith (String c Q) "/") eqn:He.
    + apply endswith_split in He as [Q' HQ']. rewrite HQ'.
      exists (PyStr.split "/" Q'). split.
      * change ("" +:+ b) with b. rewrite append_assoc.
        change ("/" +:+ b) with (String "/" b).
        rewrite split_app_sep, (split_no_sep _ _ Hc). reflexivity.
      * intros k. change (Q' +:+ "/") with (Q' +:+ String "/" "").
        rewrite split_app_sep. simpl PyStr.split. rewrite foldl_app. reflexivity.
    + exists (PyStr.split "/" (String c Q)). split; [|reflexivity].
      change ("/" +:+ b) with (String "/" b).
      rewrite split_app_sep, (split_no_sep _ _ Hc). reflexivity.
Qed.

Lemma initial_slashes_join2 (Q b : string) :
  Q ≠ "" → PyStr.startswith b "/" = false →
  os_path.initial_slashes (os_path.join2 Q b) = os_path.initial_slashes Q.
Proof.
  intros HQ Hb. rewrite (join2_relative Q b Hb). unfold os_path.initial_slashes.
  destruct Q as [|c1 Q]; [congruence|].
  change (negb (PyStr.nonempty (String c1 Q))) with false. cbn [orb].
  change "///" with (String "/" (String "/" (String "/" ""))).
  change "//" with (String "/" (String "/" "")).
  destruct Q as [|c2 Q].
  - rewrite append_cons, !startswith_cons, !startswith_nil_r, !startswith_nil_l.
    destruct (Ascii.eqb "/" c1) eqn:H1; [|reflexivity].
    apply Ascii.eqb_eq in H1 as <-.
    change (PyStr.endswith "/" "/") with true. cbn iota.
    change ("" +:+ "" +:+ b) with b. rewrite Hb. reflexivity.
  - destruct Q as [|c3 Q].
    + rewrite !append_cons, !startswith_cons, !startswith_nil_r, !startswith_nil_l.
      destruct (Ascii.eqb "/" c1) eqn:H1; [|reflexivity].
      destruct (Ascii.eqb "/" c2) eqn:H2; [|reflexivity].
      apply Ascii.eqb_eq in H1 as <-. apply Ascii.eqb_eq in H2 as <-.
      change (PyStr.endswith "//" "/") with true. cbn iota.
      change ("" +:+ "" +:+ b) with b. rewrite Hb. reflexivity.
    + rewrite !append_cons, !startswith_cons, !startswith_nil_r. reflexivity.
Qed.

(** Joining an entry name to a path adds that one component. *)
Lemma parts_normpath_join2 (Q b : string) :
  entry_name b = true →
  os_path.parts (os_path.normpath (os_path.join2 Q b))
  = os_path.parts (os_path.normpath Q) ++ [b].
Proof.
  intros Hb. destruct (entry_name_inv b Hb) as (H1 & H2 & H3 & H4 & H5).
  rewrite !parts_normpath.
  destruct (split_join2 Q b H5 H2) as (X & HX & Hfold).
  rewrite HX, foldl_app. simpl. rewrite normpath_step_name by assumption.
  f_equal. destruct Q as [|c Q].
  - rewrite <- Hfold. reflexivity.
  - rewrite initial_slashes_join2 by (discriminate || assumption).
    symmetry. apply Hfold.
Qed.

Lemma abspath_join_entry (E : Env) (target b : string) :
  entry_name b = true →
  os_path.parts (os_path.abspath E (os_path.join target [b]))
  = os_path.parts (os_path.abspath E target) ++ [b].
Proof.
  intros Hb. destruct (entry_name_inv b Hb) as (H1 & H2 & H3 & H4 & H5).
  unfold os_path.abspath. simpl os_path.join.
  destruct (os_path.isabs target) eqn:Ht.
  - rewrite (join2_isabs target b Ht). apply parts_normpath_join2, Hb.
  - destruct (join2_join2 (os_getcwd E) target b Ht H5) as [Hj Hrel].
    unfold os_path.isabs at 1. rewrite Hrel. rewrite Hj.
    apply parts_normpath_join2, Hb.
Qed.

(** ** Entries of the tree *)

Lemma lookup_set_eq {A} (name : string) (v : A) (es : list (string * A)) :
  Tree.lookup name (Tree.set name v es) = Some v.
Proof.
  induction es as [|[n x] es IH]; simpl.
  - rewrite eqb_refl_string. reflexivity.
  - destruct (String.eqb n name) eqn:Hn; simpl; rewrite Hn; [reflexivity | exact IH].
Qed.

Lemma set_has_name {A} (name : string) (v : A) (es : list (string * A)) :
  name ∈ map fst (Tree.set name v es).
Proof.
  induction es as [|[n x] es IH]; simpl.
  - left.
  - destruct (String.eqb n name) eqn:Hn; simpl.
    + apply String.eqb_eq in Hn as ->. left.
    + right. exact IH.
Qed.

Lemma put_stat (parents : bool) (cs : list string) (v n n' : node) :
  Tree.put parents cs v n = Some n' → Tree.stat cs n' = Tree.Found v.
Proof.
  revert n n'. induction cs as [|c cs IH]; intros n n' H; simpl in H.
  - injection H as <-. reflexivity.
  - destruct n as [d|es]; [discriminate|].
    destruct (match Tree.lookup c es with
              | Some ch => Some ch
              | None => if parents || bool_decide (cs = []) then Some (Dir []) else None
              end) as [ch|]; [|discriminate].
    destruct (Tree.put parents cs v ch) as [ch'|] eqn:Hput; [|discriminate].
    injection H as <-. simpl. rewrite lookup_set_eq. eapply IH, Hput.
Qed.

(** Putting an entry into an existing directory. *)
Lemma put_entry (parents : bool) (cs : list string) (name : string) (v n : node)
    (es : list (string * node)) :
  Tree.stat cs n = Tree.Found (Dir es) →
  ∃ n', Tree.put parents (cs ++ [name]) v n = Some n'
        ∧ Tree.stat cs n' = Tree.Found (Dir (Tree.set name v es)).
Proof.
  revert n. induction cs as [|c cs IH]; intros n H; simpl in H.
  - injection H as ->. simpl. rewrite orb_true_r.
    destruct (Tree.lookup name es); eexists; split; reflexivity.
  - destruct n as [d|es0]; [discriminate|].
    destruct (Tree.lookup c es0) as [ch|] eqn:Hch; [|discriminate].
    destruct (IH ch H) as (ch' & Hput & Hstat). simpl. rewrite Hch, Hput.
    eexists. split; [reflexivity|]. simpl. rewrite lookup_set_eq. exact Hstat.
Qed.

(** ** Calls other than the placeholder write *)

Section QuietCopies.
Context (P : call → bool).
Context (HPmk : ∀ p, P (CallMkdtemp p) = false).
Context (HPex : ∀ m q, P (CallExtract m q) = false).
Context (HPc2 : ∀ s d, P (CallCopy2 s d) = false).
Context (HPct : ∀ s d, P (CallCopytree s d) = false).

Lemma quiet_copy2 (E : Env) (src dst : string) : quiet P (shutil_copy2 E src dst).
Proof.
  intros w r w' H. unfold shutil_copy2 in H.
  destruct (exists_at E src w && _); [injection H as _ <-; reflexivity|].
  destruct (stat_at E src w) as [[data|es]| |]; try (injection H as _ <-; reflexivity).
  destruct (isdir E _ w); [injection H as _ <-; reflexivity|].
  eapply quiet_store, H. apply HPc2.
Qed.

Lemma quiet_copytree (E : Env) (src dst : string)
    (ignore : option (string → list string → res (list string))) :
  quiet P (shutil_copytree E src dst ignore).
Proof.
  intros w r w' H. unfold shutil_copytree in H.
  destruct (stat_at E src w) as [[data|es]| |]; try (injection H as _ <-; reflexivity).
  destruct (default _ ignore src (map fst es)); [|injection H as _ <-; reflexivity].
  destruct (exists_at E dst w); [injection H as _ <-; reflexivity|].
  destruct (copytree_node _ src (Dir es)); [|injection H as _ <-; reflexivity].
  eapply quiet_store, H. apply HPct.
Qed.

Lemma quiet_ModuleCopier_copy (E : Env) (self : ModuleCopier)
    (modname target : string) (exclude : option (list string))
    (packages_extraPath : option (list (string * string)))
    (packages_ignorePath : option (gmap string (list string))) :
  quiet P (ModuleCopier_copy E self modname target exclude packages_extraPath
             packages_ignorePath).
Proof.
  unfold ModuleCopier_copy.
  destruct (find_spec E modname (path self)) as [[[l|]]|]; try apply quiet_raise.
  destruct l as [loader_path b|file b|z|b]; cbn [loader_is_package].
  - apply quiet_bind; [apply quiet_lift | intros _; apply quiet_copy2].
  - destruct b; [|apply quiet_copy2].
    destruct (os_path.split file) as [pkgdir basename].
    apply quiet_bind; [apply quiet_assert|]. intros _.
    apply quiet_bind.
    { apply quiet_reads. intros w. apply check_package_for_ext_mods_reads. }
    intros _. apply quiet_bind; [apply quiet_lift|].
    intros dest. destruct exclude as [[|pattern patterns]|]; apply quiet_copytree.
  - apply copy_zipmodule_quiet; assumption.
  - apply quiet_ret.
Qed.

End QuietCopies.

(** ** The placeholder *)

(** C6: called with an empty list on a directory (with no directory named
    [placeholder] in the way), [copy_modules] makes one write, of the file
    [placeholder] in the target, which is then not empty and otherwise as
    before; called with a list that is not empty it writes no file of its
    own. *)
Theorem copy_modules_placeholder (E : Env) (target py_version : string)
    (path : option (list string)) (exclude : option (list string))
    (packages_extraPath : option (list (string * string)))
    (packages_ignorePath : option (gmap string (list string))) :
  (∀ w es,
     stat_at E target w = Tree.Found (Dir es) →
     isdir E (os_path.join target ["placeholder"]) w = false →
     ∃ w',
       copy_modules E [] target py_version path exclude packages_extraPath
         packages_ignorePath w = (Ok tt, w')
       ∧ calls w' = calls w ++ [CallWrite (os_path.join target ["placeholder"])]
       ∧ stat_at E (os_path.join target ["placeholder"]) w'
         = Tree.Found (File placeholder_text)
       ∧ os_listdir E target w'
         = (Ok (map fst (Tree.set "placeholder" (File placeholder_text) es)), w')
       ∧ "placeholder" ∈ map fst (Tree.set "placeholder" (File placeholder_text) es))
  ∧ (∀ modnames,
       modnames ≠ [] →
       quiet is_write (copy_modules E modnames target py_version path exclude
                         packages_extraPath packages_ignorePath)).
Proof.
  split.
  - intros w es Hdir Hfree.
    destruct (put_entry false (fs_path E target) "placeholder" (File placeholder_text)
                (fs w) es Hdir) as (fs' & Hput & Hstat).
    assert (Hpath : fs_path E (os_path.join target ["placeholder"])
                    = fs_path E target ++ ["placeholder"]).
    { apply abspath_join_entry. reflexivity. }
    exists {| fs := fs'; tmp_names := tmp_names w;
              calls := calls w ++ [CallWrite (os_path.join target ["placeholder"])] |}.
    split; [|split; [reflexivity | split; [|split]]].
    + rewrite copy_modules_unfold. unfold os_listdir at 1. rewrite Hdir.
      change (M_for (to_copy (map fst es) []) ?f w) with (@Ok unit tt, w).
      cbn iota. rewrite bool_decide_eq_true_2 by reflexivity.
      unfold open_write. rewrite Hfree. unfold store.
      rewrite Hpath, Hput. reflexivity.
    + unfold stat_at. simpl fs. rewrite Hpath. eapply put_stat, Hput.
    + unfold os_listdir, stat_at. simpl fs. rewrite Hstat. reflexivity.
    + apply set_has_name.
  - intros modnames Hne w r w' H. rewrite copy_modules_unfold in H.
    pose proof (os_listdir_reads E target w) as Hl.
    destruct (os_listdir E target w) as [[names|e] w0]; simpl in Hl; subst w0;
      [|injection H as _ <-; reflexivity].
    destruct (M_for _ _ w) as [r1 w1] eqn:Hfor.
    assert (Hq : List.filter is_write (calls w1) = List.filter is_write (calls w)).
    { revert Hfor. apply quiet_for. intros m.
      apply quiet_ModuleCopier_copy; reflexivity. }
    rewrite (bool_decide_eq_false_2 _ Hne) in H.
    destruct r1 as [[]|e]; injection H as _ <-; exact Hq.
Qed.

Lemma copy_modules_placeholder_witness :
  ∃ w',
    copy_modules Sample.env [] "/t" "3.6.3" None None None None Sample.start = (Ok tt, w')
    ∧ calls w' = calls Sample.start ++ [CallWrite "/t/placeholder"]
    ∧ stat_at Sample.env "/t/placeholder" w' = Tree.Found (File placeholder_text)
    ∧ os_listdir Sample.env "/t" w' = (Ok ["placeholder"], w')
    ∧ "placeholder" ∈ ["placeholder"].
Proof.
  apply (proj1 (copy_modules_placeholder Sample.env "/t" "3.6.3" None None None None)
           Sample.start []); reflexivity.
Defined.

(** ** Compiled-cache files *)

Lemma matches_literal (suffix name : string) :
  fnmatch.matches (map fnmatch.Lit (list_ascii_of_string suffix))
                  (list_ascii_of_string name)
  = String.eqb name suffix.
Proof.
  revert name. induction suffix as [|d suffix IH]; intros [|a name]; try reflexivity.
  simpl. rewrite IH. reflexivity.
Qed.

(** ['*.pyc'] matches the names that end in ['.pyc']. *)
Lemma is_pyc_endswith (name : string) : is_pyc name = PyStr.endswith name ".pyc".
Proof.
  unfold is_pyc, fnmatch.fnmatchcase.
  change (fnmatch.translate "*.pyc")
    with (fnmatch.Star :: map fnmatch.Lit (list_ascii_of_string ".pyc")).
  induction name as [|a name IH].
  - reflexivity.
  - rewrite endswith_unfold, <- IH, <- matches_literal. reflexivity.
Qed.

Lemma copy_entries_inv (copy : string → node → res node) (ignored : list string)
    (src : string) (l es' : list (string * node)) :
  copy_entries copy ignored src l = Ok es' →
  Forall (λ e', ∃ child, (fst e', child) ∈ l ∧ (fst e' ∉ ignored)
                         ∧ copy (os_path.join src [fst e']) child = Ok (snd e')) es'.
Proof.
  revert es'. induction l as [|e l IH]; intros es' H; simpl in H.
  - injection H as <-. constructor.
  - destruct (decide (fst e ∈ ignored)) as [Hin|Hout].
    + rewrite (bool_decide_eq_true_2 _ Hin) in H.
      eapply Forall_impl; [exact (IH _ H)|].
      intros e' (child & Hc & Hrest). exists child. split; [right; exact Hc | exact Hrest].
    + rewrite (bool_decide_eq_false_2 _ Hout) in H.
      unfold mbind, res_mbind in H.
      destruct (copy (os_path.join2 src (fst e)) (snd e)) as [c|] eqn:Hc; [|discriminate].
      simpl in H. destruct (copy_entries copy ignored src l) as [r|]; [|discriminate].
      injection H as <-. constructor.
      * exists (snd e). simpl. split; [destruct e; left | split; assumption].
      * eapply Forall_impl; [exact (IH _ eq_refl)|].
        intros e' (child & Hc' & Hrest). exists child.
        split; [right; exact Hc' | exact Hrest].
Qed.

(** A tree copy leaves out, at every depth, the names its callback is sure
    to return. *)
Lemma copytree_node_omits (Q : string → bool)
    (ignore : string → list string → res (list string)) :
  (∀ src names ig, ignore src names = Ok ig →
     ∀ name, name ∈ names → Q name = true → name ∈ ig) →
  ∀ n src copy, copytree_node ignore src n = Ok copy → has_entry Q copy = false.
Proof.
  intros Hcover n. induction n as [data|es IH] using node_induction; intros src copy H.
  - injection H as <-. reflexivity.
  - simpl in H. unfold mbind, res_mbind in H.
    destruct (ignore src (map fst es)) as [ignored|] eqn:Hig; [|discriminate].
    simpl in H.
    destruct (copy_entries (copytree_node ignore) ignored src es) as [es'|] eqn:Hes;
      [|discriminate].
    injection H as <-. simpl.
    apply copy_entries_inv in Hes.
    apply not_true_is_false. intros Hex. apply existsb_exists in Hex as (e' & He' & Hq).
    rewrite Forall_forall in Hes. apply list_elem_of_In in He'.
    destruct (Hes e' He') as (child & Hin & Hout & Hcopy).
    apply orb_true_iff in Hq as [Hq|Hq].
    + apply Hout. eapply Hcover; [exact Hig | | exact Hq].
      apply list_elem_of_fmap. exists (fst e', child). split; [reflexivity | exact Hin].
    + rewrite Forall_forall in IH. specialize (IH _ Hin _ _ Hcopy).
      simpl in IH. congruence.
Qed.

Lemma has_entry_weaken (P Q : string → bool) (n : node) :
  (∀ name, P name = true → Q name = true) →
  has_entry Q n = false → has_entry P n = false.
Proof.
  intros HPQ. induction n as [data|es IH] using node_induction; [reflexivity|].
  simpl. intros HQ. apply not_true_is_false. intros HP. apply not_true_iff_false in HQ.
  apply HQ. apply existsb_exists in HP as (e & He & Hp). apply existsb_exists.
  exists e. split; [exact He|].
  apply orb_true_iff in Hp as [Hp|Hp]; apply orb_true_iff.
  - left. apply HPQ, Hp.
  - right. rewrite Forall_forall in IH. apply list_elem_of_In in He.
    destruct (has_entry Q (snd e)) eqn:Hqe; [reflexivity|].
    rewrite (IH _ He Hqe) in Hp. discriminate Hp.
Qed.

Lemma ignore_patterns_covers (src : string) (names ig : list string) :
  shutil_ignore_patterns ["*.pyc"] src names = Ok ig →
  ∀ name, name ∈ names → is_pyc name = true → name ∈ ig.
Proof.
  intros H name Hin Hpyc. injection H as <-. simpl. rewrite app_nil_r.
  unfold fnmatch.filter. apply list_elem_of_In, List.filter_In.
  split; [apply list_elem_of_In, Hin | exact Hpyc].
Qed.

Lemma take_drop_string (k : nat) (s : string) : PyStr.take k s +:+ PyStr.drop k s = s.
Proof.
  revert s. induction k as [|k IH]; intros [|c s]; try reflexivity.
  simpl. rewrite append_cons, IH. reflexivity.
Qed.

Lemma endswith_app_r (a b suffix : string) :
  PyStr.endswith b suffix = true → PyStr.endswith (a +:+ b) suffix = true.
Proof.
  intros H. apply endswith_split in H as [b' ->].
  rewrite <- append_assoc. apply endswith_app.
Qed.

(** With a [normalize_path] that keeps the last component, the exclusion
    callback returns every portable ['*.pyc'] name of the directory. *)
Lemma callback_covers (E : Env) (excludes : list string) (pkgdir modname : string) :
  (∀ dir fname, portable_name fname = true →
     os_path.basename (normalize_path E (os_path.join dir [fname])) = fname) →
  ∀ src names ig,
    copytree_ignore_callback E excludes pkgdir modname src names = Ok ig →
    ∀ name, name ∈ names → portable_name name && is_pyc name = true → name ∈ ig.
Proof.
  intros Hnorm src names ig H name Hin Hq.
  apply andb_true_iff in Hq as [Hport Hpyc].
  unfold copytree_ignore_callback in H. unfold mbind, res_mbind in H.
  destruct (os_path.relpath E src pkgdir) as [reldir|]; [|discriminate].
  simpl in H. injection H as <-.
  set (target := foldl os_path.join2 "pkgs" [modname; reldir]).
  apply list_elem_of_In, in_flat_map. exists "*.pyc". split.
  { apply in_or_app. right. left. reflexivity. }
  specialize (Hnorm target name Hport). simpl in Hnorm.
  rewrite <- Hnorm at 1. apply in_map. unfold fnmatch.filter. apply List.filter_In.
  split.
  - apply (in_map (λ fname, normalize_path E (os_path.join2 target fname))).
    apply list_elem_of_In, Hin.
  - fold (is_pyc (normalize_path E (os_path.join2 target name))).
    rewrite is_pyc_endswith.
    rewrite <- (take_drop_string
                  (os_path.after_last_sep (normalize_path E (os_path.join2 target name)))
                  (normalize_path E (os_path.join2 target name))).
    apply endswith_app_r. fold (os_path.basename (normalize_path E (os_path.join2 target name))).
    rewrite Hnorm, <- is_pyc_endswith. exact Hpyc.
Qed.

Lemma store_inv (E : Env) (parents : bool) (p : string) (v : node) (c : call)
    (w w' : world) (r : res unit) :
  store E parents p v c w = (r, w') →
  (r = Ok tt ∧ stat_at E p w' = Tree.Found v ∧ calls w' = calls w ++ [c])
  ∨ (∃ e, r = Raise e) ∧ w' = w.
Proof.
  unfold store. destruct (Tree.put parents (fs_path E p) v (fs w)) as [fs'|] eqn:Hput;
    intros H; injection H as <- <-.
  - left. split; [reflexivity|]. split; [|reflexivity].
    unfold stat_at. simpl. eapply put_stat, Hput.
  - right. split; [eexists; reflexivity | reflexivity].
Qed.

(** What a call of [shutil.copytree] leaves: on success the filtered copy
    at [dst] and one call on the record, on failure nothing. *)
Lemma shutil_copytree_inv (E : Env) (src dst : string)
    (ignore : string → list string → res (list string)) (w w' : world) (r : res unit) :
  shutil_copytree E src dst (Some ignore) w = (r, w') →
  (r = Ok tt
   ∧ ∃ es copy, copytree_node ignore src (Dir es) = Ok copy
                ∧ stat_at E dst w' = Tree.Found copy
                ∧ calls w' = calls w ++ [CallCopytree src dst])
  ∨ (∃ e, r = Raise e) ∧ w' = w.
Proof.
  unfold shutil_copytree. simpl default.
  destruct (stat_at E src w) as [[data|es]| |];
    try (intros H; injection H as <- <-; right; split; [eexists|]; reflexivity).
  destruct (ignore src (map fst es));
    [|intros H; injection H as <- <-; right; split; [eexists|]; reflexivity].
  destruct (exists_at E dst w);
    [intros H; injection H as <- <-; right; split; [eexists|]; reflexivity|].
  destruct (copytree_node ignore src (Dir es)) as [copy|] eqn:Hcopy;
    [|intros H; injection H as <- <-; right; split; [eexists|]; reflexivity].
  intros H. apply store_inv in H as [(-> & Hstat & Hcalls)|[He ->]].
  - left. split; [reflexivity|]. exists es, copy. auto.
  - right. split; [exact He | reflexivity].
Qed.

(** ** The directory copies of ModuleCopier.copy *)

(** X19: whatever exclusion patterns are configured, a package that
    [ModuleCopier.copy] stages as a directory arrives without the ['*.pyc']
    entries whose name is portable (no backslash in it), at every depth: a
    run that returns has made one [copytree], and the tree then found at
    its destination holds no such name, and no name matching ['*.pyc'] at
    all when no exclusion pattern is configured; a run that raises, as
    every run on an archive does, has copied nothing.  [normalize_path] is
    assumed to keep the last component of a path whose last component is a
    portable name. *)
Theorem directory_copy_omits_pyc (E : Env) (self : ModuleCopier)
    (modname target : string) (exclude : option (list string))
    (packages_extraPath : option (list (string * string)))
    (packages_ignorePath : option (gmap string (list string)))
    (l : Loader) (w w' : world) (r : res unit) :
  (∀ dir fname, portable_name fname = true →
     os_path.basename (normalize_path E (os_path.join dir [fname])) = fname) →
  find_spec E modname (path self) = Some {| loader := Some l |} →
  stages_directory l = true →
  ModuleCopier_copy E self modname target exclude packages_extraPath
    packages_ignorePath w = (r, w') →
  match r with
  | Ok _ =>
      ∃ src dest copy,
        List.filter is_copy (calls w')
        = List.filter is_copy (calls w) ++ [CallCopytree src dest]
        ∧ stat_at E dest w' = Tree.Found copy
        ∧ has_entry (λ name, portable_name name && is_pyc name) copy = false
        ∧ (exclude = None ∨ exclude = Some [] → has_entry is_pyc copy = false)
  | Raise _ => List.filter is_copy (calls w') = List.filter is_copy (calls w)
  end.
Proof.
  intros Hnorm Hspec Hdir Hrun. unfold ModuleCopier_copy in Hrun.
  rewrite Hspec in Hrun. cbn [loader] in Hrun.
  destruct l as [loader_path b|file b|z|b]; simpl in Hdir; try discriminate Hdir.
  - subst b. cbn [loader_is_package] in Hrun.
    destruct (os_path.split file) as [pkgdir basename].
    rewrite M_bind_unfold in Hrun.
    destruct (assert (PyStr.startswith basename "__init__") w) as [[[]|e] w1] eqn:Ha.
    2: { injection Hrun as <- <-. eapply quiet_assert, Ha. }
    assert (w1 = w) as ->.
    { unfold assert, mret, M_mret, raise in Ha.
      destruct (PyStr.startswith basename "__init__");
        [injection Ha as <-; reflexivity | discriminate Ha]. }
    rewrite M_bind_unfold in Hrun.
    pose proof (check_package_for_ext_mods_reads E pkgdir (py_version self)
                  (default ∅ packages_ignorePath !! modname) w) as Hreads.
    destruct (check_package_for_ext_mods E pkgdir _ _ w) as [[[]|e] w2];
      simpl in Hreads; subst w2; [|injection Hrun as <- <-; reflexivity].
    rewrite M_bind_unfold in Hrun. unfold lift in Hrun at 1.
    destruct (extraPath_dest E _ pkgdir target modname) as [dest|e];
      [|injection Hrun as <- <-; reflexivity].
    destruct exclude as [[|pattern patterns]|];
      apply shutil_copytree_inv in Hrun as [(-> & es & copy & Hcopy & Hstat & Hcalls)|[[e ->] ->]];
      try reflexivity;
      exists pkgdir, dest, copy; rewrite Hcalls, List.filter_app;
      (split; [reflexivity|]); (split; [exact Hstat|]).
    + assert (Hall : has_entry is_pyc copy = false).
      { eapply copytree_node_omits; [|exact Hcopy]. apply ignore_patterns_covers. }
      split; [|intros _; exact Hall]. eapply has_entry_weaken; [|exact Hall].
      intros name Hq. apply andb_true_iff in Hq. tauto.
    + split; [|intros [H|H]; discriminate H]. eapply copytree_node_omits; [|exact Hcopy].
      apply callback_covers, Hnorm.
    + assert (Hall : has_entry is_pyc copy = false).
      { eapply copytree_node_omits; [|exact Hcopy]. apply ignore_patterns_covers. }
      split; [|intros _; exact Hall]. eapply has_entry_weaken; [|exact Hall].
      intros name Hq. apply andb_true_iff in Hq. tauto.
  - pose proof (copy_zipmodule_quiet is_copy E z modname target
                  (λ _, eq_refl) (λ _ _, eq_refl) _ _ _ Hrun) as Hq.
    destruct (copy_zipmodule_raises E z modname target w) as (e & w2 & Hr).
    rewrite Hrun in Hr. injection Hr as -> _. exact Hq.
Qed.

(** ** A [normalize_path] that changes nothing keeps the last component *)

Lemma rfind_none (c : ascii) (b : string) :
  PyStr.contains c b = false → PyStr.rfind c b = None.
Proof.
  induction b as [|a b IH]; simpl; [reflexivity|].
  intros H. apply orb_false_iff in H as [Ha Hb]. rewrite (IH Hb), Ha. reflexivity.
Qed.

Lemma rfind_app_nosep (c : ascii) (a b : string) :
  PyStr.contains c b = false → PyStr.rfind c (a +:+ b) = PyStr.rfind c a.
Proof.
  intros Hb. induction a as [|x a IH].
  - change ("" +:+ b) with b. rewrite (rfind_none _ _ Hb). reflexivity.
  - rewrite append_cons. simpl. rewrite IH. reflexivity.
Qed.

Lemma rfind_trailing (c : ascii) (a : string) :
  PyStr.rfind c (a +:+ String c "") = Some (String.length a).
Proof.
  induction a as [|x a IH].
  - simpl. rewrite Ascii.eqb_refl. reflexivity.
  - rewrite append_cons. simpl. rewrite IH. reflexivity.
Qed.

Lemma drop_length_app (a b : string) : PyStr.drop (String.length a) (a +:+ b) = b.
Proof. induction a as [|x a IH]; [destruct b; reflexivity | exact IH]. Qed.

Lemma basename_join_entry (dir fname : string) :
  entry_name fname = true → os_path.basename (os_path.join dir [fname]) = fname.
Proof.
  intros Hname. destruct (entry_name_inv fname Hname) as (_ & Hsep & _ & _ & Hrel).
  simpl os_path.join. rewrite (join2_relative dir fname Hrel), <- append_assoc.
  set (X := dir +:+ _).
  unfold os_path.basename, os_path.after_last_sep, os_path.sep.
  rewrite (rfind_app_nosep _ X fname Hsep).
  assert (HX : match PyStr.rfind "/" X with Some k => S k | None => 0 end
               = String.length X).
  { subst X. destruct dir as [|c dir]; [reflexivity|].
    change (negb (PyStr.nonempty (String c dir))) with false. cbn [orb].
    destruct (PyStr.endswith (String c dir) "/") eqn:He.
    - rewrite append_nil_r. apply endswith_split in He as [d ->].
      rewrite rfind_trailing, length_app_string. simpl. lia.
    - rewrite rfind_trailing, length_app_string. simpl. lia. }
  rewrite HX. apply drop_length_app.
Qed.

Lemma directory_copy_omits_pyc_witness :
  ∃ src dest copy,
    List.filter is_copy
      (calls (snd (ModuleCopier_copy Sample.env
                     (ModuleCopier_init Sample.env "3.6.3" None)
                     "p" "/t" (Some ["pkgs/p/sub/x.py"]) None None Sample.start)))
    = List.filter is_copy (calls Sample.start) ++ [CallCopytree src dest]
    ∧ stat_at Sample.env dest
        (snd (ModuleCopier_copy Sample.env
                (ModuleCopier_init Sample.env "3.6.3" None)
                "p" "/t" (Some ["pkgs/p/sub/x.py"]) None None Sample.start))
      = Tree.Found copy
    ∧ has_entry (λ name, portable_name name && is_pyc name) copy = false
    ∧ (Some ["pkgs/p/sub/x.py"] = None ∨ Some ["pkgs/p/sub/x.py"] = Some []
       → has_entry is_pyc copy = false).
Proof.
  apply (directory_copy_omits_pyc Sample.env
           (ModuleCopier_init Sample.env "3.6.3" None) "p" "/t"
           (Some ["pkgs/p/sub/x.py"]) None None
           (FileLoader "/lib/p/__init__.py" true) Sample.start
           (snd (ModuleCopier_copy Sample.env
                   (ModuleCopier_init Sample.env "3.6.3" None)
                   "p" "/t" (Some ["pkgs/p/sub/x.py"]) None None Sample.start))
           (Ok tt)).
  - intros dir fname Hport. apply basename_join_entry.
    unfold portable_name in Hport. apply andb_true_iff in Hport. tauto.
  - reflexivity.
  - reflexivity.
  - vm_compute. reflexivity.
Defined.

(** C7: with exclusion patterns configured, the callback matches the
    normalised staged path of each file and returns the last component of
    that path, not the name it was given.  Where [normalize_path] turns
    backslashes into slashes, as [nsist/util.py] does, the compiled-cache
    file [a\b.pyc] is matched as [pkgs/p/a/b.pyc] and answered as [b.pyc],
    which names no entry: [copytree] stages [a\b.pyc], while [c.pyc] beside
    it is left out.  Without exclusion patterns the same package is staged
    without either. *)
Theorem directory_copy_stages_backslash_pyc :
  is_pyc "a\b.pyc" = true
  ∧ copytree_ignore_callback Sample.env_util ["*.txt"] "/lib/p" "p" "/lib/p"
      ["__init__.py"; "a\b.pyc"; "c.pyc"]
    = Ok ["b.pyc"; "c.pyc"]
  ∧ (∃ w',
       ModuleCopier_copy Sample.env_util (ModuleCopier_init Sample.env_util "3.6.3" None)
         "p" "/t" (Some ["*.txt"]) None None Sample.backslash_world
       = (Ok tt, w')
       ∧ calls w' = [CallCopytree "/lib/p" "/t/p"]
       ∧ stat_at Sample.env_util "/t/p" w'
         = Tree.Found (Dir [("__init__.py", File ""); ("a\b.pyc", File "cache")])
       ∧ has_entry is_pyc (Dir [("__init__.py", File ""); ("a\b.pyc", File "cache")])
         = true)
  ∧ (∃ w',
       ModuleCopier_copy Sample.env_util (ModuleCopier_init Sample.env_util "3.6.3" None)
         "p" "/t" None None None Sample.backslash_world
       = (Ok tt, w')
       ∧ calls w' = [CallCopytree "/lib/p" "/t/p"]
       ∧ stat_at Sample.env_util "/t/p" w'
         = Tree.Found (Dir [("__init__.py", File "")])).
Proof.
  split; [reflexivity|]. split; [reflexivity|]. split.
  - eexists. split; [vm_compute; reflexivity|]. repeat split; reflexivity.
  - eexists. split; [vm_compute; reflexivity|]. split; reflexivity.
Qed.

(** * Further properties of the module *)

(** ** Units that cannot be staged *)

(** X1: in a batch, a name that is not yet in the target and that the
    finder does not know, or that is a namespace package (a spec without
    loader), makes [copy_modules] raise [ImportError] whose message ends in
    the [repr] of the name (the [%r] of the two formats), with nothing
    touched and the names after it not looked at; a unit whose loader is of
    none of the three classes [ModuleCopier.copy] tests for is passed over
    in silence: the batch reports success though nothing was staged for
    it. *)
Theorem copy_modules_unresolved_units (E : Env) (modname : string)
    (rest : list string) (target py_version : string)
    (search_path : option (list string)) (exclude : option (list string))
    (packages_extraPath : option (list (string * string)))
    (packages_ignorePath : option (gmap string (list string)))
    (names : list string) (w : world) :
  os_listdir E target w = (Ok names, w) →
  modname ∉ noext names →
  let found := find_spec E modname (path (ModuleCopier_init E py_version search_path)) in
  (found = None →
   copy_modules E (modname :: rest) target py_version search_path exclude
     packages_extraPath packages_ignorePath w
   = (Raise (ImportError ("Could not find " +:+ PyStr.repr modname)), w))
  ∧ (found = Some {| loader := None |} →
     copy_modules E (modname :: rest) target py_version search_path exclude
       packages_extraPath packages_ignorePath w
     = (Raise (ImportError ("Cannot bundle namespace package " +:+ PyStr.repr modname)),
        w))
  ∧ (∀ is_package,
       found = Some {| loader := Some (OtherLoader is_package) |} →
       copy_modules E [modname] target py_version search_path exclude
         packages_extraPath packages_ignorePath w
       = (Ok tt, w)).
Proof.
  intros Hlist Hnew found.
  assert (Hstep : ∀ l,
    copy_modules E (modname :: l) target py_version search_path exclude
      packages_extraPath packages_ignorePath w
    = match ModuleCopier_copy E (ModuleCopier_init E py_version search_path) modname
              target exclude packages_extraPath
              (Some (format_ignore_path E packages_ignorePath)) w with
      | (Ok _, w1) =>
          match M_for (to_copy names l)
                  (λ modname,
                     ModuleCopier_copy E (ModuleCopier_init E py_version search_path)
                       modname target exclude packages_extraPath
                       (Some (format_ignore_path E packages_ignorePath))) w1 with
          | (Ok _, w2) => (Ok tt, w2)
          | (Raise e, w2) => (Raise e, w2)
          end
      | (Raise e, w1) => (Raise e, w1)
      end).
  { intros l. rewrite copy_modules_unfold, Hlist. unfold to_copy.
    cbn [List.filter]. rewrite (bool_decide_eq_false_2 _ Hnew). cbn [negb M_for].
    fold (to_copy names l). rewrite M_bind_unfold.
    destruct (ModuleCopier_copy _ _ _ _ _ _ _ w) as [[[]|e] w1]; [|reflexivity].
    destruct (M_for _ _ w1) as [[[]|e] w2]; [|reflexivity].
    rewrite bool_decide_eq_false_2 by discriminate. reflexivity. }
  subst found. split; [|split].
  - intros Hfound. rewrite Hstep. unfold ModuleCopier_copy. rewrite Hfound. reflexivity.
  - intros Hfound. rewrite Hstep. unfold ModuleCopier_copy. rewrite Hfound. reflexivity.
  - intros is_package Hfound. rewrite Hstep. unfold ModuleCopier_copy.
    rewrite Hfound. reflexivity.
Qed.

Lemma copy_modules_unresolved_units_witness :
  copy_modules Sample.env ("nope" :: ["m"]) "/t" "3.6.3" None None None None Sample.start
  = (Raise (ImportError "Could not find 'nope'"), Sample.start).
Proof.
  apply (proj1 (copy_modules_unresolved_units Sample.env "nope" ["m"] "/t" "3.6.3"
                  None None None None [] Sample.start eq_refl
                  (not_elem_of_nil "nope"))).
  reflexivity.
Defined.

(** X2: an extension module whose file ends in ['.so'] is refused before
    any copy: [ModuleCopier.copy] raises [ExtensionModuleMismatch] and
    leaves the world as it was, whatever the target version. *)
Theorem copy_refuses_shared_object (E : Env) (self : ModuleCopier)
    (modname target loader_path : string) (is_package : bool)
    (exclude : option (list string))
    (packages_extraPath : option (list (string * string)))
    (packages_ignorePath : option (gmap string (list string))) (w : world) :
  find_spec E modname (path self)
  = Some {| loader := Some (ExtensionFileLoader loader_path is_package) |} →
  PyStr.endswith loader_path ".so" = true →
  ModuleCopier_copy E self modname target exclude packages_extraPath
    packages_ignorePath w
  = (Raise (ExtensionModuleMismatch (extensionmod_errmsg "Windows" loader_path)), w).
Proof.
  intros Hspec Hso. unfold ModuleCopier_copy. rewrite Hspec. cbn [loader].
  rewrite M_bind_unfold. unfold lift, check_ext_mod. rewrite Hso. reflexivity.
Qed.

Lemma copy_refuses_shared_object_witness :
  ModuleCopier_copy
    {| sys_version_info := [3; 6; 3]; sys_path := ["/lib"]; os_getcwd := "/w";
       os_path_realpath := λ p, p; os_stat := λ _, None;
       find_spec := λ _ _,
         Some {| loader := Some (ExtensionFileLoader "/lib/_speedups.so" false) |};
       normalize_path := λ p, p |}
    {| py_version := "3.6.3"; path := ["/lib"] |}
    "_speedups" "/t" None None None Sample.start
  = (Raise (ExtensionModuleMismatch
              (extensionmod_errmsg "Windows" "/lib/_speedups.so")),
     Sample.start).
Proof.
  apply (copy_refuses_shared_object
           {| sys_version_info := [3; 6; 3]; sys_path := ["/lib"]; os_getcwd := "/w";
              os_path_realpath := λ p, p; os_stat := λ _, None;
              find_spec := λ _ _,
                Some {| loader := Some (ExtensionFileLoader "/lib/_speedups.so" false) |};
              normalize_path := λ p, p |}
           {| py_version := "3.6.3"; path := ["/lib"] |}
           "_speedups" "/t" "/lib/_speedups.so" false); reflexivity.
Defined.

(** ** The batch on a bad target, and its first failure *)

(** X3: [copy_modules] does not make its target: when the target is not an
    existing directory the call raises from [os.listdir] before any unit is
    looked at, and writes nothing, not even the placeholder of an empty
    request. *)
Theorem copy_modules_needs_target (E : Env) (modnames : list string)
    (target py_version : string) (path : option (list string))
    (exclude : option (list string))
    (packages_extraPath : option (list (string * string)))
    (packages_ignorePath : option (gmap string (list string))) (w : world) :
  isdir E target w = false →
  ∃ e, copy_modules E modnames target py_version path exclude packages_extraPath
         packages_ignorePath w = (Raise e, w)
       ∧ (e = FileNotFoundError target ∨ e = NotADirectoryError target).
Proof.
  intros Hdir. rewrite copy_modules_unfold. unfold os_listdir, isdir in *.
  destruct (stat_at E target w) as [[data|es]| |]; try discriminate Hdir;
    eexists; (split; [reflexivity|]); simpl; auto.
Qed.

Lemma copy_modules_needs_target_witness :
  ∃ e, copy_modules Sample.env [] "/missing" "3.6.3" None None None None Sample.start
       = (Raise e, Sample.start)
       ∧ (e = FileNotFoundError "/missing" ∨ e = NotADirectoryError "/missing").
Proof.
  apply (copy_modules_needs_target Sample.env [] "/missing" "3.6.3" None None None None
           Sample.start).
  reflexivity.
Defined.

(** X4: the batch stops at the first unit that fails: when the names before
    it have been staged and [ModuleCopier.copy] raises on a name that is not
    yet in the target, [copy_modules] raises the same exception from the
    same world, whatever names follow; the units staged so far stay. *)
Theorem copy_modules_stops_at_first_failure (E : Env) (pre post : list string)
    (bad target py_version : string) (path : option (list string))
    (exclude : option (list string))
    (packages_extraPath : option (list (string * string)))
    (packages_ignorePath : option (gmap string (list string)))
    (names : list string) (w w1 w2 : world) (e : exn) :
  os_listdir E target w = (Ok names, w) →
  pre ≠ [] →
  copy_modules E pre target py_version path exclude packages_extraPath
    packages_ignorePath w = (Ok tt, w1) →
  bad ∉ noext names →
  ModuleCopier_copy E (ModuleCopier_init E py_version path) bad target exclude
    packages_extraPath (Some (format_ignore_path E packages_ignorePath)) w1
  = (Raise e, w2) →
  copy_modules E (pre ++ bad :: post) target py_version path exclude
    packages_extraPath packages_ignorePath w
  = (Raise e, w2).
Proof.
  intros Hlist Hpre Hrun Hbad Hfail.
  rewrite copy_modules_unfold, Hlist in Hrun |- *.
  rewrite (bool_decide_eq_false_2 _ Hpre) in Hrun.
  unfold to_copy. rewrite List.filter_app. fold (to_copy names pre).
  simpl List.filter. rewrite (bool_decide_eq_false_2 _ Hbad). simpl negb. cbn iota.
  rewrite M_for_app, M_bind_unfold.
  destruct (M_for (to_copy names pre) _ w) as [[[]|e1] w1']; [|discriminate Hrun].
  injection Hrun as ->. simpl M_for. rewrite M_bind_unfold, Hfail. reflexivity.
Qed.

Lemma copy_modules_stops_at_first_failure_witness :
  ∃ w1,
    copy_modules Sample.env ["m"] "/t" "3.6.3" None None None None Sample.start
    = (Ok tt, w1)
    ∧ copy_modules Sample.env (["m"] ++ "nope" :: ["p"]) "/t" "3.6.3" None None None None
        Sample.start
      = (Raise (ImportError "Could not find 'nope'"), w1).
Proof.
  eexists. split; [vm_compute; reflexivity|].
  eapply (copy_modules_stops_at_first_failure Sample.env ["m"] ["p"] "nope" "/t" "3.6.3"
            None None None None []).
  - reflexivity.
  - discriminate.
  - vm_compute. reflexivity.
  - vm_compute. apply not_elem_of_nil.
  - vm_compute. reflexivity.
Defined.

(** ** The scan of a package for extension modules *)

Lemma walk_unfold (top : string) (es : list (string * node)) :
  Tree.walk top (Dir es)
  = (top, Tree.dirnames es, Tree.filenames es)
      :: flat_map (λ e, Tree.walk (os_path.join top [fst e]) (snd e)) es.
Proof.
  simpl. f_equal. induction es as [|[name child] es IH]; [reflexivity|].
  simpl. rewrite IH. reflexivity.
Qed.

Lemma filenames_In (es : list (string * node)) (f : string) :
  In f (Tree.filenames es) ↔ ∃ data, In (f, File data) es.
Proof.
  unfold Tree.filenames. rewrite in_map_iff. split.
  - intros ([name n] & <- & Hin). apply List.filter_In in Hin as [Hin Hfile].
    destruct n as [data|]; [eauto | discriminate Hfile].
  - intros [data Hin]. exists (f, File data). split; [reflexivity|].
    apply List.filter_In. split; [exact Hin | reflexivity].
Qed.

(** Every regular file of a tree is among the file names of some
    directory of the walk, and the other way round. *)
Lemma walk_has_file (P : string → bool) (n : node) (top : string) :
  has_file P n = true ↔
  ∃ t f, In t (Tree.walk top n) ∧ In f (snd t) ∧ P f = true.
Proof.
  revert top. induction n as [data|es IH] using node_induction; intros top.
  - simpl. split; [discriminate | intros (t & f & [] & _)].
  - rewrite walk_unfold. cbn [has_file]. rewrite existsb_exists. split.
    + intros ([name child] & Hin & Hp). simpl in Hp. destruct child as [data|sub].
      * exists (top, Tree.dirnames es, Tree.filenames es), name.
        split; [left; reflexivity|]. split; [|exact Hp].
        simpl. apply filenames_In. eauto.
      * rewrite Forall_forall in IH.
        apply (IH _ (proj2 (list_elem_of_In _ _) Hin) (os_path.join top [name])) in Hp
          as (t & f & Ht & Hf & HP).
        exists t, f. split; [|auto]. right. apply in_flat_map.
        exists (name, Dir sub). split; [exact Hin | exact Ht].
    + intros (t & f & [<-|Ht] & Hf & HP).
      * simpl in Hf. apply filenames_In in Hf as [data Hin].
        exists (f, File data). split; [exact Hin | exact HP].
      * apply in_flat_map in Ht as ([name child] & Hin & Ht).
        exists (name, child). split; [exact Hin|]. simpl.
        destruct child as [data|sub]; [destruct Ht|].
        rewrite Forall_forall in IH.
        apply (IH _ (proj2 (list_elem_of_In _ _) Hin) (os_path.join top [name])).
        eauto.
Qed.

Lemma check_ext_mod_cases (E : Env) (p t : string) :
  check_ext_mod E p t = Ok tt ∨ ∃ msg, check_ext_mod E p t = Raise (ExtensionModuleMismatch msg).
Proof.
  unfold check_ext_mod. destruct (PyStr.endswith p ".so"); [eauto|].
  destruct (PyStr.endswith p ".pyd" && _); eauto.
Qed.

Lemma res_for_mismatch {A} (l : list A) (body : A → res unit) :
  (∀ x, body x = Ok tt ∨ ∃ msg, body x = Raise (ExtensionModuleMismatch msg)) →
  (∃ x msg, In x l ∧ body x = Raise (ExtensionModuleMismatch msg)) →
  ∃ msg, res_for l body = Raise (ExtensionModuleMismatch msg).
Proof.
  intros Hall (x & msg & Hin & Hx). induction l as [|y l IH]; [destruct Hin|].
  simpl. destruct (Hall y) as [Hy|[m Hy]]; rewrite Hy; simpl; [|eauto].
  destruct Hin as [->|Hin]; [congruence | exact (IH Hin)].
Qed.

Lemma res_for_all_ok {A} (l : list A) (body : A → res unit) :
  (∀ x, In x l → body x = Ok tt) → res_for l body = Ok tt.
Proof.
  induction l as [|y l IH]; intros H; [reflexivity|].
  simpl. rewrite (H y (or_introl eq_refl)). simpl. apply IH. intros x Hx. apply H. right. exact Hx.
Qed.

Lemma contains_app_sep (c : ascii) (x f : string) :
  PyStr.contains c (x +:+ String c f) = true.
Proof.
  induction x as [|a x IH].
  - change ("" +:+ String c f) with (String c f). simpl.
    rewrite Ascii.eqb_refl. reflexivity.
  - rewrite append_cons. simpl. rewrite IH. apply orb_true_r.
Qed.

Lemma endswith_after_sep (x f suffix : string) :
  PyStr.contains "/" suffix = false →
  PyStr.endswith (x +:+ String "/" f) suffix = PyStr.endswith f suffix.
Proof.
  intros Hs. induction x as [|a x IH].
  - change ("" +:+ String "/" f) with (String "/" f). rewrite endswith_unfold.
    destruct (String.eqb (String "/" f) suffix) eqn:He; [|reflexivity].
    apply String.eqb_eq in He. subst suffix.
    pose proof (contains_app_sep "/" "" f) as Hc.
    change ("" +:+ String "/"%char f) with (String "/"%char f) in Hc. congruence.
  - rewrite append_cons, endswith_unfold, IH.
    destruct (String.eqb _ suffix) eqn:He; [|reflexivity].
    apply String.eqb_eq in He. subst suffix.
    pose proof (contains_app_sep "/" (String a x) f) as Hc.
    rewrite append_cons in Hc. congruence.
Qed.

(** Joining a directory in front of a name does not change whether the
    name ends in a suffix that has no separator. *)
Lemma endswith_join2 (a f suffix : string) :
  PyStr.contains "/" suffix = false →
  PyStr.endswith (os_path.join2 a f) suffix = PyStr.endswith f suffix.
Proof.
  intros Hs. unfold os_path.join2.
  destruct (PyStr.startswith f "/"); [reflexivity|].
  destruct (PyStr.nonempty a) eqn:Hne; [|destruct a; [reflexivity | discriminate Hne]].
  cbn [negb orb].
  destruct (PyStr.endswith a "/") eqn:Ha.
  - apply endswith_split in Ha as [a' ->].
    rewrite (append_assoc a' "/" f). apply (endswith_after_sep a' f suffix Hs).
  - apply (endswith_after_sep a f suffix Hs).
Qed.

Lemma has_file_mono (P Q : string → bool) (n : node) :
  (∀ f, P f = true → Q f = true) → has_file P n = true → has_file Q n = true.
Proof.
  intros HPQ H. apply (walk_has_file P n "") in H as (t & f & Ht & Hf & Hp).
  apply (walk_has_file Q n ""). exists t, f. auto.
Qed.

(** The scan without ignore entries, as one loop over the files of the
    walk. *)
Lemma check_package_no_ignore (E : Env) (path target_python : string) (w : world) :
  check_package_for_ext_mods E path target_python None w
  = (triples ← os_walk E path;
     lift (res_for triples (λ t,
       res_for (snd t) (λ filename,
         check_ext_mod E
           (os_path.join
              (os_path.abspath E (os_path_realpath E (os_path.join path [fst (fst t)])))
              [filename]) target_python)))) w.
Proof.
  unfold check_package_for_ext_mods. rewrite !M_bind_unfold.
  destruct (os_walk E path w) as [[triples|e] w1]; [|reflexivity].
  unfold lift. f_equal. apply res_for_ext. intros [[dirpath dirnames] filenames].
  reflexivity.
Qed.

(** The verdict of the scan without ignore entries is that of
    [check_ext_mod] on the names of the files, wherever they are. *)
Lemma check_package_verdict (E : Env) (path target_python : string)
    (n : node) (w : world) :
  stat_at E path w = Tree.Found n →
  let refused f :=
    PyStr.endswith f ".so"
    || PyStr.endswith f ".pyd"
       && negb (PyStr.startswith target_python (running_python E)) in
  if has_file refused n
  then ∃ msg, check_package_for_ext_mods E path target_python None w
              = (Raise (ExtensionModuleMismatch msg), w)
  else check_package_for_ext_mods E path target_python None w = (Ok tt, w).
Proof.
  intros Hstat refused. rewrite check_package_no_ignore, M_bind_unfold.
  unfold os_walk. rewrite Hstat. unfold lift.
  assert (Hfile : ∀ a f,
    (refused f = false → check_ext_mod E (os_path.join a [f]) target_python = Ok tt) ∧
    (refused f = true →
     ∃ msg, check_ext_mod E (os_path.join a [f]) target_python
            = Raise (ExtensionModuleMismatch msg))).
  { intros a f. unfold check_ext_mod, refused. simpl os_path.join.
    rewrite !endswith_join2 by reflexivity.
    destruct (PyStr.endswith f ".so"); [split; [discriminate | eauto]|].
    cbn [orb]. destruct (PyStr.endswith f ".pyd" && _); split; eauto; discriminate. }
  destruct (has_file refused n) eqn:Hn.
  - apply (walk_has_file _ n path) in Hn as (t & f & Ht & Hf & Hp).
    match goal with |- ∃ msg, (res_for ?l ?body, w) = _ =>
      destruct (res_for_mismatch l body) as [msg Hmsg] end.
    + intros t'. destruct (res_for (snd t') _) as [[]|e] eqn:Hr; [left; reflexivity|].
      right. revert Hr. generalize (snd t'). intros l.
      induction l as [|y l IH]; [discriminate|].
      cbn [res_for].
      destruct (check_ext_mod_cases E
                  (os_path.join (os_path.abspath E (os_path_realpath E
                                    (os_path.join path [fst (fst t')]))) [y])
                  target_python) as [Hy|[m Hy]];
        rewrite Hy; cbn [res_bind]; [exact IH|].
      intros H. injection H as <-. eauto.
    + exists t.
      destruct (res_for_mismatch (snd t)
                  (λ filename, check_ext_mod E
                     (os_path.join
                        (os_path.abspath E (os_path_realpath E
                           (os_path.join path [fst (fst t)]))) [filename]) target_python))
        as [msg Hmsg].
      * intros y. apply check_ext_mod_cases.
      * exists f. destruct (proj2 (Hfile (os_path.abspath E (os_path_realpath E
                           (os_path.join path [fst (fst t)]))) f) Hp) as [msg Hmsg].
        exists msg. split; [exact Hf | exact Hmsg].
      * exists msg. split; [exact Ht | exact Hmsg].
    + exists msg. rewrite Hmsg. reflexivity.
  - f_equal. apply res_for_all_ok. intros t Ht. apply res_for_all_ok. intros f Hf.
    apply Hfile. destruct (refused f) eqn:Hp; [|reflexivity].
    assert (has_file refused n = true) as Hyes; [|congruence].
    apply (walk_has_file _ n path). exists t, f. auto.
Qed.

(** X5: with no ignore entries, a package directory is refused with
    [ExtensionModuleMismatch] as soon as some file below it, at any depth,
    ends in ['.so'], or ends in ['.pyd'] while the target version does not
    start with the running [major.minor].  (The empty path names no
    directory for [os.walk].) *)
Theorem check_package_refuses_extension (E : Env) (path target_python : string)
    (n : node) (w : world) :
  path ≠ "" →
  stat_at E path w = Tree.Found n →
  has_file (λ f, PyStr.endswith f ".so") n = true
  ∨ (has_file (λ f, PyStr.endswith f ".pyd") n = true
     ∧ PyStr.startswith target_python (running_python E) = false) →
  ∃ msg,
    check_package_for_ext_mods E path target_python None w
    = (Raise (ExtensionModuleMismatch msg), w).
Proof.
  intros _ Hstat Hbad.
  pose proof (check_package_verdict E path target_python n w Hstat) as Hv.
  cbv zeta in Hv.
  match type of Hv with (if has_file ?P n then _ else _) =>
    assert (has_file P n = true) as Hyes end.
  { destruct Hbad as [Hso|[Hpyd Hver]].
    - revert Hso. apply has_file_mono. intros f ->. reflexivity.
    - revert Hpyd. apply has_file_mono. intros f ->. rewrite Hver. apply orb_true_r. }
  rewrite Hyes in Hv. exact Hv.
Qed.

Lemma check_package_refuses_extension_witness :
  (∃ msg,
     check_package_for_ext_mods Sample.env "/a" "3.6.3" None Sample.ab_world
     = (Raise (ExtensionModuleMismatch msg), Sample.ab_world))
  ∧ (∃ msg,
       check_package_for_ext_mods Sample.env "/lib" "2.7" None Sample.start
       = (Raise (ExtensionModuleMismatch msg), Sample.start)).
Proof.
  split.
  - eapply (check_package_refuses_extension Sample.env "/a" "3.6.3").
    + discriminate.
    + reflexivity.
    + left. reflexivity.
  - eapply (check_package_refuses_extension Sample.env "/lib" "2.7").
    + discriminate.
    + reflexivity.
    + right. split; reflexivity.
Defined.

(** X6: with no ignore entries, a package passes the scan, leaving the
    world as it is, when no file below it ends in ['.so'] and either none
    ends in ['.pyd'] or the target version starts with the running
    [major.minor]; the names of the directories play no part. *)
Theorem check_package_accepts (E : Env) (path target_python : string)
    (n : node) (w : world) :
  stat_at E path w = Tree.Found n →
  has_file (λ f, PyStr.endswith f ".so") n = false →
  has_file (λ f, PyStr.endswith f ".pyd") n = false
  ∨ PyStr.startswith target_python (running_python E) = true →
  check_package_for_ext_mods E path target_python None w = (Ok tt, w).
Proof.
  intros Hstat Hso Hpyd.
  pose proof (check_package_verdict E path target_python n w Hstat) as Hv.
  cbv zeta in Hv.
  match type of Hv with (if has_file ?P n then _ else _) =>
    destruct (has_file P n) eqn:Hn end; [|exact Hv].
  exfalso. apply (walk_has_file _ n path) in Hn as (t & f & Ht & Hf & Hp).
  apply orb_true_iff in Hp as [Hp|Hp].
  - assert (has_file (λ f, PyStr.endswith f ".so") n = true) as Hyes; [|congruence].
    apply (walk_has_file _ n path). exists t, f. auto.
  - apply andb_true_iff in Hp as [Hp Hver]. destruct Hpyd as [Hpyd|Hpyd].
    + assert (has_file (λ f, PyStr.endswith f ".pyd") n = true) as Hyes; [|congruence].
      apply (walk_has_file _ n path). exists t, f. auto.
    + rewrite Hpyd in Hver. discriminate Hver.
Qed.

Lemma check_package_accepts_witness :
  check_package_for_ext_mods Sample.env "/lib" "3.6.3" None Sample.start
  = (Ok tt, Sample.start)
  ∧ check_package_for_ext_mods Sample.env "/lib/p" "2.7" None Sample.start
    = (Ok tt, Sample.start).
Proof.
  split.
  - apply (check_package_accepts Sample.env "/lib" "3.6.3" _ Sample.start eq_refl).
    + reflexivity.
    + right. reflexivity.
  - apply (check_package_accepts Sample.env "/lib/p" "2.7" _ Sample.start eq_refl).
    + reflexivity.
    + left. reflexivity.
Defined.

(** X7: an ignore entry that is a relative path cannot be compared with the
    absolute directories of the walk: when the package path is a directory
    and the first ignore entry is relative, the scan raises [ValueError]
    from [os.path.commonpath] before it looks at any file. *)
Theorem check_package_relative_ignore (E : Env) (path target_python item : string)
    (rest : list string) (es : list (string * node)) (w : world) :
  os_path.isabs (os_getcwd E) = true →
  path ≠ "" →
  stat_at E path w = Tree.Found (Dir es) →
  os_path.isabs item = false →
  check_package_for_ext_mods E path target_python (Some (item :: rest)) w
  = (Raise (ValueError "Can't mix absolute and relative paths"), w).
Proof.
  intros Hcwd _ Hstat Hitem. unfold check_package_for_ext_mods.
  rewrite M_bind_unfold. unfold os_walk. rewrite Hstat, walk_unfold.
  unfold lift. f_equal. cbn [res_for default].
  rewrite bool_decide_eq_true_2 by discriminate.
  unfold id. cbn [res_any]. unfold os_path.commonpath. cbn [forallb].
  rewrite (abspath_isabs E _ Hcwd), Hitem. reflexivity.
Qed.

Lemma check_package_relative_ignore_witness :
  check_package_for_ext_mods Sample.env "/a" "3.6" (Some ["a/b"]) Sample.ab_world
  = (Raise (ValueError "Can't mix absolute and relative paths"), Sample.ab_world).
Proof.
  eapply (check_package_relative_ignore Sample.env "/a" "3.6" "a/b" []);
    [reflexivity | discriminate | reflexivity | reflexivity].
Defined.

(** X8: the scan walks with [os.walk], which yields nothing for a path
    that is missing or is a regular file: such a path passes the scan
    whatever its name, the target version and the ignore entries are. *)
Theorem check_package_not_a_directory (E : Env) (path target_python : string)
    (ignore : option (list string)) (w : world) :
  (∀ es, stat_at E path w ≠ Tree.Found (Dir es)) →
  check_package_for_ext_mods E path target_python ignore w = (Ok tt, w).
Proof.
  intros Hno. unfold check_package_for_ext_mods. rewrite M_bind_unfold.
  unfold os_walk. destruct (stat_at E path w) as [[data|es]| |]; try reflexivity.
  destruct (Hno es eq_refl).
Qed.

Lemma check_package_not_a_directory_witness :
  check_package_for_ext_mods Sample.env "/a/b/inner.so" "3.6" None Sample.ab_world
  = (Ok tt, Sample.ab_world)
  ∧ check_package_for_ext_mods Sample.env "/nowhere.so" "3.6" (Some ["x"]) Sample.ab_world
    = (Ok tt, Sample.ab_world).
Proof.
  split; apply check_package_not_a_directory; intros es; vm_compute; discriminate.
Defined.

(** ** The ignore entries [copy_modules] hands on *)

(** X9: the "Format ignore path" step of [copy_modules] keeps the keys of
    the mapping and turns every set of entries into the set of their
    resolved absolute paths: under an absolute working directory every
    entry handed to the scan is absolute, none is repeated, and the entries
    are exactly the images of the given ones; no mapping counts as the
    empty one. *)
Theorem format_ignore_path_normalises (E : Env)
    (packages_ignorePath : option (gmap string (list string))) (key : string) :
  os_path.isabs (os_getcwd E) = true →
  match format_ignore_path E packages_ignorePath !! key with
  | Some entries =>
      NoDup entries
      ∧ Forall (λ entry, os_path.isabs entry = true) entries
      ∧ ∃ value,
          default ∅ packages_ignorePath !! key = Some value
          ∧ ∀ entry, entry ∈ entries ↔
              ∃ item, item ∈ value
                      ∧ entry = os_path.abspath E (os_path_realpath E item)
  | None => default ∅ packages_ignorePath !! key = None
  end.
Proof.
  intros Hcwd. destruct packages_ignorePath as [ign|]; cbn [format_ignore_path default];
    [|rewrite lookup_empty; reflexivity].
  unfold from_option, id.
  destruct (decide (ign ≠ ∅)) as [Hne|He].
  - rewrite (bool_decide_eq_true_2 _ Hne), lookup_fmap.
    destruct (ign !! key) as [value|]; [|reflexivity]. cbn [fmap option_fmap option_map].
    split; [apply NoDup_remove_dups|]. split.
    + apply Forall_forall. intros entry Hin. rewrite elem_of_remove_dups in Hin.
      apply list_elem_of_In, in_map_iff in Hin as (item & <- & _).
      apply abspath_isabs, Hcwd.
    + exists value. split; [reflexivity|]. intros entry.
      rewrite elem_of_remove_dups, list_elem_of_In, in_map_iff.
      split.
      * intros (item & H1 & H2). exists item. split; [apply list_elem_of_In, H2 | auto].
      * intros (item & H1 & H2). exists item. split; [auto | apply list_elem_of_In, H1].
  - rewrite (bool_decide_eq_false_2 _ He). apply dec_stable in He. subst ign.
    rewrite lookup_empty. reflexivity.
Qed.

Lemma format_ignore_path_normalises_witness :
  match format_ignore_path Sample.env (Some {[ "p" := ["sub"; "/w/./sub"] ]}) !! "p" with
  | Some entries =>
      NoDup entries
      ∧ Forall (λ entry, os_path.isabs entry = true) entries
      ∧ ∃ value,
          default ∅ (Some ({[ "p" := ["sub"; "/w/./sub"] ]} : gmap string (list string)))
            !! "p" = Some value
          ∧ ∀ entry, entry ∈ entries ↔
              ∃ item, item ∈ value
                      ∧ entry = os_path.abspath Sample.env
                                  (os_path_realpath Sample.env item)
  | None =>
      default ∅ (Some ({[ "p" := ["sub"; "/w/./sub"] ]} : gmap string (list string)))
        !! "p" = None
  end.
Proof.
  apply (format_ignore_path_normalises Sample.env
           (Some {[ "p" := ["sub"; "/w/./sub"] ]}) "p").
  reflexivity.
Defined.

(** ** The exclusion callback *)

(** X10: the names the exclusion callback tells [copytree] to leave out are
    names of the directory being copied, and they are those whose staged
    path [pkgs/<modname>/<reldir>/<name>], normalised, matches one of the
    exclusion patterns or ['*.pyc']: the patterns are read against the
    build directory, not against the source.  [normalize_path] is taken to
    keep the last component of a portable name. *)
Theorem callback_ignores_matching (E : Env) (excludes : list string)
    (pkgdir modname directory reldir : string) (files : list string) :
  (∀ dir fname, portable_name fname = true →
     os_path.basename (normalize_path E (os_path.join dir [fname])) = fname) →
  Forall (λ fname, portable_name fname = true) files →
  os_path.relpath E directory pkgdir = Ok reldir →
  ∃ ignored,
    copytree_ignore_callback E excludes pkgdir modname directory files = Ok ignored
    ∧ ∀ name, name ∈ ignored ↔
        name ∈ files
        ∧ ∃ pattern,
            pattern ∈ excludes ++ ["*.pyc"]
            ∧ fnmatch.fnmatchcase
                (normalize_path E
                   (os_path.join (os_path.join "pkgs" [modname; reldir]) [name]))
                pattern = true.
Proof.
  intros Hnorm Hfiles Hrel. unfold copytree_ignore_callback. rewrite Hrel.
  eexists. split; [reflexivity|]. intros name.
  rewrite Forall_forall in Hfiles.
  rewrite list_elem_of_In, in_flat_map. split.
  - intros (pattern & Hpat & Hin). apply in_map_iff in Hin as (staged & <- & Hin).
    unfold fnmatch.filter in Hin. apply List.filter_In in Hin as [Hin Hmatch].
    apply in_map_iff in Hin as (fname & <- & Hin).
    apply list_elem_of_In in Hin.
    rewrite (Hnorm _ fname (Hfiles fname Hin)). split; [exact Hin|].
    exists pattern. split; [apply list_elem_of_In, Hpat | exact Hmatch].
  - intros (Hin & pattern & Hpat & Hmatch). exists pattern.
    split; [apply list_elem_of_In, Hpat|]. apply in_map_iff.
    exists (normalize_path E
              (os_path.join (os_path.join "pkgs" [modname; reldir]) [name])).
    split; [apply Hnorm, Hfiles, Hin|].
    unfold fnmatch.filter. apply List.filter_In. split; [|exact Hmatch].
    apply in_map_iff. exists name. split; [reflexivity | apply list_elem_of_In, Hin].
Qed.

Lemma callback_ignores_matching_witness :
  ∃ ignored,
    copytree_ignore_callback Sample.env ["pkgs/p/sub/x.py"] "/lib/p" "p" "/lib/p/sub"
      ["x.py"; "x.pyc"; "y.py"] = Ok ignored
    ∧ ∀ name, name ∈ ignored ↔
        name ∈ ["x.py"; "x.pyc"; "y.py"]
        ∧ ∃ pattern,
            pattern ∈ ["pkgs/p/sub/x.py"] ++ ["*.pyc"]
            ∧ fnmatch.fnmatchcase
                (normalize_path Sample.env
                   (os_path.join (os_path.join "pkgs" ["p"; "sub"]) [name]))
                pattern = true.
Proof.
  apply (callback_ignores_matching Sample.env ["pkgs/p/sub/x.py"] "/lib/p" "p"
           "/lib/p/sub" "sub" ["x.py"; "x.pyc"; "y.py"]).
  - intros dir fname Hport. apply basename_join_entry.
    unfold portable_name in Hport. apply andb_true_iff in Hport. tauto.
  - repeat constructor.
  - reflexivity.
Defined.

(** ** Staging a module that is one file *)

(** [shutil.copy2] of a regular file into a directory: the file is put
    there under its own name, by one recorded call. *)
Lemma copy2_into_directory (E : Env) (src dst data : string)
    (es : list (string * node)) (w : world) :
  let name := os_path.basename src in
  let dest := os_path.join dst [name] in
  stat_at E src w = Tree.Found (File data) →
  stat_at E dst w = Tree.Found (Dir es) →
  entry_name name = true →
  isdir E dest w = false →
  fs_path E src ≠ fs_path E dest →
  ∃ w',
    shutil_copy2 E src dst w = (Ok tt, w')
    ∧ calls w' = calls w ++ [CallCopy2 src dest]
    ∧ tmp_names w' = tmp_names w
    ∧ stat_at E dest w' = Tree.Found (File data)
    ∧ stat_at E dst w' = Tree.Found (Dir (Tree.set name (File data) es)).
Proof.
  intros name dest Hsrc Hdst Hname Hfree Hother.
  destruct (put_entry false (fs_path E dst) name (File data) (fs w) es Hdst)
    as (fs' & Hput & Hstat).
  assert (Hpath : fs_path E dest = fs_path E dst ++ [name]).
  { apply abspath_join_entry, Hname. }
  exists {| fs := fs'; tmp_names := tmp_names w;
            calls := calls w ++ [CallCopy2 src dest] |}.
  split; [|split; [reflexivity | split; [reflexivity | split]]].
  - assert (Hisdir : isdir E dst w = true) by (unfold isdir; rewrite Hdst; reflexivity).
    unfold shutil_copy2. rewrite Hisdir. fold name. fold dest.
    rewrite (bool_decide_eq_false_2 _ Hother), andb_false_r.
    rewrite Hsrc, Hfree. unfold store. rewrite Hpath, Hput. reflexivity.
  - unfold stat_at. simpl fs. rewrite Hpath. eapply put_stat, Hput.
  - exact Hstat.
Qed.

(** X11: a module that is one file, found through a plain file loader or
    through an extension loader whose file passes [check_ext_mod], is staged
    by [ModuleCopier.copy] as the file of the same name and contents in the
    target directory, by a single [copy2]; the exclusion patterns and the
    two path mappings play no part. *)
Theorem copy_stages_module_file (E : Env) (self : ModuleCopier)
    (modname target file data : string) (l : Loader)
    (exclude : option (list string))
    (packages_extraPath : option (list (string * string)))
    (packages_ignorePath : option (gmap string (list string)))
    (es : list (string * node)) (w : world) :
  find_spec E modname (path self) = Some {| loader := Some l |} →
  l = FileLoader file false
  ∨ (∃ is_package, l = ExtensionFileLoader file is_package)
    ∧ check_ext_mod E file (py_version self) = Ok tt →
  stat_at E file w = Tree.Found (File data) →
  stat_at E target w = Tree.Found (Dir es) →
  entry_name (os_path.basename file) = true →
  isdir E (os_path.join target [os_path.basename file]) w = false →
  fs_path E file ≠ fs_path E (os_path.join target [os_path.basename file]) →
  ∃ w',
    ModuleCopier_copy E self modname target exclude packages_extraPath
      packages_ignorePath w = (Ok tt, w')
    ∧ calls w'
      = calls w ++ [CallCopy2 file (os_path.join target [os_path.basename file])]
    ∧ stat_at E (os_path.join target [os_path.basename file]) w'
      = Tree.Found (File data)
    ∧ os_listdir E target w'
      = (Ok (map fst (Tree.set (os_path.basename file) (File data) es)), w').
Proof.
  intros Hspec Hl Hsrc Hdst Hname Hfree Hother.
  destruct (copy2_into_directory E file target data es w Hsrc Hdst Hname Hfree Hother)
    as (w' & Hcopy & Hcalls & _ & Hfile & Hdir).
  exists w'. split; [|split; [exact Hcalls | split; [exact Hfile|]]].
  - unfold ModuleCopier_copy. rewrite Hspec. cbn [loader].
    destruct Hl as [->|[[is_package ->] Hcheck]].
    + exact Hcopy.
    + rewrite M_bind_unfold. unfold lift. rewrite Hcheck. exact Hcopy.
  - unfold os_listdir. rewrite Hdir. reflexivity.
Qed.

Lemma copy_stages_module_file_witness :
  (∃ w',
     ModuleCopier_copy Sample.env (ModuleCopier_init Sample.env "3.6.3" None)
       "m" "/t" (Some ["*.py"]) None None Sample.start = (Ok tt, w')
     ∧ calls w' = calls Sample.start ++ [CallCopy2 "/lib/m.py" "/t/m.py"]
     ∧ stat_at Sample.env "/t/m.py" w' = Tree.Found (File "m = 1")
     ∧ os_listdir Sample.env "/t" w' = (Ok ["m.py"], w'))
  ∧ (∃ w',
       ModuleCopier_copy Sample.env (ModuleCopier_init Sample.env "3.6.3" None)
         "e" "/t" None None None Sample.start = (Ok tt, w')
       ∧ calls w' = calls Sample.start ++ [CallCopy2 "/lib/e.pyd" "/t/e.pyd"]
       ∧ stat_at Sample.env "/t/e.pyd" w' = Tree.Found (File "binary")
       ∧ os_listdir Sample.env "/t" w' = (Ok ["e.pyd"], w')).
Proof.
  split.
  - apply (copy_stages_module_file Sample.env (ModuleCopier_init Sample.env "3.6.3" None)
             "m" "/t" "/lib/m.py" "m = 1" (FileLoader "/lib/m.py" false)
             (Some ["*.py"]) None None [] Sample.start);
      try reflexivity.
    + left. reflexivity.
    + vm_compute. discriminate.
  - apply (copy_stages_module_file Sample.env (ModuleCopier_init Sample.env "3.6.3" None)
             "e" "/t" "/lib/e.pyd" "binary" (ExtensionFileLoader "/lib/e.pyd" false)
             None None None [] Sample.start);
      try reflexivity.
    + right. split; [exists false|]; reflexivity.
    + vm_compute. discriminate.
Defined.

(** X12: staging is repeatable for a module file named after its module
    ([<modname>.<ext>]): a first [copy_modules] of the name into a target
    that has no entry of that stem copies the file, and a second one finds
    the stem in the listing and returns leaving the world as the first left
    it, without any further call. *)
Theorem copy_modules_again_is_noop (E : Env) (modname target py_version file data : string)
    (search_path : option (list string)) (exclude : option (list string))
    (packages_extraPath : option (list (string * string)))
    (packages_ignorePath : option (gmap string (list string)))
    (es : list (string * node)) (w : world) :
  find_spec E modname (path (ModuleCopier_init E py_version search_path))
  = Some {| loader := Some (FileLoader file false) |} →
  fst (os_path.splitext (os_path.basename file)) = modname →
  modname ∉ noext (map fst es) →
  stat_at E file w = Tree.Found (File data) →
  stat_at E target w = Tree.Found (Dir es) →
  entry_name (os_path.basename file) = true →
  isdir E (os_path.join target [os_path.basename file]) w = false →
  fs_path E file ≠ fs_path E (os_path.join target [os_path.basename file]) →
  ∃ w',
    copy_modules E [modname] target py_version search_path exclude packages_extraPath
      packages_ignorePath w = (Ok tt, w')
    ∧ calls w'
      = calls w ++ [CallCopy2 file (os_path.join target [os_path.basename file])]
    ∧ copy_modules E [modname] target py_version search_path exclude packages_extraPath
        packages_ignorePath w' = (Ok tt, w').
Proof.
  intros Hspec Hstem Hnew Hsrc Hdst Hname Hfree Hother.
  destruct (copy2_into_directory E file target data es w Hsrc Hdst Hname Hfree Hother)
    as (w' & Hcopy & Hcalls & _ & _ & Hdir).
  exists w'. split; [|split; [exact Hcalls|]].
  - rewrite copy_modules_unfold. unfold os_listdir. rewrite Hdst.
    unfold to_copy. cbn [List.filter]. rewrite (bool_decide_eq_false_2 _ Hnew).
    cbn [negb M_for]. rewrite M_bind_unfold.
    unfold ModuleCopier_copy. rewrite Hspec. cbn [loader loader_is_package].
    rewrite Hcopy. reflexivity.
  - rewrite copy_modules_unfold. unfold os_listdir. rewrite Hdir.
    rewrite to_copy_all_present; [reflexivity|].
    constructor; [|constructor]. unfold noext. rewrite <- Hstem.
    apply list_elem_of_In.
    apply (in_map (λ f, fst (os_path.splitext f))), list_elem_of_In, set_has_name.
Qed.

Lemma copy_modules_again_is_noop_witness :
  ∃ w',
    copy_modules Sample.env ["m"] "/t" "3.6.3" None None None None Sample.start
    = (Ok tt, w')
    ∧ calls w' = calls Sample.start ++ [CallCopy2 "/lib/m.py" "/t/m.py"]
    ∧ copy_modules Sample.env ["m"] "/t" "3.6.3" None None None None w' = (Ok tt, w').
Proof.
  apply (copy_modules_again_is_noop Sample.env "m" "/t" "3.6.3" "/lib/m.py" "m = 1"
           None None None None [] Sample.start); try reflexivity.
  - vm_compute. apply not_elem_of_nil.
  - vm_compute. discriminate.
Defined.

(** ** Staging a package directory *)

Lemma copy_entries_prune (copy : string → node → res node) (P : string → bool)
    (ignored : list string) (src : string) (l : list (string * node)) :
  Forall (λ e, (fst e ∈ ignored ↔ P (fst e) = true)
               ∧ ∀ from, copy from (snd e) = Ok (prune P (snd e))) l →
  copy_entries copy ignored src l
  = Ok (flat_map (λ e, if P (fst e) then [] else [(fst e, prune P (snd e))]) l).
Proof.
  induction 1 as [|e l [Hig Hcopy] _ IH]; [reflexivity|].
  cbn [copy_entries flat_map]. fold (copy_entries copy ignored src).
  destruct (P (fst e)) eqn:HP.
  - rewrite bool_decide_eq_true_2 by (apply Hig; reflexivity). exact IH.
  - rewrite bool_decide_eq_false_2 by (rewrite Hig; discriminate).
    rewrite Hcopy, IH. reflexivity.
Qed.

(** With [ignore_patterns('*.pyc')], [copytree] copies the tree pruned of
    its ['*.pyc'] entries. *)
Lemma copytree_node_prune (n : node) (src : string) :
  copytree_node (shutil_ignore_patterns ["*.pyc"]) src n = Ok (prune is_pyc n).
Proof.
  revert src. induction n as [data|es IH] using node_induction; intros src;
    [reflexivity|].
  cbn [copytree_node prune]. unfold shutil_ignore_patterns in *.
  unfold mbind, res_mbind. cbn [res_bind].
  rewrite (copy_entries_prune _ is_pyc); [reflexivity|].
  apply Forall_forall. intros e He. split.
  - cbn [flat_map]. rewrite app_nil_r. unfold fnmatch.filter.
    rewrite list_elem_of_In, List.filter_In. split; [tauto|].
    intros Hp. split; [|exact Hp]. apply in_map, list_elem_of_In, He.
  - rewrite Forall_forall in IH. apply IH, He.
Qed.

(** [os.path.relpath] fails on the empty path only. *)
Lemma relpath_returns (E : Env) (p start : string) :
  p ≠ "" → ∃ rel, os_path.relpath E p start = Ok rel.
Proof.
  intros Hp. unfold os_path.relpath. rewrite (nonempty_true p Hp). cbn [negb].
  match goal with |- ∃ rel, match ?l with _ => _ end = _ => destruct l end; eauto.
Qed.

Lemma copy_package_steps (E : Env) (self : ModuleCopier)
    (modname target file : string) (exclude : option (list string))
    (packages_extraPath : option (list (string * string)))
    (packages_ignorePath : option (gmap string (list string)))
    (dest : string) (w : world) :
  find_spec E modname (path self) = Some {| loader := Some (FileLoader file true) |} →
  PyStr.startswith (snd (os_path.split file)) "__init__" = true →
  fst (check_package_for_ext_mods E (fst (os_path.split file)) (py_version self)
         (default ∅ packages_ignorePath !! modname) w) = Ok tt →
  extraPath_dest E (default [] packages_extraPath) (fst (os_path.split file))
    target modname = Ok dest →
  ModuleCopier_copy E self modname target exclude packages_extraPath
    packages_ignorePath w
  = shutil_copytree E (fst (os_path.split file)) dest
      (Some (match exclude with
             | Some (pattern :: patterns) =>
                 copytree_ignore_callback E (pattern :: patterns)
                   (fst (os_path.split file)) modname
             | _ => shutil_ignore_patterns ["*.pyc"]
             end)) w.
Proof.
  intros Hspec Hinit Hcheck Hdest.
  unfold ModuleCopier_copy. rewrite Hspec. cbn [loader loader_is_package].
  destruct (os_path.split file) as [pkgdir basename].
  simpl fst in *. simpl snd in *.
  rewrite M_bind_unfold, Hinit. simpl assert. unfold mret at 1, M_mret at 1.
  cbn beta iota. rewrite M_bind_unfold.
  pose proof (check_package_for_ext_mods_reads E pkgdir (py_version self)
                (default ∅ packages_ignorePath !! modname) w) as Hw.
  destruct (check_package_for_ext_mods E pkgdir _ _ w) as [r w1].
  simpl in Hcheck, Hw. subst r w1.
  rewrite M_bind_unfold, Hdest. unfold lift. cbn beta iota.
  destruct exclude as [[|pattern patterns]|]; reflexivity.
Qed.

(** X13: [ModuleCopier.copy] never writes into a destination that is
    already there: for a package that passes its checks, when the
    destination of the tree copy exists (file or directory), the call
    raises [FileExistsError] and leaves the world as it is, with or without
    exclusion patterns. *)
Theorem copy_package_onto_existing (E : Env) (self : ModuleCopier)
    (modname target file : string) (exclude : option (list string))
    (packages_extraPath : option (list (string * string)))
    (packages_ignorePath : option (gmap string (list string)))
    (dest : string) (w : world) :
  let pkgdir := fst (os_path.split file) in
  find_spec E modname (path self) = Some {| loader := Some (FileLoader file true) |} →
  PyStr.startswith (snd (os_path.split file)) "__init__" = true →
  fst (check_package_for_ext_mods E pkgdir (py_version self)
         (default ∅ packages_ignorePath !! modname) w) = Ok tt →
  extraPath_dest E (default [] packages_extraPath) pkgdir target modname = Ok dest →
  pkgdir ≠ "" →
  isdir E pkgdir w = true →
  exists_at E dest w = true →
  ModuleCopier_copy E self modname target exclude packages_extraPath
    packages_ignorePath w
  = (Raise (FileExistsError dest), w).
Proof.
  intros pkgdir Hspec Hinit Hcheck Hdest Hne Hdir Hthere.
  rewrite (copy_package_steps E self modname target file exclude packages_extraPath
             packages_ignorePath dest w Hspec Hinit Hcheck Hdest).
  fold pkgdir. unfold shutil_copytree. unfold isdir in Hdir.
  destruct (stat_at E pkgdir w) as [[data|es]| |]; try discriminate Hdir.
  cbn [default from_option id].
  destruct exclude as [[|pattern patterns]|]; cbn iota.
  - unfold shutil_ignore_patterns at 1. rewrite Hthere. reflexivity.
  - destruct (relpath_returns E pkgdir pkgdir Hne) as [reldir Hrel].
    unfold copytree_ignore_callback at 1. rewrite Hrel.
    cbn [mbind res_mbind res_bind]. rewrite Hthere. reflexivity.
  - unfold shutil_ignore_patterns at 1. rewrite Hthere. reflexivity.
Qed.

Lemma copy_package_onto_existing_witness :
  ModuleCopier_copy Sample.env (ModuleCopier_init Sample.env "3.6.3" None)
    "p" "/" (Some ["*.txt"]) (Some [("/link/p", "lib")]) None Sample.start
  = (Raise (FileExistsError "/lib/p"), Sample.start).
Proof.
  apply (copy_package_onto_existing Sample.env (ModuleCopier_init Sample.env "3.6.3" None)
           "p" "/" "/lib/p/__init__.py" (Some ["*.txt"]) (Some [("/link/p", "lib")]) None
           "/lib/p" Sample.start); try reflexivity.
  discriminate.
Defined.

(** X14: without exclusion patterns a package is staged whole but for its
    compiled-cache files: [ModuleCopier.copy] puts at [target/<modname>],
    by one [copytree], the package directory pruned of the entries matching
    ['*.pyc'] at every depth, every other file and directory in place with
    its contents. *)
Theorem copy_stages_package_tree (E : Env) (self : ModuleCopier)
    (modname target file : string) (exclude : option (list string))
    (packages_ignorePath : option (gmap string (list string)))
    (es ts : list (string * node)) (w : world) :
  let pkgdir := fst (os_path.split file) in
  let dest := os_path.join target [modname] in
  find_spec E modname (path self) = Some {| loader := Some (FileLoader file true) |} →
  PyStr.startswith (snd (os_path.split file)) "__init__" = true →
  fst (check_package_for_ext_mods E pkgdir (py_version self)
         (default ∅ packages_ignorePath !! modname) w) = Ok tt →
  exclude = None ∨ exclude = Some [] →
  pkgdir ≠ "" →
  stat_at E pkgdir w = Tree.Found (Dir es) →
  stat_at E target w = Tree.Found (Dir ts) →
  entry_name modname = true →
  exists_at E dest w = false →
  ∃ w',
    ModuleCopier_copy E self modname target exclude None packages_ignorePath w
    = (Ok tt, w')
    ∧ calls w' = calls w ++ [CallCopytree pkgdir dest]
    ∧ stat_at E dest w' = Tree.Found (prune is_pyc (Dir es)).
Proof.
  intros pkgdir dest Hspec Hinit Hcheck Hex _ Hpkg Htarget Hname Hfree.
  destruct (put_entry true (fs_path E target) modname (prune is_pyc (Dir es))
              (fs w) ts Htarget) as (fs' & Hput & _).
  assert (Hpath : fs_path E dest = fs_path E target ++ [modname]).
  { apply abspath_join_entry, Hname. }
  exists {| fs := fs'; tmp_names := tmp_names w;
            calls := calls w ++ [CallCopytree pkgdir dest] |}.
  split; [|split; [reflexivity|]].
  - rewrite (copy_package_steps E self modname target file exclude None
               packages_ignorePath dest w Hspec Hinit Hcheck eq_refl).
    fold pkgdir.
    replace (match exclude with
             | Some (pattern :: patterns) =>
                 copytree_ignore_callback E (pattern :: patterns) pkgdir modname
             | _ => shutil_ignore_patterns ["*.pyc"]
             end) with (shutil_ignore_patterns ["*.pyc"])
      by (destruct Hex as [->| ->]; reflexivity).
    unfold shutil_copytree. rewrite Hpkg. cbn [default from_option id].
    unfold shutil_ignore_patterns at 1. rewrite Hfree, copytree_node_prune.
    unfold store. rewrite Hpath, Hput. reflexivity.
  - unfold stat_at. simpl fs. rewrite Hpath. eapply put_stat, Hput.
Qed.

Lemma copy_stages_package_tree_witness :
  ∃ w',
    ModuleCopier_copy Sample.env (ModuleCopier_init Sample.env "3.6.3" None)
      "p" "/t" None None None Sample.start = (Ok tt, w')
    ∧ calls w' = calls Sample.start ++ [CallCopytree "/lib/p" "/t/p"]
    ∧ stat_at Sample.env "/t/p" w'
      = Tree.Found (Dir [("__init__.py", File ""); ("sub", Dir [("x.py", File "x = 1")])]).
Proof.
  apply (copy_stages_package_tree Sample.env (ModuleCopier_init Sample.env "3.6.3" None)
           "p" "/t" "/lib/p/__init__.py" None None
           [("__init__.py", File ""); ("__init__.pyc", File "cache");
            ("sub", Dir [("x.py", File "x = 1"); ("x.pyc", File "cache")])]
           [] Sample.start); try reflexivity.
  - left. reflexivity.
  - discriminate.
Defined.

(** X15: the destination of a package is looked up by [os.path.samefile],
    which stats both paths: a key of [packages_extraPath] that does not
    exist, reached before any key that is the package's directory, makes
    the copy of the package fail with [FileNotFoundError] on that key, the
    world left as it is, whether or not the key has to do with the
    package. *)
Theorem copy_package_missing_extra_key (E : Env) (self : ModuleCopier)
    (modname target file key value : string) (exclude : option (list string))
    (pre post : list (string * string))
    (packages_ignorePath : option (gmap string (list string))) (w : world) :
  let pkgdir := fst (os_path.split file) in
  find_spec E modname (path self) = Some {| loader := Some (FileLoader file true) |} →
  PyStr.startswith (snd (os_path.split file)) "__init__" = true →
  fst (check_package_for_ext_mods E pkgdir (py_version self)
         (default ∅ packages_ignorePath !! modname) w) = Ok tt →
  Forall (λ kv, ∃ s1 s2, os_stat E (fst kv) = Some s1 ∧ os_stat E pkgdir = Some s2
                         ∧ s1 ≠ s2) pre →
  os_stat E key = None →
  ModuleCopier_copy E self modname target exclude
    (Some (pre ++ (key, value) :: post)) packages_ignorePath w
  = (Raise (FileNotFoundError key), w).
Proof.
  intros pkgdir Hspec Hinit Hcheck Hpre Hkey.
  unfold ModuleCopier_copy. rewrite Hspec. cbn [loader loader_is_package].
  subst pkgdir. destruct (os_path.split file) as [pkgdir basename].
  simpl fst in *. simpl snd in *.
  rewrite M_bind_unfold, Hinit. simpl assert. unfold mret at 1, M_mret at 1.
  cbn beta iota. rewrite M_bind_unfold.
  pose proof (check_package_for_ext_mods_reads E pkgdir (py_version self)
                (default ∅ packages_ignorePath !! modname) w) as Hw.
  destruct (check_package_for_ext_mods E pkgdir _ _ w) as [r w1].
  simpl in Hcheck, Hw. subst r w1.
  rewrite M_bind_unfold. cbn [default from_option id].
  assert (Hdest : extraPath_dest E (pre ++ (key, value) :: post) pkgdir target modname
                  = Raise (FileNotFoundError key)).
  { induction Hpre as [|[k v] pre (s1 & s2 & Hk & Hp & Hne) _ IH].
    - cbn [app extraPath_dest]. unfold os_path.samefile. rewrite Hkey. reflexivity.
    - cbn [app extraPath_dest]. unfold os_path.samefile. simpl in Hk.
      rewrite Hk, Hp. cbn [mbind res_mbind res_bind].
      rewrite bool_decide_eq_false_2 by exact Hne. exact IH. }
  rewrite Hdest. reflexivity.
Qed.

Lemma copy_package_missing_extra_key_witness :
  ModuleCopier_copy Sample.env (ModuleCopier_init Sample.env "3.6.3" None)
    "p" "/t" None (Some ([("/lib", "any")] ++ ("/gone", "x") :: [("/link/p", "win32")]))
    None Sample.start
  = (Raise (FileNotFoundError "/gone"), Sample.start).
Proof.
  apply (copy_package_missing_extra_key Sample.env
           (ModuleCopier_init Sample.env "3.6.3" None)
           "p" "/t" "/lib/p/__init__.py" "/gone" "x" None
           [("/lib", "any")] [("/link/p", "win32")] None Sample.start);
    try reflexivity.
  constructor; [|constructor].
  exists (1, 2), (1, 10). split; [reflexivity|]. split; [reflexivity | discriminate].
Defined.

(** ** The stems [copy_modules] takes as staged *)

Lemma take_length_app (a b : string) : PyStr.take (String.length a) (a +:+ b) = a.
Proof.
  induction a as [|x a IH]; [destruct b; reflexivity|].
  rewrite append_cons. simpl. rewrite IH. reflexivity.
Qed.

Lemma contains_app (c : ascii) (a b : string) :
  PyStr.contains c (a +:+ b) = PyStr.contains c a || PyStr.contains c b.
Proof.
  induction a as [|x a IH]; [reflexivity|].
  rewrite append_cons. simpl. rewrite IH. apply orb_assoc.
Qed.

(** [splitext] of a name without dot or slash. *)
Lemma splitext_plain (name : string) :
  PyStr.contains "." name = false → os_path.splitext name = (name, "").
Proof.
  intros Hdot. unfold os_path.splitext. rewrite (rfind_none _ _ Hdot). reflexivity.
Qed.

(** [splitext] of [stem.ext]: the stem, when it has no dot or slash and is
    not empty, and the extension has no dot or slash either. *)
Lemma splitext_stem (stem ext : string) :
  stem ≠ "" →
  PyStr.contains "." stem = false → PyStr.contains "/" stem = false →
  PyStr.contains "." ext = false → PyStr.contains "/" ext = false →
  os_path.splitext (stem +:+ "." +:+ ext) = (stem, "." +:+ ext).
Proof.
  intros Hne Hdot Hsep Hedot Hesep. unfold os_path.splitext, os_path.after_last_sep.
  assert (Hnosep : PyStr.contains "/" (stem +:+ "." +:+ ext) = false).
  { rewrite !contains_app, Hsep, Hesep. reflexivity. }
  unfold os_path.sep. rewrite (rfind_none _ _ Hnosep).
  rewrite <- (append_assoc stem "." ext), (rfind_app_nosep "." _ ext Hedot).
  rewrite (rfind_trailing "." stem). rewrite Nat.sub_0_r.
  destruct stem as [|c stem]; [congruence|].
  assert (Hc : c ≠ "."%char).
  { intros ->. simpl in Hdot. discriminate Hdot. }
  cbn [String.length seq existsb Nat.leb andb].
  replace (negb (bool_decide (PyStr.at_index ((String c stem +:+ ".") +:+ ext) 0
                              = Some "."%char))) with true.
  - cbn [orb]. rewrite (append_assoc (String c stem) "." ext).
    change (S (String.length stem)) with (String.length (String c stem)).
    rewrite take_length_app, drop_length_app. reflexivity.
  - symmetry. apply negb_true_iff, bool_decide_eq_false_2.
    rewrite !append_cons. unfold PyStr.at_index. simpl. congruence.
Qed.

(** X16: a requested name counts as staged as soon as the target lists an
    entry of that name, or of that name followed by a dot and any
    extension, whatever the entry is: when every name of a request that is
    not empty has such an entry, [copy_modules] returns without looking any
    module up and leaves the world as it found it.  Names are top-level
    import names, without dots. *)
Theorem copy_modules_skips_stems (E : Env) (modnames : list string)
    (target py_version : string) (search_path : option (list string))
    (exclude : option (list string))
    (packages_extraPath : option (list (string * string)))
    (packages_ignorePath : option (gmap string (list string)))
    (es : list (string * node)) (w : world) :
  stat_at E target w = Tree.Found (Dir es) →
  modnames ≠ [] →
  Forall (λ modname,
            modname ≠ ""
            ∧ PyStr.contains "." modname = false
            ∧ PyStr.contains "/" modname = false
            ∧ (modname ∈ map fst es
               ∨ ∃ ext, PyStr.contains "." ext = false
                        ∧ PyStr.contains "/" ext = false
                        ∧ modname +:+ "." +:+ ext ∈ map fst es)) modnames →
  copy_modules E modnames target py_version search_path exclude packages_extraPath
    packages_ignorePath w
  = (Ok tt, w).
Proof.
  intros Hdir Hne Hall. rewrite copy_modules_unfold. unfold os_listdir. rewrite Hdir.
  rewrite to_copy_all_present.
  - cbn [M_for]. unfold mret, M_mret. rewrite (bool_decide_eq_false_2 _ Hne). reflexivity.
  - eapply Forall_impl; [exact Hall|]. intros modname (Hm & Hdot & Hsep & Hentry).
    unfold noext. apply list_elem_of_In, in_map_iff.
    destruct Hentry as [Hin|(ext & Hedot & Hesep & Hin)].
    + exists modname. rewrite (splitext_plain modname Hdot).
      split; [reflexivity | apply list_elem_of_In, Hin].
    + exists (modname +:+ "." +:+ ext).
      rewrite (splitext_stem modname ext Hm Hdot Hsep Hedot Hesep).
      split; [reflexivity | apply list_elem_of_In, Hin].
Qed.

Lemma copy_modules_skips_stems_witness :
  copy_modules Sample.env ["m"; "p"; "nowhere"] "/lib" "3.6.3" None None None None
    {| fs := Dir [("lib", Dir [("m.py", File "m = 1"); ("p", Dir []);
                               ("nowhere.txt", File "notes")])];
       tmp_names := []; calls := [] |}
  = (Ok tt,
     {| fs := Dir [("lib", Dir [("m.py", File "m = 1"); ("p", Dir []);
                                ("nowhere.txt", File "notes")])];
        tmp_names := []; calls := [] |}).
Proof.
  eapply (copy_modules_skips_stems Sample.env ["m"; "p"; "nowhere"] "/lib" "3.6.3").
  - reflexivity.
  - discriminate.
  - apply List.Forall_cons; [|apply List.Forall_cons; [|apply List.Forall_cons;
                                                          [|apply List.Forall_nil]]];
      (split; [discriminate|]); (split; [reflexivity|]); (split; [reflexivity|]).
    + right. exists "py". split; [reflexivity|]. split; [reflexivity|].
      vm_compute. set_solver.
    + left. vm_compute. set_solver.
    + right. exists "txt". split; [reflexivity|]. split; [reflexivity|].
      vm_compute. set_solver.
Defined.

(** ** The scan as [copy_modules] runs it *)

Lemma res_for_outcome {A} (l : list A) (body : A → res unit) :
  (∀ x, body x = Ok tt ∨ ∃ msg, body x = Raise (ExtensionModuleMismatch msg)) →
  res_for l body = Ok tt ∨ ∃ msg, res_for l body = Raise (ExtensionModuleMismatch msg).
Proof.
  intros Hall. induction l as [|x l IH]; [left; reflexivity|].
  cbn [res_for]. destruct (Hall x) as [Hx|[msg Hx]]; rewrite Hx; cbn [res_bind];
    [exact IH | eauto].
Qed.

Lemma format_ignore_path_absolute (E : Env)
    (packages_ignorePath : option (gmap string (list string))) (key : string) :
  os_path.isabs (os_getcwd E) = true →
  Forall (λ item, os_path.isabs item = true)
         (default [] (format_ignore_path E packages_ignorePath !! key)).
Proof.
  intros Hcwd. destruct packages_ignorePath as [ign|]; cbn [format_ignore_path];
    [|rewrite lookup_empty; constructor].
  destruct (bool_decide (ign ≠ ∅)); [|rewrite lookup_empty; constructor].
  rewrite lookup_fmap. destruct (ign !! key) as [value|]; [|constructor].
  cbn [fmap option_fmap option_map default from_option id]. unfold id.
  apply Forall_forall. intros entry Hin. rewrite elem_of_remove_dups in Hin.
  apply list_elem_of_In, in_map_iff in Hin as (item & <- & _).
  apply abspath_isabs, Hcwd.
Qed.

(** X17: with the ignore entries as [copy_modules] formats them, the scan
    of a package cannot fail on the entries themselves: under an absolute
    working directory, whatever the mapping, the package path and the
    target version are, [check_package_for_ext_mods] either passes or raises
    [ExtensionModuleMismatch], and leaves the world as it is. *)
Theorem formatted_ignore_scan_outcome (E : Env) (pkgdir target_python modname : string)
    (packages_ignorePath : option (gmap string (list string))) (w : world) :
  os_path.isabs (os_getcwd E) = true →
  let ignore := format_ignore_path E packages_ignorePath !! modname in
  check_package_for_ext_mods E pkgdir target_python ignore w = (Ok tt, w)
  ∨ ∃ msg,
      check_package_for_ext_mods E pkgdir target_python ignore w
      = (Raise (ExtensionModuleMismatch msg), w).
Proof.
  intros Hcwd ignore.
  pose proof (format_ignore_path_absolute E packages_ignorePath modname Hcwd) as Habs.
  fold ignore in Habs. unfold check_package_for_ext_mods. rewrite M_bind_unfold.
  destruct (os_walk E pkgdir w) as [[triples|e] w1] eqn:Hwalk.
  - assert (w1 = w) as ->.
    { unfold os_walk in Hwalk. destruct (stat_at E pkgdir w); congruence. }
    unfold lift.
    match goal with |- (res_for triples ?body, w) = _ ∨ _ =>
      destruct (res_for_outcome triples body) as [Hok|[msg Hmsg]] end.
    + intros [[dirpath dirnames] filenames].
      set (formattedPath := os_path.abspath E _).
      assert (Hskip : ∃ b,
        (if bool_decide (default [] ignore ≠ []) then
           res_any (λ item,
                      c1 ← os_path.commonpath [item];
                      c2 ← os_path.commonpath [item; formattedPath];
                      Ok (String.eqb c1 c2)) (default [] ignore)
         else Ok false) = Ok b).
      { destruct (bool_decide (default [] ignore ≠ [])); [|eauto].
        eexists.
        apply (res_any_decides _ (λ item, contained_componentwise item formattedPath)).
        eapply Forall_impl; [exact Habs|].
        intros item Hi. simpl in Hi. apply commonpath_test; [exact Hi|].
        apply abspath_isabs, Hcwd. }
      destruct Hskip as [b Hskip]. unfold mbind at 1, res_mbind at 1.
      rewrite Hskip. cbn [res_bind]. destruct b; [left; reflexivity|].
      apply res_for_outcome. intros filename. apply check_ext_mod_cases.
    + left. rewrite Hok. reflexivity.
    + right. exists msg. rewrite Hmsg. reflexivity.
  - unfold os_walk in Hwalk. destruct (stat_at E pkgdir w); discriminate Hwalk.
Qed.

Lemma formatted_ignore_scan_outcome_witness :
  check_package_for_ext_mods Sample.env "/a" "3.6"
    (format_ignore_path Sample.env (Some {[ "a" := ["../a/b"] ]}) !! "a") Sample.ab_world
  = (Ok tt, Sample.ab_world)
  ∨ ∃ msg,
      check_package_for_ext_mods Sample.env "/a" "3.6"
        (format_ignore_path Sample.env (Some {[ "a" := ["../a/b"] ]}) !! "a")
        Sample.ab_world
      = (Raise (ExtensionModuleMismatch msg), Sample.ab_world).
Proof.
  apply (formatted_ignore_scan_outcome Sample.env "/a" "3.6" "a"
           (Some {[ "a" := ["../a/b"] ]}) Sample.ab_world).
  reflexivity.
Defined.
